(** * Campus Marketplace: the chat, negotiation and rating routes

    A shallow embedding of [backend/app/routes/chat.py] together with the
    SQLAlchemy models it manipulates ([models/chat.py],
    [models/transaction.py], [models/rating.py], [models/notification.py]).

    Request handlers are written in a small state-and-exception monad over
    - the committed database (tables are lists of rows in insertion order),
    - the SQLAlchemy session of the request (its unit of work), whose commit
      the database can refuse,
    - the process-wide registry [active_connections] and the events that
      were pushed through it.

    Python values are kept as Python has them: [int] is [Z], [float] is a
    binary64 primitive float, [None] is [None]. *)

From Stdlib Require Import ZArith List String Bool Lia.
From Stdlib Require Import Floats.PrimFloat Floats.FloatOps Floats.SpecFloat Floats.FloatAxioms.
From stdpp Require Import base tactics option strings gmap.

Import ListNotations.
Local Open Scope string_scope.
Local Open Scope list_scope.
Local Open Scope Z_scope.

(** ** Failures

    A handler either returns or raises.  [HTTPException] is what the routes
    raise on purpose; any other Python exception escapes the handler
    ([Unhandled]) and the framework answers 500. *)

Inductive Failure :=
| HTTPException (status_code : Z) (detail : string)
| Unhandled (exception : string).

Definition HTTP_400_BAD_REQUEST : Z := 400.
Definition HTTP_403_FORBIDDEN : Z := 403.
Definition HTTP_404_NOT_FOUND : Z := 404.
Definition HTTP_422_UNPROCESSABLE_ENTITY : Z := 422.
Definition HTTP_500_INTERNAL_SERVER_ERROR : Z := 500.

(** The status the client sees. *)
Definition response_status (f : Failure) : Z :=
  match f with
  | HTTPException code _ => code
  | Unhandled _ => HTTP_500_INTERNAL_SERVER_ERROR
  end.

Definition is_client_error (f : Failure) : bool :=
  (400 <=? response_status f) && (response_status f <? 500).

(** ** Python numbers *)

Module Py.

(** A JSON number arrives as an [int] or a [float]. *)
Inductive number :=
| PyInt (z : Z)
| PyFloat (f : float).

(** [int(x)] on a float: truncation toward zero; [nan] and the infinities
    raise. *)
Definition int_of_float (x : float) : Failure + Z :=
  match Prim2SF x with
  | S754_nan => inl (Unhandled "ValueError: cannot convert float NaN to integer")
  | S754_infinity _ => inl (Unhandled "OverflowError: cannot convert float infinity to integer")
  | S754_zero _ => inr 0
  | S754_finite s m e =>
      let magnitude := Z.shiftl (Zpos m) e in
      inr (if s then - magnitude else magnitude)
  end.

(** [float(z)]: the nearest binary64, ties to even.  (CPython raises
    OverflowError where this yields an infinity; integer columns never hold
    such values.) *)
Definition float_of_int (z : Z) : float :=
  SF2Prim (binary_normalize prec emax z 0 false).

(** [a / b] on two ints: the correctly rounded quotient. *)
Definition int_as_spec (z : Z) : spec_float :=
  match z with
  | Z0 => S754_zero false
  | Zpos p => S754_finite false p 0
  | Zneg p => S754_finite true p 0
  end.

Definition int_true_div (a b : Z) : Failure + float :=
  if b =? 0 then inl (Unhandled "ZeroDivisionError: division by zero")
  else inr (SF2Prim (SFdiv prec emax (int_as_spec a) (int_as_spec b))).

(** [n / d] rounded to the nearest integer, ties to even ([d > 0]). *)
Definition div_half_even (n d : Z) : Z :=
  let q := n / d in
  let r := n mod d in
  match (2 * r ?= d) with
  | Lt => q
  | Gt => q + 1
  | Eq => if Z.even q then q else q + 1
  end.

(** [round(x, 2)] on a float: the exact binary value is rounded to two
    decimals (ties to even) and the decimal result is read back as the
    nearest binary64. *)
Definition round2 (x : float) : float :=
  match Prim2SF x with
  | S754_finite s m e =>
      if 0 <=? e then x
      else
        let hundredths := div_half_even (Zpos m * 100) (Z.shiftl 1 (- e)) in
        match hundredths with
        | Zpos h => SF2Prim (SFdiv prec emax (S754_finite s h 0) (S754_finite false 100 0))
        | _ => SF2Prim (S754_zero s)
        end
  | _ => x
  end.

(** [x * 100] *)
Definition times100 (x : number) : number :=
  match x with
  | PyInt z => PyInt (z * 100)
  | PyFloat f => PyFloat (f * 100)%float
  end.

(** [int(x)] *)
Definition int (x : number) : Failure + Z :=
  match x with
  | PyInt z => inr z
  | PyFloat f => int_of_float f
  end.

(** [x <= 0] *)
Definition le_zero (x : number) : bool :=
  match x with
  | PyInt z => z <=? 0
  | PyFloat f => (f <=? 0)%float
  end.

(** [bool(x)] *)
Definition truthy (x : number) : bool :=
  match x with
  | PyInt z => negb (z =? 0)
  | PyFloat f => negb (f =? 0)%float
  end.

(** A [str] is held as its UTF-8 bytes.  [continues a]: the byte [a] has
    the form 10xxxxxx, it continues a character begun before. *)
Definition continues (a : Ascii.ascii) : bool :=
  match a with
  | Ascii.Ascii _ _ _ _ _ _ false true => true
  | _ => false
  end.

(** [len(s)]: the number of characters (code points), not of bytes. *)
Fixpoint len (s : string) : Z :=
  match s with
  | EmptyString => 0
  | String a rest => (if continues a then 0 else 1) + len rest
  end.

End Py.

(** ** Values carried by rows *)

(** [datetime] values: seconds on the server clock. *)
Definition datetime := Z.

(** Message and notification bodies are f-strings; a [Money] fragment is a
    number interpolated as [${x:.2f}]. *)
Inductive Fragment :=
| Lit (s : string)
| Money (x : Py.number).

Definition Text := list Fragment.

(** Modelled from the spec: [enums/item.py] is missing; these are the members
    of [ItemStatus] that the routes name ([item.status = "SOLD"] stores the
    member of that name). *)
Inductive ItemStatus := AVAILABLE | RESERVED | SOLD | REMOVED.

Inductive NotificationType := MESSAGE | ITEM_INTEREST | ITEM_SOLD | SYSTEM.

(** ** Rows

    One module per mapped class.  [id] is [None] on an object that was built
    in Python and has not been flushed yet: the primary key is generated by
    the INSERT.

    Modelled from the spec: [models/base.py] is missing; the base class gives
    every row the columns [id], [created_at], [created_by] and [updated_by]
    that the routes read and write. *)

(** Modelled from the spec: [models/user.py] is missing; the fields are the
    ones the chat routes read.  Users are never created here, so a [User.t]
    is always a stored row and its [id] is there. *)
Module User.

Record t := Build {
  id : Z;
  username : string;
  full_name : string;
}.

End User.

(** Modelled from the spec: [models/item.py] is missing; the fields are the
    ones the chat routes read and write. *)
Module Item.

Record t := Build {
  id : Z;
  seller_id : Z;
  title : string;
  price : float;
  status : ItemStatus;
  updated_by : option string;
}.

Definition set_status (v : ItemStatus) (x : t) : t :=
  {| id := id x; seller_id := seller_id x; title := title x; price := price x; status := v; updated_by := updated_by x |}.

Definition set_updated_by (v : option string) (x : t) : t :=
  {| id := id x; seller_id := seller_id x; title := title x; price := price x; status := status x; updated_by := v |}.

End Item.

(** [models/chat.py], class [Conversation]; the per-user status columns are
    commented out there and absent here. *)
Module Conversation.

Record t := Build {
  id : option Z;
  user1_id : Z;
  user2_id : Z;
  item_id : option Z;
  last_message_at : option datetime;
  is_sold : bool;
  sold_at : option datetime;
  transaction_id : option Z;
  pending_offer_price : option Z;
  pending_offer_from_user_id : option Z;
  pending_offer_at : option datetime;
  is_ended : bool;
  ended_at : option datetime;
  is_reported : bool;
  reported_at : option datetime;
  reported_by : option Z;
  report_reason : option string;
  created_by : option string;
  updated_by : option string;
}.

Definition set_id (v : option Z) (x : t) : t :=
  {| id := v; user1_id := user1_id x; user2_id := user2_id x; item_id := item_id x; last_message_at := last_message_at x; is_sold := is_sold x; sold_at := sold_at x; transaction_id := transaction_id x; pending_offer_price := pending_offer_price x; pending_offer_from_user_id := pending_offer_from_user_id x; pending_offer_at := pending_offer_at x; is_ended := is_ended x; ended_at := ended_at x; is_reported := is_reported x; reported_at := reported_at x; reported_by := reported_by x; report_reason := report_reason x; created_by := created_by x; updated_by := updated_by x |}.

Definition set_item_id (v : option Z) (x : t) : t :=
  {| id := id x; user1_id := user1_id x; user2_id := user2_id x; item_id := v; last_message_at := last_message_at x; is_sold := is_sold x; sold_at := sold_at x; transaction_id := transaction_id x; pending_offer_price := pending_offer_price x; pending_offer_from_user_id := pending_offer_from_user_id x; pending_offer_at := pending_offer_at x; is_ended := is_ended x; ended_at := ended_at x; is_reported := is_reported x; reported_at := reported_at x; reported_by := reported_by x; report_reason := report_reason x; created_by := created_by x; updated_by := updated_by x |}.

Definition set_last_message_at (v : option datetime) (x : t) : t :=
  {| id := id x; user1_id := user1_id x; user2_id := user2_id x; item_id := item_id x; last_message_at := v; is_sold := is_sold x; sold_at := sold_at x; transaction_id := transaction_id x; pending_offer_price := pending_offer_price x; pending_offer_from_user_id := pending_offer_from_user_id x; pending_offer_at := pending_offer_at x; is_ended := is_ended x; ended_at := ended_at x; is_reported := is_reported x; reported_at := reported_at x; reported_by := reported_by x; report_reason := report_reason x; created_by := created_by x; updated_by := updated_by x |}.

Definition set_is_sold (v : bool) (x : t) : t :=
  {| id := id x; user1_id := user1_id x; user2_id := user2_id x; item_id := item_id x; last_message_at := last_message_at x; is_sold := v; sold_at := sold_at x; transaction_id := transaction_id x; pending_offer_price := pending_offer_price x; pending_offer_from_user_id := pending_offer_from_user_id x; pending_offer_at := pending_offer_at x; is_ended := is_ended x; ended_at := ended_at x; is_reported := is_reported x; reported_at := reported_at x; reported_by := reported_by x; report_reason := report_reason x; created_by := created_by x; updated_by := updated_by x |}.

Definition set_sold_at (v : option datetime) (x : t) : t :=
  {| id := id x; user1_id := user1_id x; user2_id := user2_id x; item_id := item_id x; last_message_at := last_message_at x; is_sold := is_sold x; sold_at := v; transaction_id := transaction_id x; pending_offer_price := pending_offer_price x; pending_offer_from_user_id := pending_offer_from_user_id x; pending_offer_at := pending_offer_at x; is_ended := is_ended x; ended_at := ended_at x; is_reported := is_reported x; reported_at := reported_at x; reported_by := reported_by x; report_reason := report_reason x; created_by := created_by x; updated_by := updated_by x |}.

Definition set_transaction_id (v : option Z) (x : t) : t :=
  {| id := id x; user1_id := user1_id x; user2_id := user2_id x; item_id := item_id x; last_message_at := last_message_at x; is_sold := is_sold x; sold_at := sold_at x; transaction_id := v; pending_offer_price := pending_offer_price x; pending_offer_from_user_id := pending_offer_from_user_id x; pending_offer_at := pending_offer_at x; is_ended := is_ended x; ended_at := ended_at x; is_reported := is_reported x; reported_at := reported_at x; reported_by := reported_by x; report_reason := report_reason x; created_by := created_by x; updated_by := updated_by x |}.

Definition set_pending_offer_price (v : option Z) (x : t) : t :=
  {| id := id x; user1_id := user1_id x; user2_id := user2_id x; item_id := item_id x; last_message_at := last_message_at x; is_sold := is_sold x; sold_at := sold_at x; transaction_id := transaction_id x; pending_offer_price := v; pending_offer_from_user_id := pending_offer_from_user_id x; pending_offer_at := pending_offer_at x; is_ended := is_ended x; ended_at := ended_at x; is_reported := is_reported x; reported_at := reported_at x; reported_by := reported_by x; report_reason := report_reason x; created_by := created_by x; updated_by := updated_by x |}.

Definition set_pending_offer_from_user_id (v : option Z) (x : t) : t :=
  {| id := id x; user1_id := user1_id x; user2_id := user2_id x; item_id := item_id x; last_message_at := last_message_at x; is_sold := is_sold x; sold_at := sold_at x; transaction_id := transaction_id x; pending_offer_price := pending_offer_price x; pending_offer_from_user_id := v; pending_offer_at := pending_offer_at x; is_ended := is_ended x; ended_at := ended_at x; is_reported := is_reported x; reported_at := reported_at x; reported_by := reported_by x; report_reason := report_reason x; created_by := created_by x; updated_by := updated_by x |}.

Definition set_pending_offer_at (v : option datetime) (x : t) : t :=
  {| id := id x; user1_id := user1_id x; user2_id := user2_id x; item_id := item_id x; last_message_at := last_message_at x; is_sold := is_sold x; sold_at := sold_at x; transaction_id := transaction_id x; pending_offer_price := pending_offer_price x; pending_offer_from_user_id := pending_offer_from_user_id x; pending_offer_at := v; is_ended := is_ended x; ended_at := ended_at x; is_reported := is_reported x; reported_at := reported_at x; reported_by := reported_by x; report_reason := report_reason x; created_by := created_by x; updated_by := updated_by x |}.

Definition set_is_ended (v : bool) (x : t) : t :=
  {| id := id x; user1_id := user1_id x; user2_id := user2_id x; item_id := item_id x; last_message_at := last_message_at x; is_sold := is_sold x; sold_at := sold_at x; transaction_id := transaction_id x; pending_offer_price := pending_offer_price x; pending_offer_from_user_id := pending_offer_from_user_id x; pending_offer_at := pending_offer_at x; is_ended := v; ended_at := ended_at x; is_reported := is_reported x; reported_at := reported_at x; reported_by := reported_by x; report_reason := report_reason x; created_by := created_by x; updated_by := updated_by x |}.

Definition set_ended_at (v : option datetime) (x : t) : t :=
  {| id := id x; user1_id := user1_id x; user2_id := user2_id x; item_id := item_id x; last_message_at := last_message_at x; is_sold := is_sold x; sold_at := sold_at x; transaction_id := transaction_id x; pending_offer_price := pending_offer_price x; pending_offer_from_user_id := pending_offer_from_user_id x; pending_offer_at := pending_offer_at x; is_ended := is_ended x; ended_at := v; is_reported := is_reported x; reported_at := reported_at x; reported_by := reported_by x; report_reason := report_reason x; created_by := created_by x; updated_by := updated_by x |}.

Definition set_is_reported (v : bool) (x : t) : t :=
  {| id := id x; user1_id := user1_id x; user2_id := user2_id x; item_id := item_id x; last_message_at := last_message_at x; is_sold := is_sold x; sold_at := sold_at x; transaction_id := transaction_id x; pending_offer_price := pending_offer_price x; pending_offer_from_user_id := pending_offer_from_user_id x; pending_offer_at := pending_offer_at x; is_ended := is_ended x; ended_at := ended_at x; is_reported := v; reported_at := reported_at x; reported_by := reported_by x; report_reason := report_reason x; created_by := created_by x; updated_by := updated_by x |}.

Definition set_reported_at (v : option datetime) (x : t) : t :=
  {| id := id x; user1_id := user1_id x; user2_id := user2_id x; item_id := item_id x; last_message_at := last_message_at x; is_sold := is_sold x; sold_at := sold_at x; transaction_id := transaction_id x; pending_offer_price := pending_offer_price x; pending_offer_from_user_id := pending_offer_from_user_id x; pending_offer_at := pending_offer_at x; is_ended := is_ended x; ended_at := ended_at x; is_reported := is_reported x; reported_at := v; reported_by := reported_by x; report_reason := report_reason x; created_by := created_by x; updated_by := updated_by x |}.

Definition set_reported_by (v : option Z) (x : t) : t :=
  {| id := id x; user1_id := user1_id x; user2_id := user2_id x; item_id := item_id x; last_message_at := last_message_at x; is_sold := is_sold x; sold_at := sold_at x; transaction_id := transaction_id x; pending_offer_price := pending_offer_price x; pending_offer_from_user_id := pending_offer_from_user_id x; pending_offer_at := pending_offer_at x; is_ended := is_ended x; ended_at := ended_at x; is_reported := is_reported x; reported_at := reported_at x; reported_by := v; report_reason := report_reason x; created_by := created_by x; updated_by := updated_by x |}.

Definition set_report_reason (v : option string) (x : t) : t :=
  {| id := id x; user1_id := user1_id x; user2_id := user2_id x; item_id := item_id x; last_message_at := last_message_at x; is_sold := is_sold x; sold_at := sold_at x; transaction_id := transaction_id x; pending_offer_price := pending_offer_price x; pending_offer_from_user_id := pending_offer_from_user_id x; pending_offer_at := pending_offer_at x; is_ended := is_ended x; ended_at := ended_at x; is_reported := is_reported x; reported_at := reported_at x; reported_by := reported_by x; report_reason := v; created_by := created_by x; updated_by := updated_by x |}.

Definition set_updated_by (v : option string) (x : t) : t :=
  {| id := id x; user1_id := user1_id x; user2_id := user2_id x; item_id := item_id x; last_message_at := last_message_at x; is_sold := is_sold x; sold_at := sold_at x; transaction_id := transaction_id x; pending_offer_price := pending_offer_price x; pending_offer_from_user_id := pending_offer_from_user_id x; pending_offer_at := pending_offer_at x; is_ended := is_ended x; ended_at := ended_at x; is_reported := is_reported x; reported_at := reported_at x; reported_by := reported_by x; report_reason := report_reason x; created_by := created_by x; updated_by := v |}.

End Conversation.

(** [models/chat.py], class [Message]. *)
Module Message.

Record t := Build {
  id : option Z;
  conversation_id : Z;
  sender_id : Z;
  content : Text;
  is_read : bool;
  read_at : option datetime;
  created_at : option datetime;
  created_by : option string;
}.

Definition set_id (v : option Z) (x : t) : t :=
  {| id := v; conversation_id := conversation_id x; sender_id := sender_id x; content := content x; is_read := is_read x; read_at := read_at x; created_at := created_at x; created_by := created_by x |}.

Definition set_is_read (v : bool) (x : t) : t :=
  {| id := id x; conversation_id := conversation_id x; sender_id := sender_id x; content := content x; is_read := v; read_at := read_at x; created_at := created_at x; created_by := created_by x |}.

Definition set_read_at (v : option datetime) (x : t) : t :=
  {| id := id x; conversation_id := conversation_id x; sender_id := sender_id x; content := content x; is_read := is_read x; read_at := v; created_at := created_at x; created_by := created_by x |}.

Definition set_created_at (v : option datetime) (x : t) : t :=
  {| id := id x; conversation_id := conversation_id x; sender_id := sender_id x; content := content x; is_read := is_read x; read_at := read_at x; created_at := v; created_by := created_by x |}.

End Message.

(** [models/transaction.py]. *)
Module Transaction.

Record t := Build {
  id : option Z;
  item_id : option Z;
  seller_id : Z;
  buyer_id : Z;
  conversation_id : option Z;
  sale_price : float;
  original_price : option float;
  is_completed : bool;
  completed_at : option datetime;
  notes : option string;
  created_at : option datetime;
  created_by : option string;
}.

Definition set_id (v : option Z) (x : t) : t :=
  {| id := v; item_id := item_id x; seller_id := seller_id x; buyer_id := buyer_id x; conversation_id := conversation_id x; sale_price := sale_price x; original_price := original_price x; is_completed := is_completed x; completed_at := completed_at x; notes := notes x; created_at := created_at x; created_by := created_by x |}.

Definition set_conversation_id (v : option Z) (x : t) : t :=
  {| id := id x; item_id := item_id x; seller_id := seller_id x; buyer_id := buyer_id x; conversation_id := v; sale_price := sale_price x; original_price := original_price x; is_completed := is_completed x; completed_at := completed_at x; notes := notes x; created_at := created_at x; created_by := created_by x |}.

Definition set_created_at (v : option datetime) (x : t) : t :=
  {| id := id x; item_id := item_id x; seller_id := seller_id x; buyer_id := buyer_id x; conversation_id := conversation_id x; sale_price := sale_price x; original_price := original_price x; is_completed := is_completed x; completed_at := completed_at x; notes := notes x; created_at := v; created_by := created_by x |}.

End Transaction.

(** [models/rating.py]. *)
Module Rating.

Record t := Build {
  id : option Z;
  transaction_id : Z;
  rater_id : Z;
  rated_user_id : Z;
  rating : Z;
  comment : option string;
  created_at : option datetime;
  created_by : option string;
  updated_by : option string;
}.

Definition set_id (v : option Z) (x : t) : t :=
  {| id := v; transaction_id := transaction_id x; rater_id := rater_id x; rated_user_id := rated_user_id x; rating := rating x; comment := comment x; created_at := created_at x; created_by := created_by x; updated_by := updated_by x |}.

Definition set_rating (v : Z) (x : t) : t :=
  {| id := id x; transaction_id := transaction_id x; rater_id := rater_id x; rated_user_id := rated_user_id x; rating := v; comment := comment x; created_at := created_at x; created_by := created_by x; updated_by := updated_by x |}.

Definition set_comment (v : option string) (x : t) : t :=
  {| id := id x; transaction_id := transaction_id x; rater_id := rater_id x; rated_user_id := rated_user_id x; rating := rating x; comment := v; created_at := created_at x; created_by := created_by x; updated_by := updated_by x |}.

Definition set_created_at (v : option datetime) (x : t) : t :=
  {| id := id x; transaction_id := transaction_id x; rater_id := rater_id x; rated_user_id := rated_user_id x; rating := rating x; comment := comment x; created_at := v; created_by := created_by x; updated_by := updated_by x |}.

Definition set_updated_by (v : option string) (x : t) : t :=
  {| id := id x; transaction_id := transaction_id x; rater_id := rater_id x; rated_user_id := rated_user_id x; rating := rating x; comment := comment x; created_at := created_at x; created_by := created_by x; updated_by := v |}.

End Rating.

(** [models/notification.py]. *)
Module Notification.

Record t := Build {
  id : option Z;
  user_id : Z;
  type : NotificationType;
  title : string;
  message : Text;
  is_read : bool;
  read_at : option datetime;
  related_item_id : option Z;
  related_user_id : option Z;
  related_conversation_id : option Z;
  created_at : option datetime;
  created_by : option string;
}.

Definition set_id (v : option Z) (x : t) : t :=
  {| id := v; user_id := user_id x; type := type x; title := title x; message := message x; is_read := is_read x; read_at := read_at x; related_item_id := related_item_id x; related_user_id := related_user_id x; related_conversation_id := related_conversation_id x; created_at := created_at x; created_by := created_by x |}.

Definition set_is_read (v : bool) (x : t) : t :=
  {| id := id x; user_id := user_id x; type := type x; title := title x; message := message x; is_read := v; read_at := read_at x; related_item_id := related_item_id x; related_user_id := related_user_id x; related_conversation_id := related_conversation_id x; created_at := created_at x; created_by := created_by x |}.

Definition set_read_at (v : option datetime) (x : t) : t :=
  {| id := id x; user_id := user_id x; type := type x; title := title x; message := message x; is_read := is_read x; read_at := v; related_item_id := related_item_id x; related_user_id := related_user_id x; related_conversation_id := related_conversation_id x; created_at := created_at x; created_by := created_by x |}.

Definition set_related_conversation_id (v : option Z) (x : t) : t :=
  {| id := id x; user_id := user_id x; type := type x; title := title x; message := message x; is_read := is_read x; read_at := read_at x; related_item_id := related_item_id x; related_user_id := related_user_id x; related_conversation_id := v; created_at := created_at x; created_by := created_by x |}.

Definition set_created_at (v : option datetime) (x : t) : t :=
  {| id := id x; user_id := user_id x; type := type x; title := title x; message := message x; is_read := is_read x; read_at := read_at x; related_item_id := related_item_id x; related_user_id := related_user_id x; related_conversation_id := related_conversation_id x; created_at := v; created_by := created_by x |}.

End Notification.

(** ** Request and response schemas *)

(** A decoded JSON value.  Arrays and objects only matter through their
    truthiness. *)
Inductive json :=
| JNull
| JBool (b : bool)
| JNumber (x : Py.number)
| JString (s : string)
| JCompound (empty : bool).

Module ConversationCreate.
Record t := Build { user2_id : Z; item_id : option Z }.
End ConversationCreate.

Module MessageCreate.
Record t := Build { conversation_id : Z; content : string }.
End MessageCreate.

Module TransactionCreate.
Record t := Build { sale_price : float }.
End TransactionCreate.

Module RatingCreate.
Record t := Build {
  transaction_id : Z;
  rated_user_id : Z;
  rating : Z;
  comment : option string;
}.
End RatingCreate.

Module TransactionResponse.
Record t := Build {
  id : Z;
  item_id : Z;
  seller_id : Z;
  buyer_id : Z;
  conversation_id : option Z;
  sale_price : float;
  original_price : option float;
  is_completed : bool;
  completed_at : option datetime;
  notes : option string;
  created_at : option datetime;
}.
End TransactionResponse.

Module MessageResponse.
Record t := Build {
  id : option Z;
  conversation_id : Z;
  sender_id : Z;
  content : Text;
  is_read : bool;
  read_at : option datetime;
  created_at : option datetime;
  sender_username : option string;
  sender_full_name : option string;
}.
End MessageResponse.

(** [created_at] of a conversation is left out of the response. *)
Module ConversationResponse.
Record t := Build {
  id : option Z;
  user1_id : Z;
  user2_id : Z;
  item_id : option Z;
  last_message_at : option datetime;
  other_user_id : Z;
  other_user_username : string;
  other_user_full_name : string;
  unread_count : nat;
  last_message : option MessageResponse.t;
  status : string;
  is_sold : bool;
  is_ended : bool;
  transaction_id : option Z;
  transaction : option TransactionResponse.t;
  pending_offer_price : option float;
  pending_offer_from_user_id : option Z;
  pending_offer_at : option datetime;
}.
End ConversationResponse.

Module RatingResponse.
Record t := Build {
  id : option Z;
  transaction_id : Z;
  rater_id : Z;
  rated_user_id : Z;
  rating : Z;
  comment : option string;
  created_at : option datetime;
}.
End RatingResponse.

Module RatingSummary.
Record t := Build {
  average_rating : option float;
  rating_count : nat;
  viewer_rating : option Z;
}.
End RatingSummary.

(** What [respond_to_offer] answers: the serialized transaction on accept, a
    small dictionary otherwise. *)
Inductive OfferResponse :=
| OfferAccepted (transaction : TransactionResponse.t)
| OfferRejected
| OfferCountered (offer_price : Py.number).

(** ** Events pushed over a websocket *)

Module ConversationUpdated.
Record t := Build {
  conversation_id : option Z;
  item_id : option Z;
  is_sold : bool;
  is_ended : bool;
  transaction_id : option Z;
  transaction : option TransactionResponse.t;
  item_title : option string;
  item_status : option ItemStatus;
  item_price : option float;
  updated_at : datetime;
}.
End ConversationUpdated.

Module PurchaseOffer.
Record t := Build {
  conversation_id : Z;
  item_id : Z;
  item_title : string;
  offerer_name : string;
  offer_price : Py.number;
  original_price : float;
  is_from_seller : bool;
}.
End PurchaseOffer.

Module ItemSold.
Record t := Build {
  transaction_id : option Z;
  conversation_id : Z;
  item_id : Z;
  item_title : string;
  seller_name : string;
  buyer_name : string;
  sale_price : float;
  original_price : option float;
  transaction : TransactionResponse.t;
}.
End ItemSold.

(** The [{type, data}] envelope. *)
Inductive Event :=
| ev_notification (data : Notification.t)
| ev_message (data : MessageResponse.t)
| ev_conversation_updated (data : ConversationUpdated.t)
| ev_purchase_offer (data : PurchaseOffer.t)
| ev_item_sold (data : ItemSold.t)
| ev_notifications_read (conversation_id : Z) (count : nat).

(** A live channel; sending on a channel whose peer is gone raises. *)
Inductive WebSocket := Channel (peer_alive : bool).

(** ** The database *)

Record DB := mkDB {
  users : list User.t;
  items : list Item.t;
  conversations : list Conversation.t;
  messages : list Message.t;
  transactions : list Transaction.t;
  ratings : list Rating.t;
  notifications : list Notification.t;
  (* next value of each primary-key sequence *)
  conversations_seq : Z;
  messages_seq : Z;
  transactions_seq : Z;
  ratings_seq : Z;
  notifications_seq : Z;
}.

Definition empty_db : DB :=
  mkDB [] [] [] [] [] [] [] 1 1 1 1 1.

(** Objects the routes hand to [db.add]. *)
Inductive Entity :=
| EConversation (c : Conversation.t)
| EMessage (m : Message.t)
| ETransaction (t : Transaction.t)
| ERating (r : Rating.t)
| ENotification (n : Notification.t).

(** INSERT of one pending object: the sequence gives the primary key, the
    server clock gives [created_at].  Returns the row as stored. *)
Definition insert (now : datetime) (e : Entity) (db : DB) : Entity * DB :=
  match e with
  | EConversation c =>
      let row := Conversation.set_id (Some (conversations_seq db)) c in
      (EConversation row,
       mkDB (users db) (items db) (conversations db ++ [row]) (messages db)
            (transactions db) (ratings db) (notifications db)
            (conversations_seq db + 1) (messages_seq db) (transactions_seq db)
            (ratings_seq db) (notifications_seq db))
  | EMessage m =>
      let row := Message.set_created_at (Some now) (Message.set_id (Some (messages_seq db)) m) in
      (EMessage row,
       mkDB (users db) (items db) (conversations db) (messages db ++ [row])
            (transactions db) (ratings db) (notifications db)
            (conversations_seq db) (messages_seq db + 1) (transactions_seq db)
            (ratings_seq db) (notifications_seq db))
  | ETransaction t =>
      let row := Transaction.set_created_at (Some now) (Transaction.set_id (Some (transactions_seq db)) t) in
      (ETransaction row,
       mkDB (users db) (items db) (conversations db) (messages db)
            (transactions db ++ [row]) (ratings db) (notifications db)
            (conversations_seq db) (messages_seq db) (transactions_seq db + 1)
            (ratings_seq db) (notifications_seq db))
  | ERating r =>
      let row := Rating.set_created_at (Some now) (Rating.set_id (Some (ratings_seq db)) r) in
      (ERating row,
       mkDB (users db) (items db) (conversations db) (messages db)
            (transactions db) (ratings db ++ [row]) (notifications db)
            (conversations_seq db) (messages_seq db) (transactions_seq db)
            (ratings_seq db + 1) (notifications_seq db))
  | ENotification n =>
      let row := Notification.set_created_at (Some now) (Notification.set_id (Some (notifications_seq db)) n) in
      (ENotification row,
       mkDB (users db) (items db) (conversations db) (messages db)
            (transactions db) (ratings db) (notifications db ++ [row])
            (conversations_seq db) (messages_seq db) (transactions_seq db)
            (ratings_seq db) (notifications_seq db + 1))
  end.

(** The flush of a unit of work: every pending object is inserted. *)
Fixpoint flush (now : datetime) (pending : list Entity) (db : DB) : list Entity * DB :=
  match pending with
  | [] => ([], db)
  | e :: rest =>
      let '(row, db1) := insert now e db in
      let '(rows, db2) := flush now rest db1 in
      (row :: rows, db2)
  end.

(** UPDATE of the row that has the primary key of [x]. *)
Definition replace_row {A} (key : A -> option Z) (x : A) (rows : list A) : list A :=
  map (fun r => if bool_decide (key r = key x) then x else r) rows.

Definition update_conversation (c : Conversation.t) (db : DB) : DB :=
  mkDB (users db) (items db) (replace_row Conversation.id c (conversations db))
       (messages db) (transactions db) (ratings db) (notifications db)
       (conversations_seq db) (messages_seq db) (transactions_seq db)
       (ratings_seq db) (notifications_seq db).

Definition update_item (i : Item.t) (db : DB) : DB :=
  mkDB (users db)
       (map (fun r => if Item.id r =? Item.id i then i else r) (items db))
       (conversations db) (messages db) (transactions db) (ratings db)
       (notifications db)
       (conversations_seq db) (messages_seq db) (transactions_seq db)
       (ratings_seq db) (notifications_seq db).

Definition update_rating (r : Rating.t) (db : DB) : DB :=
  mkDB (users db) (items db) (conversations db) (messages db) (transactions db)
       (replace_row Rating.id r (ratings db)) (notifications db)
       (conversations_seq db) (messages_seq db) (transactions_seq db)
       (ratings_seq db) (notifications_seq db).

(** [db.query(Notification).filter(related_conversation_id == cid).update(NULL)]
    and the same on transactions, then the DELETE of the conversation, whose
    messages go with it (cascade). *)
Definition unlink_conversation (cid : Z) (db : DB) : DB :=
  mkDB (users db) (items db) (conversations db) (messages db)
       (map (fun t => if bool_decide (Transaction.conversation_id t = Some cid)
                      then Transaction.set_conversation_id None t else t)
            (transactions db))
       (ratings db)
       (map (fun n => if bool_decide (Notification.related_conversation_id n = Some cid)
                      then Notification.set_related_conversation_id None n else n)
            (notifications db))
       (conversations_seq db) (messages_seq db) (transactions_seq db)
       (ratings_seq db) (notifications_seq db).

Definition remove_conversation (c : Conversation.t) (db : DB) : DB :=
  mkDB (users db) (items db)
       (List.filter (fun r => negb (bool_decide (Conversation.id r = Conversation.id c)))
                    (conversations db))
       (List.filter (fun m => negb (bool_decide (Some (Message.conversation_id m) = Conversation.id c)))
                    (messages db))
       (transactions db) (ratings db) (notifications db)
       (conversations_seq db) (messages_seq db) (transactions_seq db)
       (ratings_seq db) (notifications_seq db).

(** ** Queries *)

Definition get_user (user_id : Z) (db : DB) : option User.t :=
  List.find (fun u => User.id u =? user_id) (users db).

(** [filter(Item.id == x).first()]; a NULL never matches. *)
Definition get_item (item_id : option Z) (db : DB) : option Item.t :=
  match item_id with
  | Some i => List.find (fun r => Item.id r =? i) (items db)
  | None => None
  end.

Definition get_conversation (conversation_id : Z) (db : DB) : option Conversation.t :=
  List.find (fun c => bool_decide (Conversation.id c = Some conversation_id)) (conversations db).

Definition get_transaction (transaction_id : option Z) (db : DB) : option Transaction.t :=
  match transaction_id with
  | Some i => List.find (fun t => bool_decide (Transaction.id t = Some i)) (transactions db)
  | None => None
  end.

(** The pair test of [create_conversation]: either orientation. *)
Definition between (a b : Z) (c : Conversation.t) : bool :=
  ((Conversation.user1_id c =? a) && (Conversation.user2_id c =? b))
  || ((Conversation.user1_id c =? b) && (Conversation.user2_id c =? a)).

Definition find_conversation_between (a b : Z) (db : DB) : option Conversation.t :=
  List.find (between a b) (conversations db).

Definition find_rating (transaction_id rater_id : Z) (db : DB) : option Rating.t :=
  List.find (fun r => (Rating.transaction_id r =? transaction_id)
                      && (Rating.rater_id r =? rater_id)) (ratings db).

(** [db.query(Rating).filter(Rating.rated_user_id == user_id).all()].  The
    query has no ORDER BY and the database may return its rows in any order;
    here they come in the order of the table. *)
Definition ratings_received (user_id : Z) (db : DB) : list Rating.t :=
  List.filter (fun r => Rating.rated_user_id r =? user_id) (ratings db).

(** Python truthiness of an optional integer: [None] and [0] are falsy. *)
Definition truthy (x : option Z) : bool :=
  match x with
  | Some z => negb (z =? 0)
  | None => false
  end.

(** ** The world and the request monad *)

(** The session of one request: [work] is the database as the open
    transaction sees it (attribute writes on loaded rows land here),
    [pending] the objects given to [db.add] and not flushed yet, [flushed]
    the rows the last flush inserted for them, in the same order. *)
Record Session := mkSession {
  work : DB;
  pending : list Entity;
  flushed : list Entity;
}.

(** [commit_log] records every committed database state, oldest first: it is
    what any other request or client could have observed. *)
Record World := mkWorld {
  store : DB;
  commit_log : list DB;
  clock : datetime;
  active_connections : gmap Z WebSocket;
  delivered : list (Z * Event);
}.

Record Ctx := mkCtx {
  world : World;
  session : Session;
}.

Definition M (A : Type) : Type := Ctx -> (Failure + A) * Ctx.

Definition ret {A} (a : A) : M A := fun s => (inr a, s).

Definition raise {A} (e : Failure) : M A := fun s => (inl e, s).

Definition bind {A B} (m : M A) (k : A -> M B) : M B :=
  fun s =>
    match m s with
    | (inr a, s1) => k a s1
    | (inl e, s1) => (inl e, s1)
    end.

Declare Scope request_scope.
Delimit Scope request_scope with request.
Bind Scope request_scope with M.

Notation "x <- m ;; k" := (bind m (fun x => k))
  (at level 100, m at next level, right associativity) : request_scope.
Notation "m ;; k" := (bind m (fun _ => k))
  (at level 100, right associativity) : request_scope.

Local Open Scope request_scope.

(** [try: m except Exception: h] *)
Definition try_except {A} (m : M A) (h : Failure -> M A) : M A :=
  fun s =>
    match m s with
    | (inr a, s1) => (inr a, s1)
    | (inl e, s1) => h e s1
    end.

Fixpoint for_each {A} (l : list A) (body : A -> M unit) : M unit :=
  match l with
  | [] => ret tt
  | x :: rest => body x ;; for_each rest body
  end.

(** Reading through the session. *)
Definition query {A} (q : DB -> A) : M A :=
  fun s => (inr (q (work (session s))), s).

(** [datetime.utcnow()] *)
Definition utcnow : M datetime :=
  fun s =>
    let w := world s in
    (inr (clock w),
     mkCtx (mkWorld (store w) (commit_log w) (clock w + 1) (active_connections w) (delivered w))
           (session s)).

(** [db.add(obj)]; the result names the object within the unit of work. *)
Definition db_add (e : Entity) : M nat :=
  fun s =>
    let ss := session s in
    (inr (length (pending ss)),
     mkCtx (world s) (mkSession (work ss) (pending ss ++ [e]) (flushed ss))).

(** Attribute writes on a loaded row. *)
Definition modify_work (f : DB -> DB) : M unit :=
  fun s =>
    let ss := session s in
    (inr tt, mkCtx (world s) (mkSession (f (work ss)) (pending ss) (flushed ss))).

(** ** What the database refuses

    PostgreSQL checks a value when it is written.  Two columns of
    [conversations] take a value that the request brings and that no route
    looks at first: [item_id], a foreign key to [items.id], and
    [pending_offer_price], an [Integer], 32 bits wide.  Every other key a
    route writes is one it has read from the referenced table in the same
    request, or the key of the authenticated user. *)

Definition integer_min : Z := -2147483648.
Definition integer_max : Z := 2147483647.

Definition fits_integer (x : option Z) : bool :=
  match x with
  | Some z => (integer_min <=? z) && (z <=? integer_max)
  | None => true
  end.

Definition references_item (x : option Z) (db : DB) : bool :=
  match x with
  | Some i => existsb (fun r => Item.id r =? i) (items db)
  | None => true
  end.

(** The unit of work sends a column only when its value differs from the
    one loaded: [c] carries in [column] what the committed row of the same
    key carries. *)
Definition already_stores {A} `{EqDecision A} (column : Conversation.t -> A)
    (committed : DB) (c : Conversation.t) : bool :=
  existsb (fun r => bool_decide (Conversation.id r = Conversation.id c)
                    && bool_decide (column r = column c))
          (conversations committed).

Definition price_accepted (committed : DB) (c : Conversation.t) : bool :=
  already_stores Conversation.pending_offer_price committed c
  || fits_integer (Conversation.pending_offer_price c).

Definition item_accepted (committed db : DB) (c : Conversation.t) : bool :=
  already_stores Conversation.item_id committed c
  || references_item (Conversation.item_id c) db.

(** The error of the INSERT and UPDATE statements that bring [committed] to
    [db], if one of them fails. *)
Definition refused (committed db : DB) : option Failure :=
  if negb (forallb (price_accepted committed) (conversations db))
  then Some (Unhandled "DataError: integer out of range")
  else if negb (forallb (item_accepted committed db) (conversations db))
  then Some (Unhandled "IntegrityError: violates foreign key constraint")
  else None.

(** [db.commit()]: flush, then publish.  When a statement of the flush
    fails the exception leaves [commit] and nothing is published. *)
Definition db_commit : M unit :=
  fun s =>
    let w := world s in
    let ss := session s in
    let '(rows, db) := flush (clock w) (pending ss) (work ss) in
    match refused (store w) db with
    | Some e => (inl e, s)
    | None =>
        (inr tt,
         mkCtx (mkWorld db (commit_log w ++ [db]) (clock w) (active_connections w) (delivered w))
               (mkSession db [] rows))
    end.

(** [db.rollback()] *)
Definition db_rollback : M unit :=
  fun s =>
    (inr tt, mkCtx (world s) (mkSession (store (world s)) [] [])).

(** [db.refresh(obj)] on an object added in the unit of work just committed. *)
Definition refreshed (h : nat) : M Entity :=
  fun s =>
    match nth_error (flushed (session s)) h with
    | Some e => (inr e, s)
    | None => (inl (Unhandled "InvalidRequestError: instance is not persistent"), s)
    end.

(** [db.refresh(obj)] on a loaded row: read it again by primary key. *)
Definition refresh_conversation (c : Conversation.t) : M Conversation.t :=
  fun s =>
    match List.find (fun r => bool_decide (Conversation.id r = Conversation.id c))
                    (conversations (work (session s))) with
    | Some row => (inr row, s)
    | None => (inl (Unhandled "InvalidRequestError: could not refresh instance"), s)
    end.

Definition refresh_rating (x : Rating.t) : M Rating.t :=
  fun s =>
    match List.find (fun r => bool_decide (Rating.id r = Rating.id x))
                    (ratings (work (session s))) with
    | Some row => (inr row, s)
    | None => (inl (Unhandled "InvalidRequestError: could not refresh instance"), s)
    end.

(** [user_id in active_connections] *)
Definition connected (user_id : Z) : M bool :=
  fun s => (inr (bool_decide (is_Some (active_connections (world s) !! user_id))), s).

(** [await active_connections[user_id].send_json(event)] *)
Definition send_json (user_id : Z) (event : Event) : M unit :=
  fun s =>
    let w := world s in
    match active_connections w !! user_id with
    | None => (inl (Unhandled "KeyError"), s)
    | Some (Channel false) => (inl (Unhandled "WebSocketDisconnect"), s)
    | Some (Channel true) =>
        (inr tt,
         mkCtx (mkWorld (store w) (commit_log w) (clock w) (active_connections w)
                        (delivered w ++ [(user_id, event)]))
               (session s))
    end.

(** One request: a fresh session on the committed state; the session is
    closed, and whatever it had not committed is lost, when the handler
    returns or raises. *)
Definition run {A} (handler : M A) (w : World) : (Failure + A) * World :=
  let '(r, s) := handler (mkCtx w (mkSession (store w) [] [])) in
  (r, world s).

(** ** Helpers of [routes/chat.py] *)

Definition create_notification
    (user_id : Z) (notification_type : NotificationType)
    (title : string) (message : Text)
    (related_item_id related_user_id related_conversation_id : option Z)
    : M Notification.t :=
  let notification :=
    {| Notification.id := None;
       Notification.user_id := user_id;
       Notification.type := notification_type;
       Notification.title := title;
       Notification.message := message;
       Notification.is_read := false;
       Notification.read_at := None;
       Notification.related_item_id := related_item_id;
       Notification.related_user_id := related_user_id;
       Notification.related_conversation_id := related_conversation_id;
       Notification.created_at := None;
       Notification.created_by := Some "system" |} in
  h <- db_add (ENotification notification) ;;
  db_commit ;;
  row <- refreshed h ;;
  match row with
  | ENotification notification => ret notification
  | _ => raise (Unhandled "InvalidRequestError")
  end.

(** The response model demands [id] and [item_id]: validation fails on
    [None]. *)
Definition serialize_transaction (transaction : Transaction.t) : M TransactionResponse.t :=
  match Transaction.id transaction, Transaction.item_id transaction with
  | Some id, Some item_id =>
      ret {| TransactionResponse.id := id;
             TransactionResponse.item_id := item_id;
             TransactionResponse.seller_id := Transaction.seller_id transaction;
             TransactionResponse.buyer_id := Transaction.buyer_id transaction;
             TransactionResponse.conversation_id := Transaction.conversation_id transaction;
             TransactionResponse.sale_price := Transaction.sale_price transaction;
             TransactionResponse.original_price := Transaction.original_price transaction;
             TransactionResponse.is_completed := Transaction.is_completed transaction;
             TransactionResponse.completed_at := Transaction.completed_at transaction;
             TransactionResponse.notes := Transaction.notes transaction;
             TransactionResponse.created_at := Transaction.created_at transaction |}
  | _, _ => raise (Unhandled "ValidationError")
  end.

(** [if user_id in active_connections: try: send_json(...) except: print] *)
Definition push (user_id : Z) (event : Event) : M unit :=
  online <- connected user_id ;;
  if online then try_except (send_json user_id event) (fun _ => ret tt)
  else ret tt.

Definition broadcast_conversation_update (conversation : Conversation.t) : M unit :=
  try_except
    (item <- (if truthy (Conversation.item_id conversation)
              then query (get_item (Conversation.item_id conversation))
              else ret None) ;;
     transaction_data <-
       (if truthy (Conversation.transaction_id conversation)
        then
          transaction_obj <- query (get_transaction (Conversation.transaction_id conversation)) ;;
          match transaction_obj with
          | Some transaction_obj =>
              data <- serialize_transaction transaction_obj ;;
              ret (Some data)
          | None => ret None
          end
        else ret None) ;;
     now <- utcnow ;;
     let payload :=
       {| ConversationUpdated.conversation_id := Conversation.id conversation;
          ConversationUpdated.item_id := Conversation.item_id conversation;
          ConversationUpdated.is_sold := Conversation.is_sold conversation;
          ConversationUpdated.is_ended := Conversation.is_ended conversation;
          ConversationUpdated.transaction_id := Conversation.transaction_id conversation;
          ConversationUpdated.transaction := transaction_data;
          ConversationUpdated.item_title := option_map Item.title item;
          ConversationUpdated.item_status := option_map Item.status item;
          ConversationUpdated.item_price := option_map Item.price item;
          ConversationUpdated.updated_at := now |} in
     for_each [Conversation.user1_id conversation; Conversation.user2_id conversation]
       (fun user_id => push user_id (ev_conversation_updated payload)))
    (fun _ => ret tt).

(** The conversation a path parameter names, for one of its two
    participants: the opening of every conversation route. *)
Definition load_conversation (conversation_id : Z) (current_user : User.t)
    (forbidden : string) : M Conversation.t :=
  conversation <- query (get_conversation conversation_id) ;;
  match conversation with
  | None => raise (HTTPException HTTP_404_NOT_FOUND "Conversation not found")
  | Some conversation =>
      if negb (Conversation.user1_id conversation =? User.id current_user)
         && negb (Conversation.user2_id conversation =? User.id current_user)
      then raise (HTTPException HTTP_403_FORBIDDEN forbidden)
      else ret conversation
  end.

(** [conversation.user2_id if conversation.user1_id == x else conversation.user1_id] *)
Definition counterpart (conversation : Conversation.t) (x : Z) : Z :=
  if Conversation.user1_id conversation =? x
  then Conversation.user2_id conversation
  else Conversation.user1_id conversation.

Definition message_response (m : Message.t) (sender_username sender_full_name : option string)
    : MessageResponse.t :=
  {| MessageResponse.id := Message.id m;
     MessageResponse.conversation_id := Message.conversation_id m;
     MessageResponse.sender_id := Message.sender_id m;
     MessageResponse.content := Message.content m;
     MessageResponse.is_read := Message.is_read m;
     MessageResponse.read_at := Message.read_at m;
     MessageResponse.created_at := Message.created_at m;
     MessageResponse.sender_username := sender_username;
     MessageResponse.sender_full_name := sender_full_name |}.

Definition new_message (conversation_id sender_id : Z) (content : Text) (created_by : string)
    : Message.t :=
  {| Message.id := None;
     Message.conversation_id := conversation_id;
     Message.sender_id := sender_id;
     Message.content := content;
     Message.is_read := false;
     Message.read_at := None;
     Message.created_at := None;
     Message.created_by := Some created_by |}.

Definition refreshed_message (h : nat) : M Message.t :=
  row <- refreshed h ;;
  match row with
  | EMessage m => ret m
  | _ => raise (Unhandled "InvalidRequestError")
  end.

(** [cents / 100.0] *)
Definition dollars (cents : Z) : float := (Py.float_of_int cents / 100)%float.

(** ** POST /conversations *)

Definition unread_count (conversation_id : option Z) (reader : Z) (db : DB) : nat :=
  length (List.filter
            (fun m => bool_decide (Some (Message.conversation_id m) = conversation_id)
                      && negb (Message.sender_id m =? reader)
                      && negb (Message.is_read m))
            (messages db)).

(** [order_by(Message.created_at.desc()).first()]: the newest message of the
    conversation (among equal timestamps, the one inserted last). *)
Definition last_message (conversation_id : option Z) (db : DB) : option Message.t :=
  fold_left
    (fun newest m =>
       if bool_decide (Some (Message.conversation_id m) = conversation_id)
       then match newest with
            | Some n =>
                if bool_decide (default 0 (Message.created_at n) <= default 0 (Message.created_at m))
                then Some m else newest
            | None => Some m
            end
       else newest)
    (messages db) None.

Definition conversation_response (existing : Conversation.t) (user1_id user2_id : Z)
    : M ConversationResponse.t :=
  let other_user_id :=
    if Conversation.user1_id existing =? user1_id then user2_id
    else Conversation.user1_id existing in
  other_user <- query (get_user other_user_id) ;;
  unread <- query (unread_count (Conversation.id existing) user1_id) ;;
  last <- query (last_message (Conversation.id existing)) ;;
  last_message_response <-
    match last with
    | Some last =>
        sender <- query (get_user (Message.sender_id last)) ;;
        ret (Some (message_response last (option_map User.username sender)
                                         (option_map User.full_name sender)))
    | None => ret None
    end ;;
  transaction_response <-
    (if truthy (Conversation.transaction_id existing)
     then
       transaction <- query (get_transaction (Conversation.transaction_id existing)) ;;
       match transaction with
       | Some transaction =>
           data <- serialize_transaction transaction ;;
           ret (Some data)
       | None => ret None
       end
     else ret None) ;;
  let pending_price :=
    if truthy (Conversation.pending_offer_price existing)
    then option_map dollars (Conversation.pending_offer_price existing)
    else None in
  ret {| ConversationResponse.id := Conversation.id existing;
         ConversationResponse.user1_id := Conversation.user1_id existing;
         ConversationResponse.user2_id := Conversation.user2_id existing;
         ConversationResponse.item_id := Conversation.item_id existing;
         ConversationResponse.last_message_at := Conversation.last_message_at existing;
         ConversationResponse.other_user_id := other_user_id;
         ConversationResponse.other_user_username :=
           match other_user with Some u => User.username u | None => "" end;
         ConversationResponse.other_user_full_name :=
           match other_user with Some u => User.full_name u | None => "" end;
         ConversationResponse.unread_count := unread;
         ConversationResponse.last_message := last_message_response;
         ConversationResponse.status := "active";
         ConversationResponse.is_sold := Conversation.is_sold existing;
         ConversationResponse.is_ended := Conversation.is_ended existing;
         ConversationResponse.transaction_id := Conversation.transaction_id existing;
         ConversationResponse.transaction := transaction_response;
         ConversationResponse.pending_offer_price := pending_price;
         ConversationResponse.pending_offer_from_user_id :=
           Conversation.pending_offer_from_user_id existing;
         ConversationResponse.pending_offer_at := Conversation.pending_offer_at existing |}.

(** The attribute writes of the re-association branch, in source order. *)
Definition reassociate (item_id : option Z) (existing : Conversation.t) : Conversation.t :=
  let existing := Conversation.set_item_id item_id existing in
  let existing :=
    if Conversation.is_ended existing
    then Conversation.set_ended_at None (Conversation.set_is_ended false existing)
    else existing in
  if Conversation.is_sold existing
  then Conversation.set_transaction_id None
         (Conversation.set_sold_at None (Conversation.set_is_sold false existing))
  else existing.

Definition new_conversation (user1_id user2_id : Z) (item_id : option Z) (created_by : string)
    : Conversation.t :=
  {| Conversation.id := None;
     Conversation.user1_id := user1_id;
     Conversation.user2_id := user2_id;
     Conversation.item_id := item_id;
     Conversation.last_message_at := None;
     Conversation.is_sold := false;
     Conversation.sold_at := None;
     Conversation.transaction_id := None;
     Conversation.pending_offer_price := None;
     Conversation.pending_offer_from_user_id := None;
     Conversation.pending_offer_at := None;
     Conversation.is_ended := false;
     Conversation.ended_at := None;
     Conversation.is_reported := false;
     Conversation.reported_at := None;
     Conversation.reported_by := None;
     Conversation.report_reason := None;
     Conversation.created_by := Some created_by;
     Conversation.updated_by := None |}.

Definition create_conversation (conversation_data : ConversationCreate.t)
    (current_user : User.t) : M ConversationResponse.t :=
  let user1_id := User.id current_user in
  let user2_id := ConversationCreate.user2_id conversation_data in
  if user1_id =? user2_id
  then raise (HTTPException HTTP_400_BAD_REQUEST "Cannot create conversation with yourself")
  else
    user2 <- query (get_user user2_id) ;;
    match user2 with
    | None => raise (HTTPException HTTP_404_NOT_FOUND "User not found")
    | Some user2 =>
        existing <- query (find_conversation_between user1_id user2_id) ;;
        match existing with
        | Some existing =>
            existing <-
              (if truthy (ConversationCreate.item_id conversation_data)
                  && negb (bool_decide (Conversation.item_id existing
                                        = ConversationCreate.item_id conversation_data))
               then
                 let existing := reassociate (ConversationCreate.item_id conversation_data) existing in
                 modify_work (update_conversation existing) ;;
                 db_commit ;;
                 existing <- refresh_conversation existing ;;
                 broadcast_conversation_update existing ;;
                 ret existing
               else ret existing) ;;
            conversation_response existing user1_id user2_id
        | None =>
            h <- db_add (EConversation
                           (new_conversation user1_id user2_id
                              (ConversationCreate.item_id conversation_data)
                              (User.username current_user))) ;;
            db_commit ;;
            row <- refreshed h ;;
            match row with
            | EConversation conversation =>
                ret {| ConversationResponse.id := Conversation.id conversation;
                       ConversationResponse.user1_id := Conversation.user1_id conversation;
                       ConversationResponse.user2_id := Conversation.user2_id conversation;
                       ConversationResponse.item_id := Conversation.item_id conversation;
                       ConversationResponse.last_message_at :=
                         Conversation.last_message_at conversation;
                       ConversationResponse.other_user_id := user2_id;
                       ConversationResponse.other_user_username := User.username user2;
                       ConversationResponse.other_user_full_name := User.full_name user2;
                       ConversationResponse.unread_count := 0%nat;
                       ConversationResponse.last_message := None;
                       ConversationResponse.status := "active";
                       ConversationResponse.is_sold := false;
                       ConversationResponse.is_ended := false;
                       ConversationResponse.transaction_id := None;
                       ConversationResponse.transaction := None;
                       ConversationResponse.pending_offer_price := None;
                       ConversationResponse.pending_offer_from_user_id := None;
                       ConversationResponse.pending_offer_at := None |}
            | _ => raise (Unhandled "InvalidRequestError")
            end
        end
    end.

(** ** POST /messages *)

Definition create_message (message_data : MessageCreate.t) (current_user : User.t)
    : M MessageResponse.t :=
  (* the schema: content: str = Field(..., min_length=1, max_length=5000) *)
  if Py.len (MessageCreate.content message_data) <? 1
  then raise (HTTPException HTTP_422_UNPROCESSABLE_ENTITY
                "String should have at least 1 character")
  else if 5000 <? Py.len (MessageCreate.content message_data)
  then raise (HTTPException HTTP_422_UNPROCESSABLE_ENTITY
                "String should have at most 5000 characters")
  else
    conversation <- load_conversation (MessageCreate.conversation_id message_data) current_user
                      "Not authorized to send messages in this conversation" ;;
    h <- db_add (EMessage (new_message (MessageCreate.conversation_id message_data)
                             (User.id current_user)
                             [Lit (MessageCreate.content message_data)]
                             (User.username current_user))) ;;
    now <- utcnow ;;
    let conversation :=
      Conversation.set_updated_by (Some (User.username current_user))
        (Conversation.set_last_message_at (Some now) conversation) in
    modify_work (update_conversation conversation) ;;
    db_commit ;;
    msg <- refreshed_message h ;;
    let recipient_id := counterpart conversation (User.id current_user) in
    recipient <- query (get_user recipient_id) ;;
    notification <-
      match recipient with
      | Some _ =>
          n <- create_notification recipient_id MESSAGE "New Message"
                 [Lit (User.full_name current_user); Lit " sent you a message"]
                 None (Some (User.id current_user)) (Conversation.id conversation) ;;
          ret (Some n)
      | None => ret None
      end ;;
    match notification with
    | Some n => push recipient_id (ev_notification n)
    | None => ret tt
    end ;;
    push recipient_id
      (ev_message (message_response msg (Some (User.username current_user))
                                        (Some (User.full_name current_user)))) ;;
    broadcast_conversation_update conversation ;;
    ret (message_response msg (Some (User.username current_user))
                              (Some (User.full_name current_user))).

(** ** PUT /conversations/{id}/archive, /unarchive

    The per-user status columns are commented out of the model, so both
    [hasattr] tests are false and only [updated_by] is written. *)

Definition archive_conversation (conversation_id : Z) (current_user : User.t) : M string :=
  conversation <- load_conversation conversation_id current_user
                    "Not authorized to archive this conversation" ;;
  modify_work (update_conversation
                 (Conversation.set_updated_by (Some (User.username current_user)) conversation)) ;;
  db_commit ;;
  ret "Conversation archived".

Definition unarchive_conversation (conversation_id : Z) (current_user : User.t) : M string :=
  conversation <- load_conversation conversation_id current_user
                    "Not authorized to unarchive this conversation" ;;
  modify_work (update_conversation
                 (Conversation.set_updated_by (Some (User.username current_user)) conversation)) ;;
  db_commit ;;
  ret "Conversation unarchived".

(** ** DELETE /conversations/{id} *)

Definition delete_conversation (conversation_id : Z) (current_user : User.t) : M string :=
  conversation <- load_conversation conversation_id current_user
                    "Not authorized to delete this conversation" ;;
  try_except
    (modify_work (unlink_conversation conversation_id) ;;
     modify_work (remove_conversation conversation) ;;
     db_commit)
    (fun _ =>
       db_rollback ;;
       raise (HTTPException HTTP_500_INTERNAL_SERVER_ERROR "Failed to delete conversation")) ;;
  ret "Conversation deleted".

(** ** POST /conversations/{id}/report *)

Definition report_conversation (conversation_id : Z) (reason : string) (current_user : User.t)
    : M string :=
  conversation <- load_conversation conversation_id current_user
                    "Not authorized to report this conversation" ;;
  now <- utcnow ;;
  let conversation :=
    Conversation.set_updated_by (Some (User.username current_user))
      (Conversation.set_report_reason (Some reason)
         (Conversation.set_reported_by (Some (User.id current_user))
            (Conversation.set_reported_at (Some now)
               (Conversation.set_is_reported true conversation)))) in
  modify_work (update_conversation conversation) ;;
  db_commit ;;
  ret "Conversation reported successfully".

(** ** PUT /conversations/{id}/continue *)

Definition continue_conversation (conversation_id : Z) (current_user : User.t) : M string :=
  conversation <- load_conversation conversation_id current_user
                    "Not authorized to continue this conversation" ;;
  let conversation :=
    Conversation.set_updated_by (Some (User.username current_user))
      (Conversation.set_ended_at None
         (Conversation.set_is_ended false conversation)) in
  modify_work (update_conversation conversation) ;;
  db_commit ;;
  ret "Conversation can now continue".

(** ** POST /conversations/{id}/offer *)

Definition lift {A} (r : Failure + A) : M A :=
  match r with
  | inr a => ret a
  | inl e => raise e
  end.

Definition send_purchase_offer (conversation_id : Z) (transaction_data : TransactionCreate.t)
    (current_user : User.t) : M Py.number :=
  let sale_price := TransactionCreate.sale_price transaction_data in
  (* the schema: sale_price: float = Field(..., gt=0); the validator
     refuses [sale_price <= 0], which a NaN is not *)
  if (sale_price <=? 0)%float
  then raise (HTTPException HTTP_422_UNPROCESSABLE_ENTITY "Sale price must be greater than 0")
  else
    conversation <- load_conversation conversation_id current_user
                      "Not authorized to send offers in this conversation" ;;
    if negb (truthy (Conversation.item_id conversation))
    then raise (HTTPException HTTP_400_BAD_REQUEST "Conversation is not associated with an item")
    else
      item <- query (get_item (Conversation.item_id conversation)) ;;
      match item with
      | None => raise (HTTPException HTTP_404_NOT_FOUND "Item not found")
      | Some item =>
          let other_user_id := counterpart conversation (User.id current_user) in
          let is_seller := Item.seller_id item =? User.id current_user in
          if Conversation.is_sold conversation
          then raise (HTTPException HTTP_400_BAD_REQUEST "Item already sold in this conversation")
          else
            cents <- lift (Py.int (Py.times100 (Py.PyFloat sale_price))) ;;
            offered_at <- utcnow ;;
            let conversation :=
              Conversation.set_updated_by (Some (User.username current_user))
                (Conversation.set_pending_offer_at (Some offered_at)
                   (Conversation.set_pending_offer_from_user_id (Some (User.id current_user))
                      (Conversation.set_pending_offer_price (Some cents) conversation))) in
            let offer_message_content :=
              if is_seller
              then [Lit "💰 Purchase offer: "; Money (Py.PyFloat sale_price)]
              else [Lit "💵 Offer: "; Money (Py.PyFloat sale_price)] in
            h <- db_add (EMessage (new_message conversation_id (User.id current_user)
                                     offer_message_content (User.username current_user))) ;;
            now <- utcnow ;;
            let conversation := Conversation.set_last_message_at (Some now) conversation in
            modify_work (update_conversation conversation) ;;
            db_commit ;;
            offer_message <- refreshed_message h ;;
            other_user <- query (get_user other_user_id) ;;
            match other_user with
            | Some _ =>
                create_notification other_user_id SYSTEM
                  (if is_seller then "New Purchase Offer" else "New Offer")
                  (if is_seller
                   then [Lit (User.full_name current_user); Lit " offered to sell ";
                         Lit (Item.title item); Lit " for "; Money (Py.PyFloat sale_price)]
                   else [Lit (User.full_name current_user); Lit " made an offer of ";
                         Money (Py.PyFloat sale_price); Lit " for "; Lit (Item.title item)])
                  (Some (Item.id item)) (Some (User.id current_user)) (Some conversation_id) ;;
                ret tt
            | None => ret tt
            end ;;
            push other_user_id
              (ev_purchase_offer
                 {| PurchaseOffer.conversation_id := conversation_id;
                    PurchaseOffer.item_id := Item.id item;
                    PurchaseOffer.item_title := Item.title item;
                    PurchaseOffer.offerer_name := User.full_name current_user;
                    PurchaseOffer.offer_price := Py.PyFloat sale_price;
                    PurchaseOffer.original_price := Item.price item;
                    PurchaseOffer.is_from_seller := is_seller |}) ;;
            push other_user_id
              (ev_message
                 (message_response (Message.set_is_read false offer_message)
                    (Some (User.username current_user))
                    (Some (User.full_name current_user)))) ;;
            ret (Py.PyFloat sale_price)
      end.

(** ** POST /conversations/{id}/respond-offer *)

(** [response_data.get(key)]: a missing key reads as [None]. *)
Definition json_get (d : gmap string json) (key : string) : json :=
  default JNull (d !! key).

(** [value == "literal"] *)
Definition json_is (value : json) (literal : string) : bool :=
  match value with
  | JString s => String.eqb s literal
  | _ => false
  end.

(** [not value] is the negation of this. *)
Definition json_truthy (value : json) : bool :=
  match value with
  | JNull => false
  | JBool b => b
  | JNumber x => Py.truthy x
  | JString s => negb (String.eqb s "")
  | JCompound empty => negb empty
  end.

(** [bool] is an [int] in arithmetic; strings, arrays and objects are not
    numbers. *)
Definition json_number (value : json) : option Py.number :=
  match value with
  | JBool b => Some (Py.PyInt (if b then 1 else 0))
  | JNumber x => Some x
  | _ => None
  end.

(** [value <= 0] *)
Definition json_le_zero (value : json) : Failure + bool :=
  match json_number value with
  | Some x => inr (Py.le_zero x)
  | None => inl (Unhandled "TypeError: '<=' not supported")
  end.

(** The [accept] branch. *)
Definition accept_offer (conversation_id : Z) (conversation : Conversation.t) (item : Item.t)
    (seller_id buyer_id : Z) (current_user : User.t) : M OfferResponse :=
  match Conversation.pending_offer_price conversation with
  | None => raise (Unhandled "TypeError: unsupported operand type(s) for /")
  | Some cents =>
      let sale_price := dollars cents in
      completed_at <- utcnow ;;
      let transaction :=
        {| Transaction.id := None;
           Transaction.item_id := Conversation.item_id conversation;
           Transaction.seller_id := seller_id;
           Transaction.buyer_id := buyer_id;
           Transaction.conversation_id := Some conversation_id;
           Transaction.sale_price := sale_price;
           Transaction.original_price := Some (Item.price item);
           Transaction.is_completed := true;
           Transaction.completed_at := Some completed_at;
           Transaction.notes := None;
           Transaction.created_at := None;
           Transaction.created_by := Some (User.username current_user) |} in
      h <- db_add (ETransaction transaction) ;;
      let item :=
        Item.set_updated_by (Some (User.username current_user))
          (Item.set_status SOLD item) in
      modify_work (update_item item) ;;
      sold_at <- utcnow ;;
      let conversation := Conversation.set_is_sold true conversation in
      let conversation := Conversation.set_sold_at (Some sold_at) conversation in
      let conversation := Conversation.set_transaction_id (Transaction.id transaction) conversation in
      let conversation := Conversation.set_is_ended true conversation in
      ended_at <- utcnow ;;
      let conversation := Conversation.set_ended_at (Some ended_at) conversation in
      let conversation := Conversation.set_pending_offer_price None conversation in
      let conversation := Conversation.set_pending_offer_from_user_id None conversation in
      let conversation := Conversation.set_pending_offer_at None conversation in
      let conversation :=
        Conversation.set_updated_by (Some (User.username current_user)) conversation in
      db_add (EMessage (new_message conversation_id (User.id current_user)
                          [Lit "✅ Accepted offer: "; Money (Py.PyFloat sale_price)]
                          (User.username current_user))) ;;
      now <- utcnow ;;
      let conversation := Conversation.set_last_message_at (Some now) conversation in
      modify_work (update_conversation conversation) ;;
      db_commit ;;
      row <- refreshed h ;;
      match row with
      | ETransaction transaction =>
          transaction_response <- serialize_transaction transaction ;;
          seller <- query (get_user seller_id) ;;
          buyer <- query (get_user buyer_id) ;;
          let other_party_id :=
            if User.id current_user =? seller_id then buyer_id else seller_id in
          let other_party :=
            if User.id current_user =? seller_id then buyer else seller in
          match other_party with
          | Some _ =>
              create_notification other_party_id SYSTEM "Offer Accepted!"
                [Lit (User.full_name current_user); Lit " accepted your offer for ";
                 Lit (Item.title item)]
                (Some (Item.id item)) (Some (User.id current_user)) (Some conversation_id) ;;
              ret tt
          | None => ret tt
          end ;;
          for_each [seller_id; buyer_id]
            (fun user_id =>
               push user_id
                 (ev_item_sold
                    {| ItemSold.transaction_id := Transaction.id transaction;
                       ItemSold.conversation_id := conversation_id;
                       ItemSold.item_id := Item.id item;
                       ItemSold.item_title := Item.title item;
                       ItemSold.seller_name :=
                         match seller with Some u => User.full_name u | None => "Unknown" end;
                       ItemSold.buyer_name :=
                         match buyer with Some u => User.full_name u | None => "Unknown" end;
                       ItemSold.sale_price := Transaction.sale_price transaction;
                       ItemSold.original_price := Transaction.original_price transaction;
                       ItemSold.transaction := transaction_response |})) ;;
          broadcast_conversation_update conversation ;;
          ret (OfferAccepted transaction_response)
      | _ => raise (Unhandled "InvalidRequestError")
      end
  end.

(** The [reject] branch. *)
Definition reject_offer (conversation_id : Z) (conversation : Conversation.t) (item : Item.t)
    (current_user : User.t) : M OfferResponse :=
  let conversation := Conversation.set_pending_offer_price None conversation in
  let conversation := Conversation.set_pending_offer_from_user_id None conversation in
  let conversation := Conversation.set_pending_offer_at None conversation in
  let conversation :=
    Conversation.set_updated_by (Some (User.username current_user)) conversation in
  db_add (EMessage (new_message conversation_id (User.id current_user)
                      [Lit "❌ Rejected the offer"] (User.username current_user))) ;;
  now <- utcnow ;;
  let conversation := Conversation.set_last_message_at (Some now) conversation in
  modify_work (update_conversation conversation) ;;
  db_commit ;;
  (* Send notification to the offer sender *)
  let offer_sender_id := Conversation.pending_offer_from_user_id conversation in
  match offer_sender_id with
  | Some offer_sender_id =>
      if negb (offer_sender_id =? 0)
      then
        offer_sender <- query (get_user offer_sender_id) ;;
        match offer_sender with
        | Some _ =>
            create_notification offer_sender_id SYSTEM "Offer Rejected"
              [Lit (User.full_name current_user); Lit " rejected your offer for ";
               Lit (Item.title item)]
              (Some (Item.id item)) (Some (User.id current_user)) (Some conversation_id) ;;
            ret tt
        | None => ret tt
        end
      else ret tt
  | None => ret tt
  end ;;
  broadcast_conversation_update conversation ;;
  ret OfferRejected.

(** The [counter] branch. *)
Definition counter_offer (conversation_id : Z) (response_data : gmap string json)
    (conversation : Conversation.t) (item : Item.t) (current_user : User.t)
    : M OfferResponse :=
  let counter_price := json_get response_data "counter_price" in
  invalid <- (if negb (json_truthy counter_price) then ret true
              else lift (json_le_zero counter_price)) ;;
  if (invalid : bool)
  then raise (HTTPException HTTP_400_BAD_REQUEST "Invalid counter offer price")
  else
    match json_number counter_price with
    | None => raise (Unhandled "TypeError")
    | Some counter_price =>
        let other_user_id := counterpart conversation (User.id current_user) in
        cents <- lift (Py.int (Py.times100 counter_price)) ;;
        let conversation := Conversation.set_pending_offer_price (Some cents) conversation in
        let conversation :=
          Conversation.set_pending_offer_from_user_id (Some (User.id current_user)) conversation in
        offered_at <- utcnow ;;
        let conversation := Conversation.set_pending_offer_at (Some offered_at) conversation in
        let conversation :=
          Conversation.set_updated_by (Some (User.username current_user)) conversation in
        db_add (EMessage (new_message conversation_id (User.id current_user)
                            [Lit "💵 Counter offer: "; Money counter_price]
                            (User.username current_user))) ;;
        now <- utcnow ;;
        let conversation := Conversation.set_last_message_at (Some now) conversation in
        modify_work (update_conversation conversation) ;;
        db_commit ;;
        other_user <- query (get_user other_user_id) ;;
        match other_user with
        | Some _ =>
            create_notification other_user_id SYSTEM "Counter Offer"
              [Lit (User.full_name current_user); Lit " countered with ";
               Money counter_price; Lit " for "; Lit (Item.title item)]
              (Some (Item.id item)) (Some (User.id current_user)) (Some conversation_id) ;;
            ret tt
        | None => ret tt
        end ;;
        push other_user_id
          (ev_purchase_offer
             {| PurchaseOffer.conversation_id := conversation_id;
                PurchaseOffer.item_id := Item.id item;
                PurchaseOffer.item_title := Item.title item;
                PurchaseOffer.offerer_name := User.full_name current_user;
                PurchaseOffer.offer_price := counter_price;
                PurchaseOffer.original_price := Item.price item;
                PurchaseOffer.is_from_seller := Item.seller_id item =? User.id current_user |}) ;;
        broadcast_conversation_update conversation ;;
        ret (OfferCountered counter_price)
    end.

Definition respond_to_offer (conversation_id : Z) (response_data : gmap string json)
    (current_user : User.t) : M OfferResponse :=
  conversation <- load_conversation conversation_id current_user
                    "Not authorized to respond to offers in this conversation" ;;
  if negb (truthy (Conversation.pending_offer_price conversation))
     || negb (truthy (Conversation.pending_offer_from_user_id conversation))
  then raise (HTTPException HTTP_400_BAD_REQUEST "No pending offer to respond to")
  else
    item <- query (get_item (Conversation.item_id conversation)) ;;
    match item with
    | None => raise (HTTPException HTTP_404_NOT_FOUND "Item not found")
    | Some item =>
        (* seller is always the item owner *)
        let seller_id := Item.seller_id item in
        let buyer_id := counterpart conversation seller_id in
        let action := json_get response_data "action" in
        if json_is action "accept"
        then accept_offer conversation_id conversation item seller_id buyer_id current_user
        else if json_is action "reject"
        then reject_offer conversation_id conversation item current_user
        else if json_is action "counter"
        then counter_offer conversation_id response_data conversation item current_user
        else raise (HTTPException HTTP_400_BAD_REQUEST
                      "Invalid action. Must be 'accept', 'reject', or 'counter'")
    end.

(** ** POST /transactions/{id}/rate *)

Definition rating_response (r : Rating.t) : RatingResponse.t :=
  {| RatingResponse.id := Rating.id r;
     RatingResponse.transaction_id := Rating.transaction_id r;
     RatingResponse.rater_id := Rating.rater_id r;
     RatingResponse.rated_user_id := Rating.rated_user_id r;
     RatingResponse.rating := Rating.rating r;
     RatingResponse.comment := Rating.comment r;
     RatingResponse.created_at := Rating.created_at r |}.

Definition rate_user (transaction_id : Z) (rating_data : RatingCreate.t) (current_user : User.t)
    : M RatingResponse.t :=
  (* the schema: rating: int = Field(..., ge=1, le=5) *)
  if negb ((1 <=? RatingCreate.rating rating_data) && (RatingCreate.rating rating_data <=? 5))
  then raise (HTTPException HTTP_422_UNPROCESSABLE_ENTITY "Rating must be between 1 and 5")
  else
    transaction <- query (get_transaction (Some transaction_id)) ;;
    match transaction with
    | None => raise (HTTPException HTTP_404_NOT_FOUND "Transaction not found")
    | Some transaction =>
        if negb (Transaction.seller_id transaction =? User.id current_user)
           && negb (Transaction.buyer_id transaction =? User.id current_user)
        then raise (HTTPException HTTP_403_FORBIDDEN "Not authorized to rate for this transaction")
        else
          let other_user_id :=
            if Transaction.seller_id transaction =? User.id current_user
            then Transaction.buyer_id transaction
            else Transaction.seller_id transaction in
          if negb (RatingCreate.rated_user_id rating_data =? other_user_id)
          then raise (HTTPException HTTP_400_BAD_REQUEST
                        "Can only rate the other party in the transaction")
          else
            existing_rating <- query (find_rating transaction_id (User.id current_user)) ;;
            match existing_rating with
            | Some existing_rating =>
                let existing_rating :=
                  Rating.set_rating (RatingCreate.rating rating_data) existing_rating in
                let existing_rating :=
                  Rating.set_comment (RatingCreate.comment rating_data) existing_rating in
                let existing_rating :=
                  Rating.set_updated_by (Some (User.username current_user)) existing_rating in
                modify_work (update_rating existing_rating) ;;
                db_commit ;;
                existing_rating <- refresh_rating existing_rating ;;
                ret (rating_response existing_rating)
            | None =>
                h <- db_add (ERating
                               {| Rating.id := None;
                                  Rating.transaction_id := transaction_id;
                                  Rating.rater_id := User.id current_user;
                                  Rating.rated_user_id := RatingCreate.rated_user_id rating_data;
                                  Rating.rating := RatingCreate.rating rating_data;
                                  Rating.comment := RatingCreate.comment rating_data;
                                  Rating.created_at := None;
                                  Rating.created_by := Some (User.username current_user);
                                  Rating.updated_by := None |}) ;;
                db_commit ;;
                row <- refreshed h ;;
                match row with
                | ERating rating => ret (rating_response rating)
                | _ => raise (Unhandled "InvalidRequestError")
                end
            end
    end.

(** ** GET /users/{id}/rating-summary *)

Definition total_rating (ratings : list Rating.t) : Z :=
  fold_right (fun r acc => Rating.rating r + acc) 0 ratings.

(** [next((r.rating for r in ratings if r.rater_id == viewer), None)] *)
Definition viewer_rating (viewer : Z) (ratings : list Rating.t) : option Z :=
  option_map Rating.rating (List.find (fun r => Rating.rater_id r =? viewer) ratings).

Definition get_user_rating_summary (user_id : Z) (current_user : User.t) : M RatingSummary.t :=
  ratings <- query (ratings_received user_id) ;;
  match ratings with
  | [] =>
      ret {| RatingSummary.average_rating := None;
             RatingSummary.rating_count := 0;
             RatingSummary.viewer_rating := None |}
  | _ :: _ =>
      let total := total_rating ratings in
      let count := length ratings in
      quotient <- lift (Py.int_true_div total (Z.of_nat count)) ;;
      ret {| RatingSummary.average_rating := Some (Py.round2 quotient);
             RatingSummary.rating_count := count;
             RatingSummary.viewer_rating := viewer_rating (User.id current_user) ratings |}
  end.

(** ** The service as a transition system *)

Inductive Request :=
| CreateConversation (conversation_data : ConversationCreate.t)
| CreateMessage (message_data : MessageCreate.t)
| ArchiveConversation (conversation_id : Z)
| UnarchiveConversation (conversation_id : Z)
| DeleteConversation (conversation_id : Z)
| ReportConversation (conversation_id : Z) (reason : string)
| ContinueConversation (conversation_id : Z)
| SendPurchaseOffer (conversation_id : Z) (transaction_data : TransactionCreate.t)
| RespondToOffer (conversation_id : Z) (response_data : gmap string json)
| RateUser (transaction_id : Z) (rating_data : RatingCreate.t).

(** The world after one authenticated request. *)
Definition handle (request : Request) (current_user : User.t) (w : World) : World :=
  match request with
  | CreateConversation d => snd (run (create_conversation d current_user) w)
  | CreateMessage d => snd (run (create_message d current_user) w)
  | ArchiveConversation c => snd (run (archive_conversation c current_user) w)
  | UnarchiveConversation c => snd (run (unarchive_conversation c current_user) w)
  | DeleteConversation c => snd (run (delete_conversation c current_user) w)
  | ReportConversation c reason => snd (run (report_conversation c reason current_user) w)
  | ContinueConversation c => snd (run (continue_conversation c current_user) w)
  | SendPurchaseOffer c d => snd (run (send_purchase_offer c d current_user) w)
  | RespondToOffer c d => snd (run (respond_to_offer c d current_user) w)
  | RateUser t d => snd (run (rate_user t d current_user) w)
  end.

(** Everything else that happens to the world: the other routers (accounts,
    listings, notifications, reading messages), sockets that open and close,
    time that passes.  None of it writes a conversation, a transaction or a
    rating. *)
Definition elsewhere (w w' : World) : Prop :=
  conversations (store w') = conversations (store w)
  /\ transactions (store w') = transactions (store w)
  /\ ratings (store w') = ratings (store w)
  /\ conversations_seq (store w') = conversations_seq (store w)
  /\ transactions_seq (store w') = transactions_seq (store w)
  /\ ratings_seq (store w') = ratings_seq (store w).

Inductive step : World -> World -> Prop :=
| step_request (request : Request) (current_user : User.t) (w : World) :
    get_user (User.id current_user) (store w) = Some current_user ->
    step w (handle request current_user w)
| step_elsewhere (w w' : World) :
    elsewhere w w' ->
    step w w'.

Definition initial_world : World := mkWorld empty_db [] 0 ∅ [].

Inductive reachable : World -> Prop :=
| reachable_initial : reachable initial_world
| reachable_step (w w' : World) : reachable w -> step w w' -> reachable w'.

(** ** Vocabulary of the statements *)

Definition participant (current_user : User.t) (c : Conversation.t) : Prop :=
  Conversation.user1_id c = User.id current_user
  \/ Conversation.user2_id c = User.id current_user.

(** The test [respond_to_offer] makes before anything else. *)
Definition has_pending_offer (c : Conversation.t) : bool :=
  truthy (Conversation.pending_offer_price c)
  && truthy (Conversation.pending_offer_from_user_id c).

Definition pending_offer_cleared (c : Conversation.t) : Prop :=
  Conversation.pending_offer_price c = None
  /\ Conversation.pending_offer_from_user_id c = None
  /\ Conversation.pending_offer_at c = None.

Definition action_is (response_data : gmap string json) (action : string) : Prop :=
  response_data !! "action" = Some (JString action).

(** The body passes the schema of [MessageCreate]: 1 to 5000 characters. *)
Definition valid_message (message_data : MessageCreate.t) : bool :=
  (1 <=? Py.len (MessageCreate.content message_data))
  && (Py.len (MessageCreate.content message_data) <=? 5000).

(** The rows of a database are themselves rows it accepted: every stored
    price is an [Integer], every stored item id names an item. *)
Definition consistent (db : DB) : bool :=
  forallb (fun c => fits_integer (Conversation.pending_offer_price c)
                    && references_item (Conversation.item_id c) db)
          (conversations db).

(** The request ended in an exception of the server's (the client sees 500)
    and left the database, the commit log and the sockets as they were. *)
Definition server_error {A} (out : (Failure + A) * World) (w : World) : Prop :=
  (exists exception, fst out = inl (Unhandled exception))
  /\ store (snd out) = store w
  /\ commit_log (snd out) = commit_log w
  /\ delivered (snd out) = delivered w.

(** What a push to [user_id] delivers: the event if the channel is there and
    alive, nothing otherwise. *)
Definition pushed (connections : gmap Z WebSocket) (user_id : Z) (event : Event)
    : list (Z * Event) :=
  match connections !! user_id with
  | Some (Channel true) => [(user_id, event)]
  | _ => []
  end.

Definition deliver (events : list (Z * Event)) (s : Ctx) : Ctx :=
  let w := world s in
  mkCtx (mkWorld (store w) (commit_log w) (clock w) (active_connections w)
                 (delivered w ++ events))
        (session s).

Definition tick (s : Ctx) : Ctx :=
  let w := world s in
  mkCtx (mkWorld (store w) (commit_log w) (clock w + 1) (active_connections w) (delivered w))
        (session s).

(** The payload [broadcast_conversation_update] builds for a conversation
    that links no transaction. *)
Definition update_payload (conversation : Conversation.t) (db : DB) (now : datetime)
    : ConversationUpdated.t :=
  let item :=
    if truthy (Conversation.item_id conversation)
    then get_item (Conversation.item_id conversation) db
    else None in
  {| ConversationUpdated.conversation_id := Conversation.id conversation;
     ConversationUpdated.item_id := Conversation.item_id conversation;
     ConversationUpdated.is_sold := Conversation.is_sold conversation;
     ConversationUpdated.is_ended := Conversation.is_ended conversation;
     ConversationUpdated.transaction_id := Conversation.transaction_id conversation;
     ConversationUpdated.transaction := None;
     ConversationUpdated.item_title := option_map Item.title item;
     ConversationUpdated.item_status := option_map Item.status item;
     ConversationUpdated.item_price := option_map Item.price item;
     ConversationUpdated.updated_at := now |}.

(** An [item_sold] event about the given transaction. *)
Definition is_item_sold_for (transaction_id : Z) (e : Z * Event) : Prop :=
  exists d, snd e = ev_item_sold d /\ ItemSold.transaction_id d = Some transaction_id.

(** Snapshots that differ at most in the notification table. *)
Definition same_but_notifications (a b : DB) : Prop :=
  users b = users a /\ items b = items a /\ conversations b = conversations a
  /\ messages b = messages a /\ transactions b = transactions a
  /\ ratings b = ratings a.

(** The re-association property as the specification words it: contacting
    the same user about a different item also resets the pending offer. *)
Definition reassociation_resets_pending_offer : Prop :=
  forall (w : World) (data : ConversationCreate.t) (current_user user2 : User.t)
         (existing : Conversation.t) (i : Z),
    User.id current_user <> ConversationCreate.user2_id data ->
    get_user (ConversationCreate.user2_id data) (store w) = Some user2 ->
    find_conversation_between (User.id current_user) (ConversationCreate.user2_id data)
      (store w) = Some existing ->
    ConversationCreate.item_id data = Some i ->
    i <> 0 ->
    references_item (Some i) (store w) = true ->
    Conversation.item_id existing <> Some i ->
    exists c',
      find_conversation_between (User.id current_user) (ConversationCreate.user2_id data)
        (store (snd (run (create_conversation data current_user) w))) = Some c'
      /\ Conversation.item_id c' = Some i
      /\ Conversation.is_sold c' = false
      /\ Conversation.is_ended c' = false
      /\ pending_offer_cleared c'.


(** ** Invariants of the reachable states *)

(** A sold conversation holds no pending offer, and no conversation row ever
    links a transaction. *)
Definition conversation_ok (c : Conversation.t) : Prop :=
  (Conversation.is_sold c = true -> Conversation.pending_offer_price c = None)
  /\ Conversation.transaction_id c = None.

Definition conversation_keyed (c : Conversation.t) : Prop :=
  is_Some (Conversation.id c).

Definition rating_keyed (bound : Z) (r : Rating.t) : Prop :=
  exists k, Rating.id r = Some k /\ k < bound.

Definition db_ok (db : DB) : Prop :=
  Forall conversation_ok (conversations db)
  /\ Forall (rating_keyed (ratings_seq db)) (ratings db)
  /\ NoDup (map Rating.id (ratings db))
  /\ Forall conversation_keyed (conversations db).

Definition entity_ok (e : Entity) : Prop :=
  match e with
  | EConversation c => conversation_ok c
  | _ => True
  end.

Definition ctx_ok (s : Ctx) : Prop :=
  db_ok (store (world s))
  /\ db_ok (work (session s))
  /\ Forall entity_ok (pending (session s)).

(** [m] keeps the invariant and its results satisfy [R]. *)
Definition keeps {A} (m : M A) (R : A -> Prop) : Prop :=
  forall s, ctx_ok s ->
    ctx_ok (snd (m s)) /\ forall a, fst (m s) = inr a -> R a.

(** ** A run of the service

    Users 1 (Alice) and 2 (Bob), both online; item 10 is Alice's, item 11 is
    Bob's.  Bob opens the conversation over item 10 and offers $50. *)

Module Scenario.

Definition alice : User.t := User.Build 1 "alice" "Alice A".
Definition bob : User.t := User.Build 2 "bob" "Bob B".
Definition bike : Item.t := Item.Build 10 1 "Bike" 60 AVAILABLE None.
Definition lamp : Item.t := Item.Build 11 2 "Lamp" 15 AVAILABLE None.

Definition accept : gmap string json := {[ "action" := JString "accept" ]}.
Definition reject : gmap string json := {[ "action" := JString "reject" ]}.
Definition counter (price : json) : gmap string json :=
  {[ "action" := JString "counter"; "counter_price" := price ]}.

(** Accounts and listings exist, sockets are open. *)
Definition registered : World :=
  mkWorld (mkDB [alice; bob] [bike; lamp] [] [] [] [] [] 1 1 1 1 1)
          [] 100 {[ 1 := Channel true; 2 := Channel true ]} [].

Definition opened : World :=
  handle (CreateConversation (ConversationCreate.Build 1 (Some 10))) bob registered.

Definition offered : World :=
  handle (SendPurchaseOffer 1 (TransactionCreate.Build 50)) bob opened.

Definition sold : World :=
  handle (RespondToOffer 1 accept) alice offered.

Definition rated : World :=
  handle (RateUser 1 (RatingCreate.Build 1 1 3 None)) bob sold.

End Scenario.
(** ** The read routes of [routes/chat.py] *)


(** [send_notification_via_websocket]: the guarded send, with a
    [notification] envelope. *)
Definition send_notification_via_websocket (user_id : Z) (notification_data : Notification.t)
    : M unit :=
  online <- connected user_id ;;
  if online
  then try_except (send_json user_id (ev_notification notification_data)) (fun _ => ret tt)
  else ret tt.

(** [order_by(Message.created_at.asc())]: ascending, a NULL after every
    value (the PostgreSQL default); rows with equal timestamps keep the
    order of the table. *)
Definition created_no_later (a b : Message.t) : bool :=
  match Message.created_at a, Message.created_at b with
  | Some x, Some y => x <=? y
  | Some _, None => true
  | None, Some _ => false
  | None, None => true
  end.

Fixpoint place_by_created_at (m : Message.t) (sorted : list Message.t) : list Message.t :=
  match sorted with
  | [] => [m]
  | x :: rest =>
      if created_no_later x m then x :: place_by_created_at m rest
      else m :: x :: rest
  end.

Definition order_by_created_at (rows : list Message.t) : list Message.t :=
  fold_left (fun sorted m => place_by_created_at m sorted) rows [].

(** [db.query(Message).filter(Message.conversation_id == conversation_id)
       .order_by(Message.created_at.asc()).all()] *)
Definition messages_of (conversation_id : Z) (db : DB) : list Message.t :=
  order_by_created_at
    (List.filter (fun m => Message.conversation_id m =? conversation_id) (messages db)).

(** [not m.is_read and m.sender_id != current_user.id] *)
Definition unread_by (reader : Z) (m : Message.t) : bool :=
  negb (Message.is_read m) && negb (Message.sender_id m =? reader).

(** The attribute writes of the loop over [unread_messages]: every loaded
    row of the conversation that is unread and not the reader's own. *)
Definition mark_messages_read (conversation_id reader : Z) (now : datetime) (db : DB) : DB :=
  mkDB (users db) (items db) (conversations db)
       (map (fun m => if (Message.conversation_id m =? conversation_id) && unread_by reader m
                      then Message.set_read_at (Some now) (Message.set_is_read true m)
                      else m)
            (messages db))
       (transactions db) (ratings db) (notifications db)
       (conversations_seq db) (messages_seq db) (transactions_seq db)
       (ratings_seq db) (notifications_seq db).

(** The filter of the bulk UPDATE on notifications. *)
Definition unread_notification_of (conversation_id reader : Z) (n : Notification.t) : bool :=
  (Notification.user_id n =? reader)
  && bool_decide (Notification.related_conversation_id n = Some conversation_id)
  && negb (Notification.is_read n).

Definition mark_notifications_read (conversation_id reader : Z) (now : datetime) (db : DB)
    : DB :=
  mkDB (users db) (items db) (conversations db) (messages db) (transactions db) (ratings db)
       (map (fun n => if unread_notification_of conversation_id reader n
                      then Notification.set_read_at (Some now) (Notification.set_is_read true n)
                      else n)
            (notifications db))
       (conversations_seq db) (messages_seq db) (transactions_seq db)
       (ratings_seq db) (notifications_seq db).

(** ** GET /conversations/{id}/messages

    The socket send at the end is not guarded by [try]. *)
Definition get_messages (conversation_id : Z) (current_user : User.t)
    : M (list MessageResponse.t) :=
  conversation <- load_conversation conversation_id current_user
                    "Not authorized to view this conversation" ;;
  messages <- query (messages_of conversation_id) ;;
  let unread_messages := List.filter (unread_by (User.id current_user)) messages in
  notifications_updated <-
    match unread_messages with
    | _ :: _ =>
        now <- utcnow ;;
        modify_work (mark_messages_read conversation_id (User.id current_user) now) ;;
        matched <- query (fun db =>
                            length (List.filter
                                      (unread_notification_of conversation_id
                                         (User.id current_user))
                                      (notifications db))) ;;
        modify_work (mark_notifications_read conversation_id (User.id current_user) now) ;;
        db_commit ;;
        ret matched
    | [] => ret 0%nat
    end ;;
  (* the loaded rows, as the session holds them now *)
  messages <- query (messages_of conversation_id) ;;
  result <- query (fun db =>
                     map (fun msg =>
                            let sender := get_user (Message.sender_id msg) db in
                            message_response msg (option_map User.username sender)
                                                 (option_map User.full_name sender))
                         messages) ;;
  online <- (if negb (Nat.eqb notifications_updated 0)
             then connected (User.id current_user) else ret false) ;;
  (if (online : bool)
   then send_json (User.id current_user)
          (ev_notifications_read conversation_id notifications_updated)
   else ret tt) ;;
  ret result.

(** ** GET /transactions/{id}/ratings *)

Definition get_transaction_ratings (transaction_id : Z) (current_user : User.t)
    : M (list RatingResponse.t * bool) :=
  transaction <- query (get_transaction (Some transaction_id)) ;;
  match transaction with
  | None => raise (HTTPException HTTP_404_NOT_FOUND "Transaction not found")
  | Some transaction =>
      if negb (Transaction.seller_id transaction =? User.id current_user)
         && negb (Transaction.buyer_id transaction =? User.id current_user)
      then raise (HTTPException HTTP_403_FORBIDDEN
                    "Not authorized to view ratings for this transaction")
      else
        ratings <- query (fun db =>
                            List.filter (fun r => Rating.transaction_id r =? transaction_id)
                                        (ratings db)) ;;
        ret (map rating_response ratings,
             existsb (fun r => Rating.rater_id r =? User.id current_user) ratings)
  end.

(** ** Further invariants of the reachable states *)

(** The unordered pair of participants. *)
Definition pair_key (c : Conversation.t) : Z * Z :=
  (Z.min (Conversation.user1_id c) (Conversation.user2_id c),
   Z.max (Conversation.user1_id c) (Conversation.user2_id c)).

Definition rating_key (r : Rating.t) : Z * Z :=
  (Rating.transaction_id r, Rating.rater_id r).

(** Two distinct participants; a pending offer is authored by one of them
    and its price is not negative. *)
Definition thread_ok (c : Conversation.t) : Prop :=
  Conversation.user1_id c <> Conversation.user2_id c
  /\ (forall x, Conversation.pending_offer_from_user_id c = Some x ->
                x = Conversation.user1_id c \/ x = Conversation.user2_id c)
  /\ (forall p, Conversation.pending_offer_price c = Some p -> 0 <= p).

Definition thread_keyed (bound : Z) (c : Conversation.t) : Prop :=
  exists k, Conversation.id c = Some k /\ k < bound.

Definition sale_ok (t : Transaction.t) : Prop :=
  Transaction.seller_id t <> Transaction.buyer_id t.

Definition db_sound (db : DB) : Prop :=
  Forall thread_ok (conversations db)
  /\ Forall (thread_keyed (conversations_seq db)) (conversations db)
  /\ NoDup (map Conversation.id (conversations db))
  /\ NoDup (map pair_key (conversations db))
  /\ NoDup (map rating_key (ratings db))
  /\ Forall sale_ok (transactions db).

(** Within one request: the row [c'] is the row [c] with other attributes;
    [threads] are the conversation rows the request started from. *)
Definition same_thread (c c' : Conversation.t) : Prop :=
  Conversation.id c' = Conversation.id c
  /\ Conversation.user1_id c' = Conversation.user1_id c
  /\ Conversation.user2_id c' = Conversation.user2_id c.

Definition known_thread (threads : list Conversation.t) (c : Conversation.t) : Prop :=
  exists r, In r threads /\ same_thread r c.

Definition db_sound_in (threads : list Conversation.t) (db : DB) : Prop :=
  db_sound db /\ Forall (known_thread threads) (conversations db).

(** Pending objects of the routes that insert no conversation and no
    rating. *)
Definition harmless (e : Entity) : Prop :=
  match e with
  | EConversation _ | ERating _ => False
  | ETransaction t => sale_ok t
  | EMessage _ | ENotification _ => True
  end.

Definition ctx_sound (threads : list Conversation.t) (s : Ctx) : Prop :=
  db_sound_in threads (store (world s))
  /\ db_sound_in threads (work (session s))
  /\ Forall harmless (pending (session s)).

Definition upholds (threads : list Conversation.t) {A} (m : M A) (R : A -> Prop) : Prop :=
  forall s, ctx_sound threads s ->
    ctx_sound threads (snd (m s)) /\ forall a, fst (m s) = inr a -> R a.

(** What a route knows of the row [load_conversation] returned. *)
Definition own_thread (threads : list Conversation.t) (current_user : User.t)
    (c : Conversation.t) : Prop :=
  thread_ok c /\ known_thread threads c /\ participant current_user c.

(** ** Further states of the run

    Carol (user 3) has no part in the conversation of Alice and Bob. *)

Module Cases.

Import Scenario.

Definition carol : User.t := User.Build 3 "carol" "Carol C".

(** Bob writes to Alice without naming an item. *)
Definition chatting : World :=
  handle (CreateConversation (ConversationCreate.Build 1 None)) bob registered.

(** After the sale of the bike and Bob's rating: Bob points the
    conversation at his lamp, Alice offers $10, Bob accepts. *)
Definition relisted : World :=
  handle (CreateConversation (ConversationCreate.Build 1 (Some 11))) bob rated.

Definition reoffered : World :=
  handle (SendPurchaseOffer 1 (TransactionCreate.Build 10)) alice relisted.

Definition resold : World :=
  handle (RespondToOffer 1 accept) bob reoffered.

(** The state [offered], but Alice's socket has gone away unnoticed. *)
Definition stale : World :=
  mkWorld (store offered) (commit_log offered) (clock offered)
          {[ 1 := Channel false; 2 := Channel true ]} (delivered offered).

(** The rows of these states the statements refer to. *)
Definition thread (w : World) : Conversation.t :=
  default (new_conversation 0 0 None "") (get_conversation 1 (store w)).

Definition sale (transaction_id : Z) (w : World) : Transaction.t :=
  default (Transaction.Build None None 0 0 None 0 None false None None None None)
          (get_transaction (Some transaction_id) (store w)).

Definition first_message (w : World) : Message.t :=
  hd (new_message 0 0 [] "") (messages (store w)).

Definition first_notification (w : World) : Notification.t :=
  hd (Notification.Build None 0 SYSTEM "" [] false None None None None None None)
     (notifications (store w)).

Definition first_rating (w : World) : Rating.t :=
  hd (Rating.Build None 0 0 0 0 None None None None) (ratings (store w)).

End Cases.


(** * Properties *)

(** ** The Python number layer on examples *)

Example int_of_float_4500 : Py.int (Py.times100 (Py.PyFloat 45)) = inr 4500.
Proof. vm_compute. reflexivity. Qed.

(** [int(19.99 * 100)] is 1998: the product is just below 1999. *)
Example int_of_float_1998 :
  Py.int (Py.times100 (Py.PyFloat 0x1.3fd70a3d70a3dp+4)) = inr 1998.
Proof. vm_compute. reflexivity. Qed.

Example round2_ties_to_even : Py.round2 1.125 = 0x1.1eb851eb851ecp+0%float.
Proof. vm_compute. reflexivity. Qed.

Example round2_of_14_thirds :
  match Py.int_true_div 14 3 with inr q => Py.round2 q | inl _ => nan end
  = 0x1.2ae147ae147aep+2%float.
Proof. vm_compute. reflexivity. Qed.

(** ** Pushing events *)

Lemma deliver_nil s : deliver [] s = s.
Proof.
  destruct s as [[st lg ck conns dl] ss]. unfold deliver. cbn.
  rewrite app_nil_r. reflexivity.
Qed.

Lemma deliver_deliver a b s : deliver b (deliver a s) = deliver (a ++ b) s.
Proof. unfold deliver. cbn. rewrite app_assoc. reflexivity. Qed.

Lemma push_eq user_id event s :
  push user_id event s
  = (inr tt, deliver (pushed (active_connections (world s)) user_id event) s).
Proof.
  unfold push, bind, connected, try_except, send_json, pushed.
  destruct (active_connections (world s) !! user_id) as [[[]]|] eqn:E; cbn.
  - rewrite E. reflexivity.
  - rewrite E. cbn. rewrite deliver_nil. reflexivity.
  - rewrite deliver_nil. reflexivity.
Qed.

Lemma broadcast_eq conversation s :
  truthy (Conversation.transaction_id conversation) = false ->
  broadcast_conversation_update conversation s
  = (inr tt,
     deliver
       (pushed (active_connections (world s)) (Conversation.user1_id conversation)
          (ev_conversation_updated
             (update_payload conversation (work (session s)) (clock (world s))))
        ++ pushed (active_connections (world s)) (Conversation.user2_id conversation)
             (ev_conversation_updated
                (update_payload conversation (work (session s)) (clock (world s)))))
       (tick s)).
Proof.
  intros Htx.
  unfold broadcast_conversation_update, try_except, for_each, bind, query, utcnow, ret.
  rewrite Htx. unfold update_payload.
  destruct (truthy (Conversation.item_id conversation));
    rewrite push_eq; cbn -[push]; rewrite push_eq; cbn; rewrite deliver_deliver; reflexivity.
Qed.

Arguments push : simpl never.
Arguments broadcast_conversation_update : simpl never.

(** ** The invariant is kept by every primitive of the request monad *)

Lemma replace_row_ids {A} (key : A -> option Z) (x : A) (rows : list A) :
  map key (replace_row key x rows) = map key rows.
Proof.
  unfold replace_row. rewrite map_map. apply map_ext. intros r.
  case_bool_decide; congruence.
Qed.

Lemma Forall_replace_row {A} (P : A -> Prop) (key : A -> option Z) (x : A) (rows : list A) :
  (Exists (fun r => key r = key x) rows -> P x) ->
  Forall P rows -> Forall P (replace_row key x rows).
Proof.
  unfold replace_row. intros Hx Hall.
  induction Hall as [|r rows Hr Hall IH]; cbn; constructor.
  - case_bool_decide; [apply Hx; left; assumption | assumption].
  - apply IH. intros Hex. apply Hx. right. assumption.
Qed.

Lemma db_ok_update_conversation c db :
  conversation_ok c -> db_ok db -> db_ok (update_conversation c db).
Proof.
  intros Hc (Hconv & Hkeyed & Hnodup & Hck). repeat split; cbn; try assumption.
  - apply Forall_replace_row; auto.
  - apply Forall_replace_row; [|assumption].
    intros Hex. apply Exists_exists in Hex. destruct Hex as (r & Hin & Hr).
    rewrite Forall_forall in Hck. unfold conversation_keyed. rewrite <- Hr.
    apply Hck. assumption.
Qed.

Lemma db_ok_update_item i db : db_ok db -> db_ok (update_item i db).
Proof. intros H. exact H. Qed.

Lemma db_ok_update_rating r db : db_ok db -> db_ok (update_rating r db).
Proof.
  intros (Hconv & Hkeyed & Hnodup & Hck). repeat split; cbn; try assumption.
  - unfold replace_row.
    induction Hkeyed as [|x rows Hx Hall IH]; cbn; constructor.
    + case_bool_decide as E; [|assumption].
      destruct Hx as (k & Hk & Hlt). exists k. split; [congruence|assumption].
    + apply IH. inversion Hnodup; assumption.
  - rewrite replace_row_ids. assumption.
Qed.

Lemma db_ok_unlink_conversation cid db : db_ok db -> db_ok (unlink_conversation cid db).
Proof. intros H. exact H. Qed.

Lemma Forall_filter {A} (P : A -> Prop) (f : A -> bool) (l : list A) :
  Forall P l -> Forall P (List.filter f l).
Proof.
  induction 1 as [|x l Hx Hall IH]; cbn; [constructor|].
  destruct (f x); [constructor|]; assumption.
Qed.

Lemma db_ok_remove_conversation c db : db_ok db -> db_ok (remove_conversation c db).
Proof.
  intros (Hconv & Hkeyed & Hnodup & Hck). repeat split; cbn; try assumption.
  - apply Forall_filter. assumption.
  - apply Forall_filter. assumption.
Qed.

Lemma rating_keyed_weaken bound bound' r :
  bound <= bound' -> rating_keyed bound r -> rating_keyed bound' r.
Proof. intros Hle (k & Hk & Hlt). exists k. split; [assumption|lia]. Qed.

Lemma db_ok_insert now e db :
  entity_ok e -> db_ok db -> db_ok (snd (insert now e db)).
Proof.
  intros He (Hconv & Hkeyed & Hnodup & Hck).
  destruct e as [c|m|t|r|n]; cbn in *; repeat split; cbn; try assumption.
  - apply Forall_app. split; [assumption|]. constructor; [|constructor].
    destruct He as [Hs Ht]. split; assumption.
  - apply Forall_app. split; [assumption|]. constructor; [|constructor].
    eexists. reflexivity.
  - apply Forall_app. split.
    + eapply Forall_impl; [exact Hkeyed|].
      intros x. apply rating_keyed_weaken. lia.
    + constructor; [|constructor]. exists (ratings_seq db). cbn. split; [reflexivity|lia].
  - rewrite map_app. cbn. apply NoDup_app. split; [assumption|]. split.
    + intros k Hin Hk.
      apply list_elem_of_In in Hin. apply in_map_iff in Hin. destruct Hin as (x & Hx & Hin).
      rewrite Forall_forall in Hkeyed.
      apply list_elem_of_In in Hin.
      destruct (Hkeyed x Hin) as (j & Hj & Hlt).
      apply list_elem_of_In in Hk. destruct Hk as [Hk|[]]. 
      rewrite <- Hk in Hx. rewrite Hj in Hx. inversion Hx. lia.
    + apply NoDup_singleton.
Qed.

Lemma db_ok_flush now pending db :
  Forall entity_ok pending -> db_ok db -> db_ok (snd (flush now pending db)).
Proof.
  intros Hall. revert db.
  induction Hall as [|e rest He Hall IH]; intros db Hdb; cbn; [assumption|].
  pose proof (db_ok_insert now e db He Hdb) as H1.
  destruct (insert now e db) as [row db1]. cbn in H1.
  specialize (IH db1 H1).
  destruct (flush now rest db1) as [rows db2]. exact IH.
Qed.

Lemma keeps_ret {A} (a : A) (R : A -> Prop) : R a -> keeps (ret a) R.
Proof. intros Ha s Hs. split; [assumption|]. cbn. intros b [= <-]. assumption. Qed.

Lemma keeps_raise {A} (e : Failure) (R : A -> Prop) : keeps (raise e) R.
Proof. intros s Hs. split; [assumption|]. cbn. discriminate. Qed.

Lemma keeps_bind {A B} (m : M A) (k : A -> M B) (R : A -> Prop) (R' : B -> Prop) :
  keeps m R -> (forall a, R a -> keeps (k a) R') -> keeps (bind m k) R'.
Proof.
  intros Hm Hk s Hs. unfold bind.
  destruct (Hm s Hs) as [Hs1 Hr].
  destruct (m s) as [[e|a] s1]; cbn in *.
  - split; [assumption|discriminate].
  - apply Hk; auto.
Qed.

Lemma keeps_weaken {A} (m : M A) (R R' : A -> Prop) :
  keeps m R -> (forall a, R a -> R' a) -> keeps m R'.
Proof. intros Hm Himp s Hs. destruct (Hm s Hs). split; auto. Qed.

Lemma keeps_try_except {A} (m : M A) (h : Failure -> M A) (R : A -> Prop) :
  keeps m R -> (forall e, keeps (h e) R) -> keeps (try_except m h) R.
Proof.
  intros Hm Hh s Hs. unfold try_except.
  destruct (Hm s Hs) as [Hs1 Hr].
  destruct (m s) as [[e|a] s1]; cbn in *.
  - apply Hh. assumption.
  - split; assumption.
Qed.

Lemma keeps_for_each {A} (l : list A) (body : A -> M unit) :
  (forall x, keeps (body x) (fun _ => True)) -> keeps (for_each l body) (fun _ => True).
Proof.
  intros Hbody. induction l as [|x l IH]; cbn.
  - apply keeps_ret. exact I.
  - eapply keeps_bind; [apply Hbody|]. intros _ _. exact IH.
Qed.

Lemma keeps_query {A} (q : DB -> A) (R : A -> Prop) :
  (forall db, db_ok db -> R (q db)) -> keeps (query q) R.
Proof.
  intros Hq s Hs. split; [assumption|]. cbn. intros a [= <-].
  apply Hq. apply Hs.
Qed.

Lemma keeps_lift {A} (r : Failure + A) : keeps (lift r) (fun a => r = inr a).
Proof.
  destruct r as [e|a]; cbn.
  - apply keeps_raise.
  - apply keeps_ret. reflexivity.
Qed.

Lemma keeps_utcnow : keeps utcnow (fun _ => True).
Proof. intros s Hs. split; [exact Hs|auto]. Qed.

Lemma keeps_db_add e : entity_ok e -> keeps (db_add e) (fun _ => True).
Proof.
  intros He s (H1 & H2 & H3). split; [|auto]. repeat split; cbn; try assumption; try apply H1; try apply H2.
  apply Forall_app. split; [assumption|]. constructor; [assumption|constructor].
Qed.

Lemma keeps_modify_work f :
  (forall db, db_ok db -> db_ok (f db)) -> keeps (modify_work f) (fun _ => True).
Proof.
  intros Hf s (H1 & H2 & H3). split; [|auto].
  split; [exact H1|]. split; [apply Hf; exact H2|exact H3].
Qed.

Lemma keeps_db_commit : keeps db_commit (fun _ => True).
Proof.
  intros s (H1 & H2 & H3). unfold db_commit.
  pose proof (db_ok_flush (clock (world s)) _ _ H3 H2) as Hf.
  destruct (flush (clock (world s)) (pending (session s)) (work (session s))) as [rows db].
  cbn in Hf.
  destruct (refused (store (world s)) db) as [e|].
  - split; [exact (conj H1 (conj H2 H3))|auto].
  - cbn. split; [|auto]. split; [exact Hf|]. split; [exact Hf|constructor].
Qed.

Lemma keeps_db_rollback : keeps db_rollback (fun _ => True).
Proof.
  intros s (H1 & H2 & H3). split; [|auto].
  split; [exact H1|]. split; [exact H1|constructor].
Qed.

Lemma keeps_refreshed h : keeps (refreshed h) (fun _ => True).
Proof.
  intros s Hs. unfold refreshed.
  destruct (nth_error (flushed (session s)) h); split; auto.
Qed.

Lemma keeps_refresh_conversation c : keeps (refresh_conversation c) conversation_ok.
Proof.
  intros s Hs. unfold refresh_conversation.
  destruct (List.find _ _) as [row|] eqn:E; cbn; (split; [assumption|]).
  - intros a [= <-]. apply find_some in E. destruct E as [Hin _].
    destruct Hs as (_ & (Hconv & _) & _). rewrite Forall_forall in Hconv.
    apply Hconv. apply list_elem_of_In. assumption.
  - discriminate.
Qed.

Lemma keeps_refresh_rating r : keeps (refresh_rating r) (fun _ => True).
Proof.
  intros s Hs. unfold refresh_rating.
  destruct (List.find _ _); split; auto.
Qed.

Lemma keeps_push user_id event : keeps (push user_id event) (fun _ => True).
Proof. intros s Hs. rewrite push_eq. split; [exact Hs|auto]. Qed.

(** ** Every handler keeps the invariant *)

Lemma keeps_query_strong {A} (q : DB -> A) :
  keeps (query q) (fun a => exists db, db_ok db /\ a = q db).
Proof. apply keeps_query. intros db Hdb. exists db. split; [assumption|reflexivity]. Qed.

Lemma keeps_top {A} (m : M A) (R : A -> Prop) : keeps m R -> keeps m (fun _ => True).
Proof. intros H. eapply keeps_weaken; [exact H|auto]. Qed.

(** Structural steps on a goal [keeps m (fun _ => True)]. *)
Ltac keeps_leaf :=
  first
    [ apply keeps_raise
    | apply keeps_ret; exact I
    | apply keeps_utcnow
    | apply keeps_db_commit
    | apply keeps_db_rollback
    | apply keeps_refreshed
    | apply keeps_push
    | apply (keeps_top _ _ (keeps_refresh_rating _))
    | apply (keeps_top _ _ (keeps_refresh_conversation _))
    | apply (keeps_top _ _ (keeps_lift _))
    | apply keeps_query; intros; exact I
    | apply keeps_db_add; exact I
    | apply keeps_modify_work; intros ? ?;
      first [ apply db_ok_update_item | apply db_ok_unlink_conversation
            | apply db_ok_remove_conversation | apply db_ok_update_rating ];
      assumption ].

Ltac keeps_go :=
  repeat
    (cbv zeta;
     lazymatch goal with
     | |- keeps (bind _ _) _ =>
         eapply (keeps_bind _ _ (fun _ => True)); [|intros ? _]
     | |- keeps (try_except _ _) _ => apply keeps_try_except; [|intros ?]
     | |- keeps (for_each _ _) _ => apply keeps_for_each; intros ?
     | |- keeps (if ?b then _ else _) _ => destruct b eqn:?
     | |- keeps (match ?x with _ => _ end) _ => destruct x eqn:?
     | |- keeps _ _ => keeps_leaf
     end).

Lemma keeps_serialize_transaction t : keeps (serialize_transaction t) (fun _ => True).
Proof. unfold serialize_transaction. keeps_go. Qed.

Lemma keeps_create_notification uid ty title msg i u c :
  keeps (create_notification uid ty title msg i u c) (fun _ => True).
Proof. unfold create_notification. keeps_go. Qed.

Lemma keeps_broadcast c : keeps (broadcast_conversation_update c) (fun _ => True).
Proof.
  unfold broadcast_conversation_update.
  keeps_go; apply keeps_serialize_transaction.
Qed.

Lemma keeps_refreshed_message h : keeps (refreshed_message h) (fun _ => True).
Proof. unfold refreshed_message. keeps_go. Qed.

Lemma keeps_conversation_response c a b :
  keeps (conversation_response c a b) (fun _ => True).
Proof.
  unfold conversation_response.
  keeps_go; apply keeps_serialize_transaction.
Qed.

Lemma conversation_ok_found (P : Conversation.t -> bool) db c :
  db_ok db -> List.find P (conversations db) = Some c -> conversation_ok c.
Proof.
  intros (Hconv & _) Hfind. apply find_some in Hfind. destruct Hfind as [Hin _].
  rewrite Forall_forall in Hconv. apply Hconv. apply list_elem_of_In. assumption.
Qed.

Lemma keeps_load_conversation cid u msg :
  keeps (load_conversation cid u msg) conversation_ok.
Proof.
  unfold load_conversation.
  eapply keeps_bind; [apply keeps_query_strong|].
  intros o (db & Hdb & ->).
  destruct (get_conversation cid db) as [c|] eqn:E; [|apply keeps_raise].
  destruct (_ && _); [apply keeps_raise|].
  apply keeps_ret. eapply conversation_ok_found; eassumption.
Qed.

(** Writes that leave [is_sold], the pending price and the transaction link
    alone keep a row well-formed. *)
Ltac conversation_ok_tac :=
  match goal with
  | H : conversation_ok _ |- conversation_ok _ =>
      let H1 := fresh in let H2 := fresh in
      destruct H as [H1 H2]; split; cbn;
      [ intros; first [ reflexivity | congruence | auto ] | first [ reflexivity | assumption ] ]
  end.

Ltac keeps_write :=
  apply keeps_modify_work; intros ? ?; apply db_ok_update_conversation;
  [ conversation_ok_tac | assumption ].

Lemma keeps_simple_conversation_write cid u msg (f : Conversation.t -> M string) :
  (forall c, conversation_ok c -> keeps (f c) (fun _ => True)) ->
  keeps (bind (load_conversation cid u msg) f) (fun _ => True).
Proof.
  intros H. eapply keeps_bind; [apply keeps_load_conversation|]. exact H.
Qed.

Lemma keeps_archive_conversation cid u : keeps (archive_conversation cid u) (fun _ => True).
Proof.
  apply keeps_simple_conversation_write. intros c Hc.
  eapply (keeps_bind _ _ (fun _ => True)); [keeps_write|intros ? _]. keeps_go.
Qed.

Lemma keeps_unarchive_conversation cid u : keeps (unarchive_conversation cid u) (fun _ => True).
Proof.
  apply keeps_simple_conversation_write. intros c Hc.
  eapply (keeps_bind _ _ (fun _ => True)); [keeps_write|intros ? _]. keeps_go.
Qed.

Lemma keeps_delete_conversation cid u : keeps (delete_conversation cid u) (fun _ => True).
Proof.
  apply keeps_simple_conversation_write. intros c Hc. keeps_go.
Qed.

Lemma keeps_report_conversation cid reason u :
  keeps (report_conversation cid reason u) (fun _ => True).
Proof.
  apply keeps_simple_conversation_write. intros c Hc.
  eapply (keeps_bind _ _ (fun _ => True)); [apply keeps_utcnow|intros now _]. cbv zeta.
  eapply (keeps_bind _ _ (fun _ => True)); [keeps_write|intros ? _]. keeps_go.
Qed.

Lemma keeps_continue_conversation cid u : keeps (continue_conversation cid u) (fun _ => True).
Proof.
  apply keeps_simple_conversation_write. intros c Hc. cbv zeta.
  eapply (keeps_bind _ _ (fun _ => True)); [keeps_write|intros ? _]. keeps_go.
Qed.

Ltac keeps_leaf' :=
  first
    [ keeps_leaf
    | apply keeps_create_notification
    | apply (keeps_top _ _ (keeps_create_notification _ _ _ _ _ _ _))
    | apply keeps_broadcast
    | apply keeps_serialize_transaction
    | apply keeps_refreshed_message
    | apply keeps_conversation_response
    | apply keeps_modify_work; intros ? ?; apply db_ok_update_conversation;
      [ try solve [conversation_ok_tac] | assumption ]
    | apply keeps_db_add; cbn; try exact I ].

Ltac keeps_run :=
  repeat
    (cbv zeta;
     lazymatch goal with
     | |- keeps (bind (load_conversation _ _ _) _) _ =>
         eapply keeps_bind; [apply keeps_load_conversation|intros ? ?]
     | |- keeps (bind (lift _) _) _ =>
         eapply keeps_bind; [apply keeps_lift|intros ? ?]
     | |- keeps (bind _ _) _ =>
         eapply (keeps_bind _ _ (fun _ => True)); [|intros ? _]
     | |- keeps (try_except _ _) _ => apply keeps_try_except; [|intros ?]
     | |- keeps (for_each _ _) _ => apply keeps_for_each; intros ?
     | |- keeps (if ?b then _ else _) _ => destruct b eqn:?
     | |- keeps (match ?x with _ => _ end) _ => destruct x eqn:?
     | |- keeps _ _ => keeps_leaf'
     end).

Lemma keeps_create_message d u : keeps (create_message d u) (fun _ => True).
Proof. unfold create_message. keeps_run. Qed.

Lemma conversation_ok_reassociate item_id c :
  conversation_ok c -> conversation_ok (reassociate item_id c).
Proof.
  intros [H1 H2]. unfold reassociate. cbn.
  destruct (Conversation.is_ended c) eqn:He, (Conversation.is_sold c) eqn:Hs;
    cbn; rewrite ?Hs; cbn; split; cbn; intros; first [ congruence | auto ].
Qed.

Lemma conversation_ok_new a b item_id by_ :
  conversation_ok (new_conversation a b item_id by_).
Proof. split; cbn; [discriminate|reflexivity]. Qed.

Lemma keeps_create_conversation d u : keeps (create_conversation d u) (fun _ => True).
Proof.
  unfold create_conversation. cbv zeta.
  destruct (_ =? _); [apply keeps_raise|].
  eapply (keeps_bind _ _ (fun _ => True)); [keeps_run|intros user2 _].
  destruct user2 as [user2|]; [|apply keeps_raise].
  eapply keeps_bind; [apply keeps_query_strong|].
  intros o (db & Hdb & ->).
  destruct (find_conversation_between _ _ db) as [existing|] eqn:E.
  - pose proof (conversation_ok_found _ _ _ Hdb E) as Hex.
    pose proof (conversation_ok_reassociate (ConversationCreate.item_id d) _ Hex) as Hre.
    eapply (keeps_bind _ _ (fun _ => True)).
    + destruct (_ && _).
      * eapply (keeps_bind _ _ (fun _ => True)).
        { apply keeps_modify_work. intros ? ?. apply db_ok_update_conversation; assumption. }
        intros ? _. keeps_run.
      * apply keeps_ret. exact I.
    + intros ? _. apply keeps_conversation_response.
  - eapply (keeps_bind _ _ (fun _ => True)).
    + apply keeps_db_add. apply conversation_ok_new.
    + intros ? _. keeps_run.
Qed.

Lemma keeps_send_purchase_offer cid d u : keeps (send_purchase_offer cid d u) (fun _ => True).
Proof.
  unfold send_purchase_offer. keeps_run.
Qed.

Lemma keeps_accept_offer cid c item s b u :
  conversation_ok c -> keeps (accept_offer cid c item s b u) (fun _ => True).
Proof. intros Hc. unfold accept_offer. keeps_run. Qed.

Lemma keeps_reject_offer cid c item u :
  conversation_ok c -> keeps (reject_offer cid c item u) (fun _ => True).
Proof. intros Hc. unfold reject_offer. keeps_run. Qed.

Lemma keeps_counter_offer cid rd c item u :
  conversation_ok c ->
  truthy (Conversation.pending_offer_price c) = true ->
  keeps (counter_offer cid rd c item u) (fun _ => True).
Proof.
  intros Hc Hp. unfold counter_offer. keeps_run.
  destruct Hc as [H1 H2]. split; cbn; [|assumption].
  intros Hs. rewrite (H1 Hs) in Hp. discriminate.
Qed.

Lemma keeps_respond_to_offer cid rd u : keeps (respond_to_offer cid rd u) (fun _ => True).
Proof.
  unfold respond_to_offer.
  eapply keeps_bind; [apply keeps_load_conversation|intros c Hc].
  destruct (_ || _) eqn:Hguard; [apply keeps_raise|].
  apply orb_false_elim in Hguard. destruct Hguard as [Hp _].
  apply negb_false_iff in Hp.
  eapply (keeps_bind _ _ (fun _ => True)); [keeps_run|intros item _].
  destruct item as [item|]; [|apply keeps_raise]. cbv zeta.
  destruct (json_is _ "accept"); [apply keeps_accept_offer; assumption|].
  destruct (json_is _ "reject"); [apply keeps_reject_offer; assumption|].
  destruct (json_is _ "counter"); [apply keeps_counter_offer; assumption|].
  apply keeps_raise.
Qed.

Lemma keeps_rate_user tid d u : keeps (rate_user tid d u) (fun _ => True).
Proof. unfold rate_user. keeps_run. Qed.

Lemma keeps_handler {A} (m : M A) (w : World) :
  keeps m (fun _ => True) -> db_ok (store w) -> db_ok (store (snd (run m w))).
Proof.
  intros Hm Hw. unfold run.
  destruct (Hm (mkCtx w (mkSession (store w) [] []))) as [Hok _].
  { split; [exact Hw|]. split; [exact Hw|constructor]. }
  destruct (m _) as [r s]. cbn in *. apply Hok.
Qed.

Lemma step_db_ok w w' : step w w' -> db_ok (store w) -> db_ok (store w').
Proof.
  intros Hstep Hw. destruct Hstep as [request u w _|w w' Hel].
  - destruct request; cbn; apply keeps_handler; try assumption.
    + apply keeps_create_conversation.
    + apply keeps_create_message.
    + apply keeps_archive_conversation.
    + apply keeps_unarchive_conversation.
    + apply keeps_delete_conversation.
    + apply keeps_report_conversation.
    + apply keeps_continue_conversation.
    + apply keeps_send_purchase_offer.
    + apply keeps_respond_to_offer.
    + apply keeps_rate_user.
  - destruct Hel as (Hc & Ht & Hr & Hcs & Hts & Hrs).
    destruct Hw as (H1 & H2 & H3 & H4).
    unfold db_ok. rewrite Hc, Hr, Hrs. repeat split; assumption.
Qed.

Lemma reachable_db_ok w : reachable w -> db_ok (store w).
Proof.
  induction 1 as [|w w' Hreach IH Hstep].
  - repeat split; cbn; constructor.
  - eapply step_db_ok; eassumption.
Qed.

(** ** Lookups after writes *)

Lemma find_replace_row {A} (key : A -> option Z) (x r0 : A) (k : option Z) (rows : list A) :
  key x = k ->
  List.find (fun r => bool_decide (key r = k)) rows = Some r0 ->
  List.find (fun r => bool_decide (key r = k)) (replace_row key x rows) = Some x.
Proof.
  intros Hx. unfold replace_row.
  induction rows as [|r rows IH]; cbn; [discriminate|].
  destruct (bool_decide (key r = k)) eqn:E.
  - intros _. apply bool_decide_eq_true in E.
    rewrite (bool_decide_eq_true_2 (key r = key x)) by congruence.
    rewrite (bool_decide_eq_true_2 (key x = k)) by assumption. reflexivity.
  - intros Hfind. apply bool_decide_eq_false in E.
    rewrite (bool_decide_eq_false_2 (key r = key x)) by congruence.
    rewrite (bool_decide_eq_false_2 (key r = k)) by assumption. apply IH. assumption.
Qed.

Lemma get_conversation_id cid db c :
  get_conversation cid db = Some c -> Conversation.id c = Some cid.
Proof.
  unfold get_conversation. intros H. apply find_some in H. destruct H as [_ H].
  apply bool_decide_eq_true in H. assumption.
Qed.

Lemma get_item_id i db item :
  get_item i db = Some item -> i = Some (Item.id item).
Proof.
  destruct i as [i|]; cbn; [|discriminate].
  intros H. apply find_some in H. destruct H as [_ H].
  apply Z.eqb_eq in H. congruence.
Qed.

Lemma find_item_updated i item item' rows :
  Item.id item' = Item.id item ->
  List.find (fun r => Item.id r =? i) rows = Some item ->
  List.find (fun r => Item.id r =? i)
    (map (fun r => if Item.id r =? Item.id item' then item' else r) rows) = Some item'.
Proof.
  intros Hid Hfind.
  assert (Hi : Item.id item = i).
  { apply find_some in Hfind. destruct Hfind as [_ H]. apply Z.eqb_eq in H. assumption. }
  rewrite Hid, Hi. clear Hi.
  induction rows as [|r rows IH]; cbn in *; [discriminate|].
  destruct (Item.id r =? i) eqn:E.
  - rewrite Hid. inversion Hfind; subst. rewrite E. reflexivity.
  - rewrite E. apply IH. assumption.
Qed.

Lemma participant_guard u c :
  participant u c ->
  negb (Conversation.user1_id c =? User.id u) && negb (Conversation.user2_id c =? User.id u)
  = false.
Proof.
  intros [H|H]; rewrite H, Z.eqb_refl; cbn; [reflexivity|apply andb_false_r].
Qed.

Lemma load_conversation_eq cid u msg c s :
  get_conversation cid (work (session s)) = Some c ->
  participant u c ->
  load_conversation cid u msg s = (inr c, s).
Proof.
  intros Hc Hp. unfold load_conversation, bind, query. rewrite Hc.
  rewrite (participant_guard _ _ Hp). reflexivity.
Qed.

Lemma json_get_action rd a : action_is rd a -> json_get rd "action" = JString a.
Proof. unfold action_is, json_get. intros ->. reflexivity. Qed.

Lemma respond_without_pending_offer
    (w : World) (conversation_id : Z) (response_data : gmap string json)
    (current_user : User.t) (c : Conversation.t) :
  get_conversation conversation_id (store w) = Some c ->
  participant current_user c ->
  has_pending_offer c = false ->
  run (respond_to_offer conversation_id response_data current_user) w
  = (inl (HTTPException HTTP_400_BAD_REQUEST "No pending offer to respond to"), w).
Proof.
  intros Hc Hp Hpending.
  unfold run, respond_to_offer, bind.
  rewrite (load_conversation_eq _ _ _ c) by assumption.
  unfold has_pending_offer in Hpending.
  rewrite <- negb_andb, Hpending. cbn. destruct w; reflexivity.
Qed.
Arguments dollars : simpl never.
Arguments create_notification : simpl never.

(** ** Running a handler one statement at a time *)

Lemma bind_assoc {A B C} (m : M A) (k1 : A -> M B) (k2 : B -> M C) s :
  bind (bind m k1) k2 s = bind m (fun a => bind (k1 a) k2) s.
Proof. unfold bind. destruct (m s) as [[e|a] s1]; reflexivity. Qed.

Lemma bind_ret {A B} (a : A) (k : A -> M B) s : bind (ret a) k s = k a s.
Proof. reflexivity. Qed.

Lemma bind_raise {A B} (e : Failure) (k : A -> M B) s : bind (raise e) k s = (inl e, s).
Proof. reflexivity. Qed.

Lemma bind_query {A B} (q : DB -> A) (k : A -> M B) s :
  bind (query q) k s = k (q (work (session s))) s.
Proof. reflexivity. Qed.

Lemma bind_utcnow {B} (k : datetime -> M B) s :
  bind utcnow k s = k (clock (world s)) (tick s).
Proof. reflexivity. Qed.

Lemma bind_db_add {B} (e : Entity) (k : nat -> M B) s :
  bind (db_add e) k s
  = k (length (pending (session s)))
      (mkCtx (world s)
         (mkSession (work (session s)) (pending (session s) ++ [e]) (flushed (session s)))).
Proof. reflexivity. Qed.

Lemma bind_modify_work {B} (f : DB -> DB) (k : unit -> M B) s :
  bind (modify_work f) k s
  = k tt (mkCtx (world s)
            (mkSession (f (work (session s))) (pending (session s)) (flushed (session s)))).
Proof. reflexivity. Qed.

(** *** When the commit goes through *)

Lemma already_stores_self {A} `{EqDecision A} (column : Conversation.t -> A) committed c :
  In c (conversations committed) -> already_stores column committed c = true.
Proof.
  intros Hin. unfold already_stores. apply existsb_exists. exists c.
  split; [exact Hin|]. rewrite !bool_decide_eq_true_2 by reflexivity. reflexivity.
Qed.

Lemma already_stores_same {A} `{EqDecision A} (column : Conversation.t -> A) committed c c' :
  In c (conversations committed) ->
  Conversation.id c' = Conversation.id c ->
  column c' = column c ->
  already_stores column committed c' = true.
Proof.
  intros Hin Hid Hcol. unfold already_stores. apply existsb_exists. exists c.
  split; [exact Hin|]. rewrite !bool_decide_eq_true_2 by congruence. reflexivity.
Qed.

Lemma refused_none committed db :
  (forall c, In c (conversations db) ->
             price_accepted committed c = true /\ item_accepted committed db c = true) ->
  refused committed db = None.
Proof.
  intros Hall. unfold refused.
  assert (Hprice : forallb (price_accepted committed) (conversations db) = true).
  { apply forallb_forall. intros c Hin. apply (Hall c Hin). }
  assert (Hitem : forallb (item_accepted committed db) (conversations db) = true).
  { apply forallb_forall. intros c Hin. apply (Hall c Hin). }
  rewrite Hprice, Hitem. reflexivity.
Qed.

(** No conversation row is written. *)
Lemma refused_same committed db :
  conversations db = conversations committed -> refused committed db = None.
Proof.
  intros Hsame. apply refused_none. intros c Hin. rewrite Hsame in Hin.
  unfold price_accepted, item_accepted.
  rewrite !already_stores_self by assumption. split; reflexivity.
Qed.

(** Rows are deleted, none is written. *)
Lemma refused_removed committed db keep :
  conversations db = List.filter keep (conversations committed) -> refused committed db = None.
Proof.
  intros Hsame. apply refused_none. intros c Hin. rewrite Hsame in Hin.
  apply filter_In in Hin. destruct Hin as [Hin _].
  unfold price_accepted, item_accepted.
  rewrite !already_stores_self by assumption. split; reflexivity.
Qed.

(** One row is updated: a price or an item it did not carry must be
    acceptable. *)
Lemma refused_replaced committed db c c' :
  In c (conversations committed) ->
  conversations db = replace_row Conversation.id c' (conversations committed) ->
  Conversation.id c' = Conversation.id c ->
  (Conversation.pending_offer_price c' = Conversation.pending_offer_price c
   \/ fits_integer (Conversation.pending_offer_price c') = true) ->
  (Conversation.item_id c' = Conversation.item_id c
   \/ references_item (Conversation.item_id c') db = true) ->
  refused committed db = None.
Proof.
  intros Hin Hrows Hid Hprice Hitem. apply refused_none. intros r Hr.
  rewrite Hrows in Hr. unfold replace_row in Hr. apply in_map_iff in Hr.
  destruct Hr as (r0 & Hr0 & Hin0).
  unfold price_accepted, item_accepted.
  destruct (bool_decide (Conversation.id r0 = Conversation.id c')); subst r.
  - split; apply orb_true_iff.
    + destruct Hprice as [Hprice|Hprice]; [left|right; exact Hprice].
      apply (already_stores_same _ _ c); assumption.
    + destruct Hitem as [Hitem|Hitem]; [left|right; exact Hitem].
      apply (already_stores_same _ _ c); assumption.
  - rewrite !already_stores_self by assumption. split; reflexivity.
Qed.

Lemma refused_updated cid committed db c c' :
  get_conversation cid committed = Some c ->
  conversations db = replace_row Conversation.id c' (conversations committed) ->
  Conversation.id c' = Conversation.id c ->
  (Conversation.pending_offer_price c' = Conversation.pending_offer_price c
   \/ fits_integer (Conversation.pending_offer_price c') = true) ->
  (Conversation.item_id c' = Conversation.item_id c
   \/ references_item (Conversation.item_id c') db = true) ->
  refused committed db = None.
Proof.
  intros Hc. apply refused_replaced.
  unfold get_conversation in Hc. apply find_some in Hc. apply Hc.
Qed.

(** One row is inserted. *)
Lemma refused_inserted committed db row :
  conversations db = conversations committed ++ [row] ->
  fits_integer (Conversation.pending_offer_price row) = true ->
  references_item (Conversation.item_id row) db = true ->
  refused committed db = None.
Proof.
  intros Hrows Hprice Hitem. apply refused_none. intros r Hr.
  rewrite Hrows in Hr. apply in_app_or in Hr.
  unfold price_accepted, item_accepted.
  destruct Hr as [Hr|[<-|[]]].
  - rewrite !already_stores_self by assumption. split; reflexivity.
  - rewrite Hprice, Hitem, !orb_true_r. split; reflexivity.
Qed.

Lemma bind_db_commit {B} (k : unit -> M B) s :
  refused (store (world s))
          (snd (flush (clock (world s)) (pending (session s)) (work (session s)))) = None ->
  bind db_commit k s
  = k tt (let w := world s in
          let flushing := flush (clock w) (pending (session s)) (work (session s)) in
          mkCtx (mkWorld (snd flushing) (commit_log w ++ [snd flushing]) (clock w)
                         (active_connections w) (delivered w))
                (mkSession (snd flushing) [] (fst flushing))).
Proof.
  unfold bind, db_commit. cbv zeta.
  destruct (flush _ _ _) as [rows db]. cbn [snd fst]. intros ->. reflexivity.
Qed.

Lemma bind_db_commit_refused {B} (k : unit -> M B) s e :
  refused (store (world s))
          (snd (flush (clock (world s)) (pending (session s)) (work (session s)))) = Some e ->
  bind db_commit k s = (inl e, s).
Proof.
  unfold bind, db_commit. cbv zeta.
  destruct (flush _ _ _) as [rows db]. cbn [snd fst]. intros ->. reflexivity.
Qed.

(** *** When the commit is refused *)

Lemma consistent_row db c :
  consistent db = true -> In c (conversations db) ->
  fits_integer (Conversation.pending_offer_price c) = true
  /\ references_item (Conversation.item_id c) db = true.
Proof.
  intros Hdb Hin. unfold consistent in Hdb. rewrite forallb_forall in Hdb.
  apply andb_true_iff. apply Hdb. exact Hin.
Qed.

Lemma In_replace_row {A} (key : A -> option Z) (x r0 : A) (rows : list A) :
  In r0 rows -> key x = key r0 -> In x (replace_row key x rows).
Proof.
  intros Hin Hkey. unfold replace_row. apply in_map_iff. exists r0.
  rewrite bool_decide_eq_true_2 by congruence. split; [reflexivity|exact Hin].
Qed.

Lemma price_not_stored committed c :
  consistent committed = true ->
  fits_integer (Conversation.pending_offer_price c) = false ->
  price_accepted committed c = false.
Proof.
  intros Hdb Hc. unfold price_accepted. rewrite Hc, orb_false_r.
  unfold already_stores.
  destruct (existsb _ _) eqn:E; [|reflexivity].
  apply existsb_exists in E. destruct E as (r & Hin & Hr).
  apply andb_true_iff in Hr. destruct Hr as [_ Hr]. apply bool_decide_eq_true in Hr.
  destruct (consistent_row _ _ Hdb Hin) as [Hfits _]. congruence.
Qed.

Lemma item_not_stored committed db c :
  consistent committed = true ->
  items db = items committed ->
  references_item (Conversation.item_id c) db = false ->
  item_accepted committed db c = false.
Proof.
  intros Hdb Hitems Hc. unfold item_accepted. rewrite Hc, orb_false_r.
  unfold already_stores.
  destruct (existsb _ _) eqn:E; [|reflexivity].
  apply existsb_exists in E. destruct E as (r & Hin & Hr).
  apply andb_true_iff in Hr. destruct Hr as [_ Hr]. apply bool_decide_eq_true in Hr.
  destruct (consistent_row _ _ Hdb Hin) as [_ Href].
  unfold references_item in *. rewrite Hitems, <- Hr, Href in Hc. discriminate.
Qed.

Lemma forallb_false {A} (f : A -> bool) (l : list A) (x : A) :
  In x l -> f x = false -> forallb f l = false.
Proof.
  intros Hin Hx. destruct (forallb f l) eqn:E; [|reflexivity].
  rewrite forallb_forall in E. rewrite (E x Hin) in Hx. discriminate.
Qed.

(** The update of one row to a price beyond the column. *)
Lemma refused_price cid committed db c c' :
  consistent committed = true ->
  get_conversation cid committed = Some c ->
  conversations db = replace_row Conversation.id c' (conversations committed) ->
  Conversation.id c' = Conversation.id c ->
  fits_integer (Conversation.pending_offer_price c') = false ->
  refused committed db = Some (Unhandled "DataError: integer out of range").
Proof.
  intros Hdb Hc Hrows Hid Hprice. unfold refused.
  rewrite (forallb_false _ _ c'); [reflexivity| |].
  - rewrite Hrows. apply (In_replace_row _ _ c); [|exact Hid].
    unfold get_conversation in Hc. apply find_some in Hc. apply Hc.
  - apply price_not_stored; assumption.
Qed.

(** Rows whose price is the stored one or fits are no cause of a refusal. *)
Lemma prices_accepted_replaced committed db c c' :
  In c (conversations committed) ->
  conversations db = replace_row Conversation.id c' (conversations committed) ->
  Conversation.id c' = Conversation.id c ->
  Conversation.pending_offer_price c' = Conversation.pending_offer_price c ->
  forallb (price_accepted committed) (conversations db) = true.
Proof.
  intros Hin Hrows Hid Hprice. apply forallb_forall. intros r Hr.
  rewrite Hrows in Hr. unfold replace_row in Hr. apply in_map_iff in Hr.
  destruct Hr as (r0 & Hr0 & Hin0). unfold price_accepted.
  destruct (bool_decide (Conversation.id r0 = Conversation.id c')); subst r.
  - rewrite (already_stores_same _ _ c) by assumption. reflexivity.
  - rewrite already_stores_self by assumption. reflexivity.
Qed.

(** The update of one row to an item that is not there. *)
Lemma refused_item_of_update committed db c c' :
  consistent committed = true ->
  In c (conversations committed) ->
  conversations db = replace_row Conversation.id c' (conversations committed) ->
  items db = items committed ->
  Conversation.id c' = Conversation.id c ->
  Conversation.pending_offer_price c' = Conversation.pending_offer_price c ->
  references_item (Conversation.item_id c') db = false ->
  refused committed db = Some (Unhandled "IntegrityError: violates foreign key constraint").
Proof.
  intros Hdb Hin Hrows Hitems Hid Hprice Hitem. unfold refused.
  rewrite (prices_accepted_replaced _ _ c c') by assumption. cbn [negb].
  rewrite (forallb_false _ _ c'); [reflexivity| |].
  - rewrite Hrows. apply (In_replace_row _ _ c); assumption.
  - apply item_not_stored; assumption.
Qed.

(** The insertion of a row for an item that is not there. *)
Lemma refused_item_of_insert committed db row :
  consistent committed = true ->
  conversations db = conversations committed ++ [row] ->
  items db = items committed ->
  fits_integer (Conversation.pending_offer_price row) = true ->
  references_item (Conversation.item_id row) db = false ->
  refused committed db = Some (Unhandled "IntegrityError: violates foreign key constraint").
Proof.
  intros Hdb Hrows Hitems Hprice Hitem. unfold refused.
  assert (Hprices : forallb (price_accepted committed) (conversations db) = true).
  { apply forallb_forall. intros r Hr. rewrite Hrows in Hr. apply in_app_or in Hr.
    unfold price_accepted. destruct Hr as [Hr|[<-|[]]].
    - rewrite already_stores_self by assumption. reflexivity.
    - rewrite Hprice. apply orb_true_r. }
  rewrite Hprices. cbn [negb].
  rewrite (forallb_false _ _ row); [reflexivity| |].
  - rewrite Hrows. apply in_or_app. right. left. reflexivity.
  - apply item_not_stored; assumption.
Qed.

Lemma bind_refreshed {B} (h : nat) (k : Entity -> M B) s e :
  nth_error (flushed (session s)) h = Some e ->
  bind (refreshed h) k s = k e s.
Proof. intros H. unfold bind, refreshed. rewrite H. reflexivity. Qed.

Lemma bind_push {B} user_id event (k : unit -> M B) s :
  bind (push user_id event) k s
  = k tt (deliver (pushed (active_connections (world s)) user_id event) s).
Proof. unfold bind. rewrite push_eq. reflexivity. Qed.

Lemma bind_broadcast {B} conversation (k : unit -> M B) s :
  truthy (Conversation.transaction_id conversation) = false ->
  bind (broadcast_conversation_update conversation) k s
  = k tt (deliver
            (pushed (active_connections (world s)) (Conversation.user1_id conversation)
               (ev_conversation_updated
                  (update_payload conversation (work (session s)) (clock (world s))))
             ++ pushed (active_connections (world s)) (Conversation.user2_id conversation)
                  (ev_conversation_updated
                     (update_payload conversation (work (session s)) (clock (world s)))))
            (tick s)).
Proof. intros H. unfold bind. rewrite broadcast_eq by assumption. reflexivity. Qed.

Lemma bind_create_notification {B} uid ty title msg i u c (k : Notification.t -> M B) s :
  pending (session s) = [] ->
  conversations (work (session s)) = conversations (store (world s)) ->
  bind (create_notification uid ty title msg i u c) k s
  = let w := world s in
    let row :=
      {| Notification.id := Some (notifications_seq (work (session s)));
         Notification.user_id := uid;
         Notification.type := ty;
         Notification.title := title;
         Notification.message := msg;
         Notification.is_read := false;
         Notification.read_at := None;
         Notification.related_item_id := i;
         Notification.related_user_id := u;
         Notification.related_conversation_id := c;
         Notification.created_at := Some (clock w);
         Notification.created_by := Some "system" |} in
    let db := work (session s) in
    let db' :=
      mkDB (users db) (items db) (conversations db) (messages db) (transactions db)
           (ratings db) (notifications db ++ [row])
           (conversations_seq db) (messages_seq db) (transactions_seq db)
           (ratings_seq db) (notifications_seq db + 1) in
    k row (mkCtx (mkWorld db' (commit_log w ++ [db']) (clock w)
                          (active_connections w) (delivered w))
                 (mkSession db' [] [ENotification row])).
Proof.
  intros Hp Hsame. unfold create_notification.
  rewrite bind_assoc, bind_db_add, bind_assoc, bind_db_commit.
  - cbv zeta. cbn [session pending work world flushed]. rewrite Hp.
    cbn [app length flush insert fst snd].
    erewrite bind_assoc, bind_refreshed by reflexivity.
    reflexivity.
  - cbn [session pending work world flushed]. rewrite Hp.
    cbn [app flush insert fst snd]. apply refused_same. exact Hsame.
Qed.

(** The state after a statement, brought back to constructor form. *)
Ltac settle :=
  cbv beta zeta;
  cbn [world session work pending flushed
       store commit_log clock active_connections delivered
       users items conversations messages transactions ratings notifications
       conversations_seq messages_seq transactions_seq ratings_seq notifications_seq
       update_conversation update_item update_rating unlink_conversation remove_conversation
       flush insert fst snd app length nth_error deliver tick].

(** The commit at hand is accepted: it writes no conversation row, or
    deletes one, or updates the row of a hypothesis [get_conversation _ _ =
    Some c] with the price and the item it had or acceptable ones, or
    inserts a row with an acceptable item. *)
Ltac commit_accepted :=
  settle;
  first
    [ apply refused_same; reflexivity
    | eapply refused_removed; reflexivity
    | match goal with
      | Hc : get_conversation _ _ = Some ?c |- _ =>
          eapply (refused_updated _ _ _ c _ Hc);
          [ reflexivity
          | reflexivity
          | first [left; reflexivity | right; assumption | right; reflexivity]
          | first [left; reflexivity | right; assumption] ]
      end
    | eapply refused_inserted; [reflexivity | reflexivity | assumption] ].

Ltac run_statement :=
  first
    [ rewrite bind_assoc
    | rewrite bind_ret
    | rewrite bind_raise
    | rewrite bind_query
    | rewrite bind_utcnow
    | rewrite bind_db_add
    | rewrite bind_modify_work
    | rewrite bind_db_commit by commit_accepted
    | rewrite bind_push
    | erewrite bind_refreshed by reflexivity
    | rewrite bind_create_notification by reflexivity
    | rewrite bind_broadcast by reflexivity ];
  settle.


(** ** Accepting an offer *)

Lemma Forall_pushed (P : Z * Event -> Prop) conns uid ev :
  P (uid, ev) -> Forall P (pushed conns uid ev).
Proof.
  intros H. unfold pushed. destruct (conns !! uid) as [[[]]|]; repeat constructor. assumption.
Qed.

Lemma same_but_notifications_refl db : same_but_notifications db db.
Proof. repeat split. Qed.

(** [((old ++ a) ++ b) ++ (c ++ d) = old ++ ?sold ++ c' ++ d'] *)
Ltac sold_then_updated :=
  match goal with
  | |- ((?old ++ ?a) ++ ?b) ++ ?cd = _ =>
      transitivity (old ++ (a ++ b) ++ cd);
      [ rewrite <- !app_assoc; reflexivity
      | apply (f_equal (app old)); apply (f_equal2 (@app _)); reflexivity ]
  end.

Lemma accept_outcome
    (w : World) (conversation_id : Z) (response_data : gmap string json)
    (current_user : User.t) (c : Conversation.t) (item : Item.t) (cents : Z) :
  get_conversation conversation_id (store w) = Some c ->
  participant current_user c ->
  has_pending_offer c = true ->
  Conversation.pending_offer_price c = Some cents ->
  get_item (Conversation.item_id c) (store w) = Some item ->
  action_is response_data "accept" ->
  exists (resp : TransactionResponse.t) (db1 : DB) (later : list DB)
         (tx : Transaction.t) (c' : Conversation.t) (item' : Item.t)
         (sold_events : list (Z * Event)) (payload : ConversationUpdated.t),
    let out := run (respond_to_offer conversation_id response_data current_user) w in
    fst out = inr (OfferAccepted resp)
    /\ commit_log (snd out) = commit_log w ++ db1 :: later
    /\ store (snd out) = List.last later db1
    /\ Forall (same_but_notifications db1) later
    /\ transactions db1 = transactions (store w) ++ [tx]
    /\ get_conversation conversation_id db1 = Some c'
    /\ get_item (Conversation.item_id c) db1 = Some item'
    /\ delivered (snd out)
       = delivered w ++ sold_events
         ++ pushed (active_connections w) (Conversation.user1_id c)
              (ev_conversation_updated payload)
         ++ pushed (active_connections w) (Conversation.user2_id c)
              (ev_conversation_updated payload)
    /\ Forall (is_item_sold_for (transactions_seq (store w))) sold_events
    (* the transaction *)
    /\ (Transaction.id tx = Some (transactions_seq (store w))
        /\ Transaction.item_id tx = Conversation.item_id c
        /\ Transaction.seller_id tx = Item.seller_id item
        /\ Transaction.buyer_id tx = counterpart c (Item.seller_id item)
        /\ Transaction.conversation_id tx = Some conversation_id
        /\ Transaction.sale_price tx = dollars cents)
    /\ (TransactionResponse.id resp = transactions_seq (store w)
        /\ TransactionResponse.seller_id resp = Item.seller_id item
        /\ TransactionResponse.buyer_id resp = counterpart c (Item.seller_id item)
        /\ TransactionResponse.sale_price resp = dollars cents)
    (* the conversation and the item *)
    /\ (Conversation.is_sold c' = true
        /\ Conversation.is_ended c' = true
        /\ pending_offer_cleared c'
        /\ Conversation.transaction_id c' = None)
    /\ Item.status item' = SOLD
    (* the conversation_updated payload *)
    /\ (ConversationUpdated.conversation_id payload = Some conversation_id
        /\ ConversationUpdated.is_sold payload = true
        /\ ConversationUpdated.is_ended payload = true
        /\ ConversationUpdated.transaction_id payload = None
        /\ ConversationUpdated.transaction payload = None).
Proof.
  intros Hc Hp Hpending Hcents Hitem Haction.
  pose proof (get_item_id _ _ _ Hitem) as Hiid.
  pose proof (get_conversation_id _ _ _ Hc) as Hcid.
  destruct (if User.id current_user =? Item.seller_id item
            then get_user (counterpart c (Item.seller_id item)) (store w)
            else get_user (Item.seller_id item) (store w)) as [other|] eqn:Hother;
    unfold get_user in Hother.
  all: eassert (Hrun : run (respond_to_offer conversation_id response_data current_user) w = _).
  1, 3: unfold run, respond_to_offer, bind at 1;
    rewrite (load_conversation_eq _ _ _ c) by assumption;
    unfold has_pending_offer in Hpending;
    rewrite <- negb_andb, Hpending; cbn [negb];
    run_statement; rewrite Hitem;
    rewrite (json_get_action _ _ Haction);
    change (json_is (JString "accept") "accept") with true; cbv iota;
    unfold accept_offer; rewrite Hcents, Hiid;
    repeat run_statement;
    unfold serialize_transaction at 1;
    cbn [Transaction.id Transaction.item_id Transaction.set_id Transaction.set_created_at];
    repeat run_statement;
    unfold get_user; cbn [users]; rewrite Hother;
    repeat run_statement; cbn [for_each]; repeat run_statement;
    unfold ret; cbn [world]; reflexivity.
  all: do 8 eexists; cbv zeta; rewrite Hrun; cbn [fst snd]; settle.
  all: split; [reflexivity|].
  all: split; [rewrite <- ?app_assoc; reflexivity|].
  all: split; [reflexivity|].
  - split; [repeat constructor|].
    split; [reflexivity|].
    split; [unfold get_conversation; cbn [conversations];
            eapply find_replace_row; [|exact Hc]; exact Hcid|].
    split; [rewrite Hiid in *; cbn [get_item items] in *;
            eapply find_item_updated; [|exact Hitem]; reflexivity|].
    split; [sold_then_updated|].
    split; [apply Forall_app; split; apply Forall_pushed; eexists; split; reflexivity|].
    repeat split; try reflexivity; try assumption; exact (eq_sym Hiid).
  - split; [constructor|].
    split; [reflexivity|].
    split; [unfold get_conversation; cbn [conversations];
            eapply find_replace_row; [|exact Hc]; exact Hcid|].
    split; [rewrite Hiid in *; cbn [get_item items] in *;
            eapply find_item_updated; [|exact Hitem]; reflexivity|].
    split; [sold_then_updated|].
    split; [apply Forall_app; split; apply Forall_pushed; eexists; split; reflexivity|].
    repeat split; try reflexivity; try assumption; exact (eq_sym Hiid).
Qed.

(** ** The scenario is a run of the service *)

Lemma registered_reachable : reachable Scenario.registered.
Proof.
  apply (reachable_step initial_world); [apply reachable_initial|].
  apply step_elsewhere. repeat split.
Qed.

Lemma opened_reachable : reachable Scenario.opened.
Proof.
  apply (reachable_step Scenario.registered); [apply registered_reachable|].
  apply step_request. reflexivity.
Qed.

Lemma offered_reachable : reachable Scenario.offered.
Proof.
  apply (reachable_step Scenario.opened); [apply opened_reachable|].
  apply step_request. reflexivity.
Qed.

Lemma sold_reachable : reachable Scenario.sold.
Proof.
  apply (reachable_step Scenario.offered); [apply offered_reachable|].
  apply step_request. vm_compute. reflexivity.
Qed.

Lemma rated_reachable : reachable Scenario.rated.
Proof.
  apply (reachable_step Scenario.sold); [apply sold_reachable|].
  apply step_request. vm_compute. reflexivity.
Qed.

Lemma same_but_notifications_sale db1 db cid c iid item txs :
  same_but_notifications db1 db ->
  transactions db1 = txs ->
  get_item iid db1 = Some item ->
  get_conversation cid db1 = Some c ->
  transactions db = txs /\ get_item iid db = Some item /\ get_conversation cid db = Some c.
Proof.
  intros (Hu & Hi & Hc & Hm & Ht & Hr) Htx Hitem Hconv.
  unfold get_item, get_conversation in *. rewrite Hi, Hc, Ht. auto.
Qed.

(** C1: accepting a pending offer on an existing item creates exactly one
    Transaction, priced at the pending cents divided by 100, sold by the item's
    owner to the other participant whoever proposed; the item becomes SOLD,
    the conversation sold and ended with its three pending-offer fields
    cleared; and every state the request commits - there is at least one -
    already holds all of it. *)
Theorem accept_sells_in_one_commit
    (w : World) (conversation_id : Z) (response_data : gmap string json)
    (current_user : User.t) (c : Conversation.t) (item : Item.t) (cents : Z) :
  get_conversation conversation_id (store w) = Some c ->
  participant current_user c ->
  has_pending_offer c = true ->
  Conversation.pending_offer_price c = Some cents ->
  get_item (Conversation.item_id c) (store w) = Some item ->
  action_is response_data "accept" ->
  let out := run (respond_to_offer conversation_id response_data current_user) w in
  exists (tx : Transaction.t) (c' : Conversation.t) (item' : Item.t)
         (first : DB) (later : list DB),
    (exists resp, fst out = inr (OfferAccepted resp)
                  /\ TransactionResponse.sale_price resp = dollars cents)
    /\ commit_log (snd out) = commit_log w ++ first :: later
    /\ store (snd out) = List.last later first
    /\ Forall (fun db =>
                 transactions db = transactions (store w) ++ [tx]
                 /\ get_item (Conversation.item_id c) db = Some item'
                 /\ get_conversation conversation_id db = Some c')
              (first :: later)
    /\ Transaction.sale_price tx = dollars cents
    /\ Transaction.seller_id tx = Item.seller_id item
    /\ (Item.seller_id item = Conversation.user1_id c
        -> Transaction.buyer_id tx = Conversation.user2_id c)
    /\ (Item.seller_id item <> Conversation.user1_id c
        -> Transaction.buyer_id tx = Conversation.user1_id c)
    /\ Item.status item' = SOLD
    /\ Conversation.is_sold c' = true
    /\ Conversation.is_ended c' = true
    /\ pending_offer_cleared c'.
Proof.
  intros Hc Hp Hpending Hcents Hitem Haction out.
  destruct (accept_outcome w conversation_id response_data current_user c item cents
              Hc Hp Hpending Hcents Hitem Haction)
    as (resp & db1 & later & tx & c' & item' & sold_events & payload & H).
  cbv zeta in H. fold out in H.
  destruct H as (Hres & Hlog & Hstore & Hlater & Htx & Hconv & Hit & _ & _
                 & (_ & _ & Hseller & Hbuyer & _ & Hprice)
                 & (_ & _ & _ & Hrprice) & (Hsold & Hended & Hcleared & _) & Hstatus & _).
  exists tx, c', item', db1, later.
  split; [exists resp; split; assumption|].
  split; [assumption|]. split; [assumption|].
  split.
  { constructor; [auto|].
    eapply Forall_impl; [exact Hlater|]. intros db Hdb.
    eapply same_but_notifications_sale; eassumption. }
  split; [assumption|]. split; [assumption|].
  split.
  { intros Hs. rewrite Hbuyer. unfold counterpart. rewrite Hs, Z.eqb_refl. reflexivity. }
  split.
  { intros Hs. rewrite Hbuyer. unfold counterpart.
    destruct (Z.eqb_spec (Conversation.user1_id c) (Item.seller_id item)); [congruence|reflexivity]. }
  auto.
Qed.

Lemma accept_sells_in_one_commit_witness :
  let out := run (respond_to_offer 1 Scenario.accept Scenario.alice) Scenario.offered in
  exists tx c' item' first later,
    (exists resp, fst out = inr (OfferAccepted resp)
                  /\ TransactionResponse.sale_price resp = dollars 5000)
    /\ commit_log (snd out) = commit_log Scenario.offered ++ first :: later
    /\ store (snd out) = List.last later first
    /\ Forall (fun db =>
                 transactions db = transactions (store Scenario.offered) ++ [tx]
                 /\ get_item (Some 10) db = Some item'
                 /\ get_conversation 1 db = Some c')
              (first :: later)
    /\ Transaction.sale_price tx = dollars 5000
    /\ Transaction.seller_id tx = 1
    /\ (1 = 2 -> Transaction.buyer_id tx = 1)
    /\ (1 <> 2 -> Transaction.buyer_id tx = 2)
    /\ Item.status item' = SOLD
    /\ Conversation.is_sold c' = true
    /\ Conversation.is_ended c' = true
    /\ pending_offer_cleared c'.
Proof.
  refine (accept_sells_in_one_commit Scenario.offered 1 Scenario.accept Scenario.alice
            (Conversation.Build (Some 1) 2 1 (Some 10) (Some 101) false None None
               (Some 5000) (Some 2) (Some 100) false None false None None None
               (Some "bob") (Some "bob"))
            Scenario.bike 5000 _ _ _ _ _ _).
  - vm_compute. reflexivity.
  - right. reflexivity.
  - reflexivity.
  - reflexivity.
  - reflexivity.
  - reflexivity.
Defined.

(** C7: with no pending offer on the conversation, a response - reject,
    counter or anything else - is answered with the client error 400 "No
    pending offer to respond to"; the handler raises it before it writes
    anything, so the whole world is as it was. *)
Theorem no_pending_offer_is_a_client_error
    (w : World) (conversation_id : Z) (response_data : gmap string json)
    (current_user : User.t) (c : Conversation.t) :
  get_conversation conversation_id (store w) = Some c ->
  participant current_user c ->
  has_pending_offer c = false ->
  exists failure,
    run (respond_to_offer conversation_id response_data current_user) w = (inl failure, w)
    /\ failure = HTTPException HTTP_400_BAD_REQUEST "No pending offer to respond to"
    /\ is_client_error failure = true.
Proof.
  intros Hc Hp Hpending. eexists. split; [|split; reflexivity].
  apply (respond_without_pending_offer w conversation_id response_data current_user c);
    assumption.
Qed.

Lemma no_pending_offer_is_a_client_error_witness :
  exists failure,
    run (respond_to_offer 1 Scenario.reject Scenario.alice) Scenario.opened
    = (inl failure, Scenario.opened)
    /\ failure = HTTPException HTTP_400_BAD_REQUEST "No pending offer to respond to"
    /\ is_client_error failure = true.
Proof.
  refine (no_pending_offer_is_a_client_error Scenario.opened 1 Scenario.reject Scenario.alice
            (Conversation.set_id (Some 1) (new_conversation 2 1 (Some 10) "bob")) _ _ _).
  - reflexivity.
  - right. reflexivity.
  - reflexivity.
Defined.

(** C2: in every reachable state, accepting on a conversation that is
    already sold is answered with a 400 client error and nothing is written:
    no new Transaction, no commit.  (The route does not test [is_sold]; a
    sold conversation never holds a pending offer, and that test rejects.) *)
Theorem accept_on_sold_conversation_is_rejected
    (w : World) (conversation_id : Z) (response_data : gmap string json)
    (current_user : User.t) (c : Conversation.t) :
  reachable w ->
  get_conversation conversation_id (store w) = Some c ->
  participant current_user c ->
  Conversation.is_sold c = true ->
  action_is response_data "accept" ->
  let out := run (respond_to_offer conversation_id response_data current_user) w in
  (exists failure, fst out = inl failure
                   /\ response_status failure = HTTP_400_BAD_REQUEST
                   /\ is_client_error failure = true)
  /\ snd out = w
  /\ transactions (store (snd out)) = transactions (store w)
  /\ commit_log (snd out) = commit_log w.
Proof.
  intros Hreach Hc Hp Hsold _ out.
  assert (Hpending : has_pending_offer c = false).
  { pose proof (reachable_db_ok w Hreach) as Hok.
    destruct (conversation_ok_found _ _ _ Hok Hc) as [Hnone _].
    unfold has_pending_offer. rewrite (Hnone Hsold). reflexivity. }
  pose proof (respond_without_pending_offer w conversation_id response_data current_user c
                Hc Hp Hpending) as Hrun.
  subst out. rewrite Hrun. cbn [fst snd].
  split; [eexists; split; [reflexivity|split; reflexivity]|].
  repeat split.
Qed.

Lemma accept_on_sold_conversation_is_rejected_witness :
  let out := run (respond_to_offer 1 Scenario.accept Scenario.bob) Scenario.sold in
  (exists failure, fst out = inl failure
                   /\ response_status failure = HTTP_400_BAD_REQUEST
                   /\ is_client_error failure = true)
  /\ snd out = Scenario.sold
  /\ transactions (store (snd out)) = transactions (store Scenario.sold)
  /\ commit_log (snd out) = commit_log Scenario.sold.
Proof.
  refine (accept_on_sold_conversation_is_rejected Scenario.sold 1 Scenario.accept Scenario.bob
            (Conversation.Build (Some 1) 2 1 (Some 10) (Some 105) true (Some 103) None
               None None None true (Some 104) false None None None
               (Some "bob") (Some "alice"))
            sold_reachable _ _ _ _).
  - vm_compute. reflexivity.
  - left. reflexivity.
  - reflexivity.
  - reflexivity.
Defined.

(** C5: after a successful accept the conversation row links no transaction:
    [transaction_id] was copied from the new Transaction object before the
    flush gave it a primary key.  The Transaction itself is stored under its
    key, and the [conversation_updated] payload pushed to both participants
    carries [transaction_id] and [transaction] null. *)
Theorem accepted_conversation_links_no_transaction
    (w : World) (conversation_id : Z) (response_data : gmap string json)
    (current_user : User.t) (c : Conversation.t) (item : Item.t) (cents : Z) :
  get_conversation conversation_id (store w) = Some c ->
  participant current_user c ->
  has_pending_offer c = true ->
  Conversation.pending_offer_price c = Some cents ->
  get_item (Conversation.item_id c) (store w) = Some item ->
  action_is response_data "accept" ->
  let out := run (respond_to_offer conversation_id response_data current_user) w in
  exists (resp : TransactionResponse.t) (tx : Transaction.t) (c' : Conversation.t)
         (sold_events : list (Z * Event)) (payload : ConversationUpdated.t),
    fst out = inr (OfferAccepted resp)
    /\ In tx (transactions (store (snd out)))
    /\ Transaction.id tx = Some (TransactionResponse.id resp)
    /\ Transaction.conversation_id tx = Some conversation_id
    /\ get_conversation conversation_id (store (snd out)) = Some c'
    /\ Conversation.is_sold c' = true
    /\ Conversation.transaction_id c' = None
    /\ delivered (snd out)
       = delivered w ++ sold_events
         ++ pushed (active_connections w) (Conversation.user1_id c)
              (ev_conversation_updated payload)
         ++ pushed (active_connections w) (Conversation.user2_id c)
              (ev_conversation_updated payload)
    /\ Forall (is_item_sold_for (TransactionResponse.id resp)) sold_events
    /\ ConversationUpdated.conversation_id payload = Some conversation_id
    /\ ConversationUpdated.is_sold payload = true
    /\ ConversationUpdated.transaction_id payload = None
    /\ ConversationUpdated.transaction payload = None.
Proof.
  intros Hc Hp Hpending Hcents Hitem Haction out.
  destruct (accept_outcome w conversation_id response_data current_user c item cents
              Hc Hp Hpending Hcents Hitem Haction)
    as (resp & db1 & later & tx & c' & item' & sold_events & payload & H).
  cbv zeta in H. fold out in H.
  destruct H as (Hres & Hlog & Hstore & Hlater & Htx & Hconv & Hit & Hdel & Hsoldev
                 & (Hid & _ & _ & _ & Htxconv & _)
                 & (Hrid & _) & (Hsold & _ & _ & Hlink)
                 & _ & (Hpc & Hps & _ & Hpt & Hptx)).
  assert (Hfinal : same_but_notifications db1 (store (snd out))).
  { rewrite Hstore. clear - Hlater.
    induction later as [|db rest IH] using rev_ind; [apply same_but_notifications_refl|].
    rewrite last_last. apply Forall_app in Hlater. destruct Hlater as [_ Hl].
    inversion Hl; assumption. }
  destruct (same_but_notifications_sale _ _ _ _ _ _ _ Hfinal Htx Hit Hconv)
    as (Htx' & _ & Hconv').
  exists resp, tx, c', sold_events, payload.
  rewrite Hrid.
  repeat split; try assumption.
  rewrite Htx'. apply in_or_app. right. left. reflexivity.
Qed.

Lemma accepted_conversation_links_no_transaction_witness :
  let out := run (respond_to_offer 1 Scenario.accept Scenario.alice) Scenario.offered in
  exists resp tx c' sold_events payload,
    fst out = inr (OfferAccepted resp)
    /\ In tx (transactions (store (snd out)))
    /\ Transaction.id tx = Some (TransactionResponse.id resp)
    /\ Transaction.conversation_id tx = Some 1
    /\ get_conversation 1 (store (snd out)) = Some c'
    /\ Conversation.is_sold c' = true
    /\ Conversation.transaction_id c' = None
    /\ delivered (snd out)
       = delivered Scenario.offered ++ sold_events
         ++ pushed (active_connections Scenario.offered) 2 (ev_conversation_updated payload)
         ++ pushed (active_connections Scenario.offered) 1 (ev_conversation_updated payload)
    /\ Forall (is_item_sold_for (TransactionResponse.id resp)) sold_events
    /\ ConversationUpdated.conversation_id payload = Some 1
    /\ ConversationUpdated.is_sold payload = true
    /\ ConversationUpdated.transaction_id payload = None
    /\ ConversationUpdated.transaction payload = None.
Proof.
  refine (accepted_conversation_links_no_transaction
            Scenario.offered 1 Scenario.accept Scenario.alice
            (Conversation.Build (Some 1) 2 1 (Some 10) (Some 101) false None None
               (Some 5000) (Some 2) (Some 100) false None false None None None
               (Some "bob") (Some "bob"))
            Scenario.bike 5000 _ _ _ _ _ _).
  - vm_compute. reflexivity.
  - right. reflexivity.
  - reflexivity.
  - reflexivity.
  - reflexivity.
  - reflexivity.
Defined.

(** C6: a response is open to either participant; nothing compares the
    caller with the author of the pending offer.  Whenever the conversation
    holds a pending offer on an existing item, accept by a participant
    succeeds - and in the reachable state where Bob has just made his offer,
    Bob himself accepts it and the Transaction is created. *)
Theorem proposer_can_accept_own_offer :
  (forall (w : World) (conversation_id : Z) (response_data : gmap string json)
          (current_user : User.t) (c : Conversation.t) (item : Item.t),
      get_conversation conversation_id (store w) = Some c ->
      participant current_user c ->
      has_pending_offer c = true ->
      get_item (Conversation.item_id c) (store w) = Some item ->
      action_is response_data "accept" ->
      exists resp,
        fst (run (respond_to_offer conversation_id response_data current_user) w)
        = inr (OfferAccepted resp))
  /\ (exists (w : World) (conversation_id : Z) (current_user : User.t)
             (c : Conversation.t) (resp : TransactionResponse.t) (tx : Transaction.t),
        let out := run (respond_to_offer conversation_id Scenario.accept current_user) w in
        reachable w
        /\ get_conversation conversation_id (store w) = Some c
        /\ Conversation.pending_offer_from_user_id c = Some (User.id current_user)
        /\ fst out = inr (OfferAccepted resp)
        /\ transactions (store (snd out)) = transactions (store w) ++ [tx]
        /\ Transaction.id tx = Some (TransactionResponse.id resp)).
Proof.
  split.
  - intros w conversation_id response_data current_user c item Hc Hp Hpending Hitem Haction.
    destruct (Conversation.pending_offer_price c) as [cents|] eqn:Hcents;
      [|unfold has_pending_offer in Hpending; rewrite Hcents in Hpending; discriminate].
    destruct (accept_outcome w conversation_id response_data current_user c item cents
                Hc Hp Hpending Hcents Hitem Haction)
      as (resp & db1 & later & tx & c' & item' & sold_events & payload & H).
    exists resp. apply H.
  - eexists Scenario.offered, 1, Scenario.bob, _, _, _. cbv zeta.
    split; [exact offered_reachable|].
    vm_compute. repeat split.
Qed.

(** ** The counter price *)


(** What [broadcast_conversation_update] can change: the clock and the
    events delivered. *)
Lemma broadcast_frame conversation s :
  exists s',
    broadcast_conversation_update conversation s = (inr tt, s')
    /\ store (world s') = store (world s)
    /\ commit_log (world s') = commit_log (world s)
    /\ active_connections (world s') = active_connections (world s)
    /\ session s' = session s.
Proof.
  unfold broadcast_conversation_update, try_except.
  destruct (get_transaction (Conversation.transaction_id conversation) (work (session s)))
    as [t|] eqn:Et;
    [destruct (Transaction.id t) as [i|] eqn:Ei;
     [destruct (Transaction.item_id t) as [j|] eqn:Ej|]|].
  all: destruct (truthy (Conversation.item_id conversation)); cbv iota.
  all: destruct (truthy (Conversation.transaction_id conversation)); cbv iota.
  all: eexists; split;
    [ repeat first
        [ rewrite bind_assoc | rewrite bind_query | rewrite bind_ret | rewrite bind_utcnow
        | rewrite bind_push | rewrite bind_raise | rewrite Et
        | progress (unfold serialize_transaction at 1; rewrite ?Ei, ?Ej)
        | progress cbn [for_each] ];
      unfold ret; cbv beta iota; reflexivity
    | repeat split ].
Qed.

Lemma bind_broadcast_frame {B} conversation (k : unit -> M B) s :
  exists s',
    bind (broadcast_conversation_update conversation) k s = k tt s'
    /\ store (world s') = store (world s)
    /\ commit_log (world s') = commit_log (world s)
    /\ active_connections (world s') = active_connections (world s)
    /\ session s' = session s.
Proof.
  destruct (broadcast_frame conversation s) as (s' & Heq & H).
  exists s'. split; [|exact H]. unfold bind. rewrite Heq. reflexivity.
Qed.

(** ** Rejecting and countering *)

Ltac enter_respond c Hpending Hitem Haction :=
  unfold run, respond_to_offer, bind at 1;
  rewrite (load_conversation_eq _ _ _ c) by assumption;
  unfold has_pending_offer in Hpending;
  rewrite <- negb_andb, Hpending; cbn [negb];
  run_statement; rewrite Hitem;
  rewrite (json_get_action _ _ Haction);
  cbn [json_is String.eqb Ascii.eqb Bool.eqb]; cbv iota.

(** C3: a reject on a pending offer answers success, clears the three
    pending-offer fields, appends the rejection Message from the responder
    and pushes [conversation_updated] to both participants - but it stores
    no Notification at all: the handler reads the author of the offer from
    the field it has just set to None. *)
Theorem reject_notifies_nobody
    (w : World) (conversation_id : Z) (response_data : gmap string json)
    (current_user : User.t) (c : Conversation.t) (item : Item.t) :
  reachable w ->
  get_conversation conversation_id (store w) = Some c ->
  participant current_user c ->
  has_pending_offer c = true ->
  get_item (Conversation.item_id c) (store w) = Some item ->
  action_is response_data "reject" ->
  let out := run (respond_to_offer conversation_id response_data current_user) w in
  exists (c' : Conversation.t) (m : Message.t) (payload : ConversationUpdated.t),
    fst out = inr OfferRejected
    /\ get_conversation conversation_id (store (snd out)) = Some c'
    /\ pending_offer_cleared c'
    /\ messages (store (snd out)) = messages (store w) ++ [m]
    /\ Message.sender_id m = User.id current_user
    /\ Message.conversation_id m = conversation_id
    /\ Message.content m = [Lit "❌ Rejected the offer"]
    /\ delivered (snd out)
       = delivered w
         ++ pushed (active_connections w) (Conversation.user1_id c)
              (ev_conversation_updated payload)
         ++ pushed (active_connections w) (Conversation.user2_id c)
              (ev_conversation_updated payload)
    /\ ConversationUpdated.conversation_id payload = Some conversation_id
    /\ notifications (store (snd out)) = notifications (store w).
Proof.
  intros Hreach Hc Hp Hpending Hitem Haction out.
  pose proof (get_conversation_id _ _ _ Hc) as Hcid.
  destruct (conversation_ok_found _ _ _ (reachable_db_ok w Hreach) Hc) as [_ Hlink].
  eassert (Hrun : run (respond_to_offer conversation_id response_data current_user) w = _).
  { enter_respond c Hpending Hitem Haction.
    unfold reject_offer. repeat run_statement.
    cbn [Conversation.pending_offer_from_user_id Conversation.set_last_message_at
         Conversation.set_updated_by Conversation.set_pending_offer_at
         Conversation.set_pending_offer_from_user_id].
    rewrite bind_ret.
    rewrite bind_broadcast by (cbn; rewrite Hlink; reflexivity).
    settle. unfold ret. cbn [world]. reflexivity. }
  subst out. rewrite Hrun. cbn [fst snd]. settle.
  do 3 eexists.
  split; [reflexivity|].
  split; [unfold get_conversation; cbn [conversations];
          eapply find_replace_row; [|exact Hc]; exact Hcid|].
  split; [repeat split|].
  split; [reflexivity|].
  split; [reflexivity|].
  split; [reflexivity|].
  split; [reflexivity|].
  split; [reflexivity|].
  split; [exact Hcid|].
  reflexivity.
Qed.

Lemma reject_notifies_nobody_witness :
  let out := run (respond_to_offer 1 Scenario.reject Scenario.alice) Scenario.offered in
  exists c' m payload,
    fst out = inr OfferRejected
    /\ get_conversation 1 (store (snd out)) = Some c'
    /\ pending_offer_cleared c'
    /\ messages (store (snd out)) = messages (store Scenario.offered) ++ [m]
    /\ Message.sender_id m = 1
    /\ Message.conversation_id m = 1
    /\ Message.content m = [Lit "❌ Rejected the offer"]
    /\ delivered (snd out)
       = delivered Scenario.offered
         ++ pushed (active_connections Scenario.offered) 2 (ev_conversation_updated payload)
         ++ pushed (active_connections Scenario.offered) 1 (ev_conversation_updated payload)
    /\ ConversationUpdated.conversation_id payload = Some 1
    /\ notifications (store (snd out)) = notifications (store Scenario.offered).
Proof.
  refine (reject_notifies_nobody Scenario.offered 1 Scenario.reject Scenario.alice
            (Conversation.Build (Some 1) 2 1 (Some 10) (Some 101) false None None
               (Some 5000) (Some 2) (Some 100) false None false None None None
               (Some "bob") (Some "bob"))
            Scenario.bike offered_reachable _ _ _ _ _).
  - vm_compute. reflexivity.
  - right. reflexivity.
  - reflexivity.
  - reflexivity.
  - reflexivity.
Defined.

(** In the scenario the author of the offer, Bob, exists and is online, and
    still holds exactly the notifications he had. *)
Example bob_is_not_told_of_the_rejection :
  let before := Scenario.offered in
  let after := snd (run (respond_to_offer 1 Scenario.reject Scenario.alice) before) in
  get_user 2 (store before) = Some Scenario.bob
  /\ List.filter (fun n => Notification.user_id n =? 2) (notifications (store after)) = []
  /\ option_map Conversation.pending_offer_from_user_id (get_conversation 1 (store before))
     = Some (Some 2).
Proof. vm_compute. repeat split. Qed.



Lemma int_failure_is_unhandled (x : Py.number) (e : Failure) :
  Py.int x = inl e -> exists exception, e = Unhandled exception.
Proof.
  destruct x as [z|f]; cbn; [discriminate|].
  unfold Py.int_of_float.
  destruct (Prim2SF f) as [s|s| |s m ex]; intros [= <-]; eexists; reflexivity.
Qed.








(** The scenario of the specification: after Bob's $50, Alice counters at
    $45 (a float); the pending offer is now hers, at 4500 cents.  A counter
    at $-1 changes nothing.  A counter at $19.99 is stored as 1998 cents. *)
Example alice_counters_at_45 :
  let pending price :=
    option_map (fun c => (Conversation.pending_offer_from_user_id c,
                          Conversation.pending_offer_price c))
      (get_conversation 1
         (store (snd (run (respond_to_offer 1 (Scenario.counter (JNumber (Py.PyFloat price)))
                             Scenario.alice)
                          Scenario.offered)))) in
  pending 45%float = Some (Some 1, Some 4500)
  /\ run (respond_to_offer 1 (Scenario.counter (JNumber (Py.PyFloat (-1)))) Scenario.alice)
         Scenario.offered
     = (inl (HTTPException HTTP_400_BAD_REQUEST "Invalid counter offer price"),
        Scenario.offered)
  /\ pending 0x1.3fd70a3d70a3dp+4%float = Some (Some 1, Some 1998).
Proof. vm_compute. repeat split; reflexivity. Qed.

(** Every state of the scenario holds rows the database accepted. *)
Example the_scenario_is_consistent :
  forallb (fun w => consistent (store w))
    [Scenario.registered; Scenario.opened; Scenario.offered; Scenario.sold; Scenario.rated]
  = true.
Proof. vm_compute. reflexivity. Qed.

(** ** Creating or reusing a conversation *)

Lemma find_replace_row_by_key {A} (key : A -> option Z) (x r0 : A) (rows : list A) :
  In r0 rows -> key r0 = key x ->
  List.find (fun r => bool_decide (key r = key x)) (replace_row key x rows) = Some x.
Proof.
  intros Hin Hkey. unfold replace_row.
  induction rows as [|r rows IH]; cbn; [destruct Hin|].
  destruct (bool_decide (key r = key x)) eqn:E.
  - rewrite bool_decide_eq_true_2 by reflexivity. reflexivity.
  - rewrite E. apply IH. destruct Hin as [->|Hin]; [|assumption].
    apply bool_decide_eq_false in E. contradiction.
Qed.

Lemma bind_refresh_conversation {B} c row (k : Conversation.t -> M B) s :
  List.find (fun r => bool_decide (Conversation.id r = Conversation.id c))
            (conversations (work (session s))) = Some row ->
  bind (refresh_conversation c) k s = k row s.
Proof. intros H. unfold bind, refresh_conversation. rewrite H. reflexivity. Qed.

Lemma between_sym a b c : between a b c = between b a c.
Proof. unfold between. apply orb_comm. Qed.

Lemma find_between_update a b x e rows :
  List.find (between a b) rows = Some e ->
  between a b x = true ->
  Conversation.id x = Conversation.id e ->
  List.find (between a b) (replace_row Conversation.id x rows) = Some x.
Proof.
  intros Hfind Hx Hid. unfold replace_row.
  induction rows as [|r rows IH]; cbn in *; [discriminate|].
  destruct (between a b r) eqn:E.
  - inversion Hfind; subst r.
    rewrite bool_decide_eq_true_2 by congruence. rewrite Hx. reflexivity.
  - case_bool_decide; [rewrite Hx; reflexivity|].
    rewrite E. apply IH. assumption.
Qed.

Ltac reassociate_cases c :=
  unfold reassociate; cbn;
  destruct (Conversation.is_ended c) eqn:?; cbn;
  destruct (Conversation.is_sold c) eqn:?; cbn.

Lemma between_reassociate a b i c : between a b (reassociate i c) = between a b c.
Proof. unfold between. reassociate_cases c; reflexivity. Qed.

Lemma id_reassociate i c : Conversation.id (reassociate i c) = Conversation.id c.
Proof. reassociate_cases c; reflexivity. Qed.

Lemma link_reassociate i c :
  Conversation.transaction_id c = None ->
  Conversation.transaction_id (reassociate i c) = None.
Proof. intros H. reassociate_cases c; auto. Qed.

Lemma price_reassociate i c :
  Conversation.pending_offer_price (reassociate i c) = Conversation.pending_offer_price c.
Proof. reassociate_cases c; reflexivity. Qed.

Lemma item_reassociate i c : Conversation.item_id (reassociate i c) = i.
Proof. reassociate_cases c; reflexivity. Qed.

(** Building the response reads and never writes; it can only fail on a
    linked transaction that does not serialize. *)
Lemma conversation_response_run c a b s :
  exists r,
    conversation_response c a b s = (r, s)
    /\ (truthy (Conversation.transaction_id c) = false ->
        exists resp, r = inr resp /\ ConversationResponse.id resp = Conversation.id c).
Proof.
  unfold conversation_response. cbv zeta.
  rewrite bind_query, bind_query, bind_query.
  destruct (last_message (Conversation.id c) (work (session s))) as [last|].
  all: repeat (rewrite bind_assoc || rewrite bind_query || rewrite bind_ret).
  all: destruct (truthy (Conversation.transaction_id c)) eqn:Et.
  all: repeat (rewrite bind_assoc || rewrite bind_query || rewrite bind_ret).
  1, 3: destruct (get_transaction (Conversation.transaction_id c) (work (session s))) as [t|];
    [unfold serialize_transaction at 1;
     destruct (Transaction.id t); [destruct (Transaction.item_id t)|]|].
  all: repeat (rewrite bind_assoc || rewrite bind_query || rewrite bind_ret || rewrite bind_raise).
  all: eexists; split; [unfold ret; reflexivity|].
  all: try (intros; discriminate).
  all: intros _; eexists; split; reflexivity.
Qed.

Lemma bind_conversation_response {B} c a b (k : ConversationResponse.t -> M B) s :
  truthy (Conversation.transaction_id c) = false ->
  exists resp,
    bind (conversation_response c a b) k s = k resp s
    /\ ConversationResponse.id resp = Conversation.id c.
Proof.
  intros Ht. destruct (conversation_response_run c a b s) as (r & Heq & Hr).
  destruct (Hr Ht) as (resp & -> & Hid).
  exists resp. split; [|exact Hid]. unfold bind. rewrite Heq. reflexivity.
Qed.

Lemma find_between_In a b db e :
  find_conversation_between a b db = Some e -> In e (conversations db) /\ between a b e = true.
Proof. intros H. apply find_some in H. exact H. Qed.

(** The branch that re-associates an existing conversation: the row is
    rewritten and broadcast, unless the database refuses the UPDATE. *)
Lemma create_conversation_reassociates_or_fails
    (w : World) (data : ConversationCreate.t) (current_user user2 : User.t)
    (existing : Conversation.t) (i : Z) :
  User.id current_user <> ConversationCreate.user2_id data ->
  get_user (ConversationCreate.user2_id data) (store w) = Some user2 ->
  find_conversation_between (User.id current_user) (ConversationCreate.user2_id data) (store w)
  = Some existing ->
  ConversationCreate.item_id data = Some i ->
  i <> 0 ->
  Conversation.item_id existing <> Some i ->
  match refused (store w) (update_conversation (reassociate (Some i) existing) (store w)) with
  | Some e => run (create_conversation data current_user) w = (inl e, w)
  | None =>
      exists r w',
        run (create_conversation data current_user) w = (r, w')
        /\ store w' = update_conversation (reassociate (Some i) existing) (store w)
        /\ commit_log w' = commit_log w ++ [store w']
        /\ (Conversation.transaction_id existing = None ->
            exists resp,
              r = inr resp /\ ConversationResponse.id resp = Conversation.id existing)
  end.
Proof.
  intros Hne Hu2 Hfind Hitem Hi Hdiff.
  destruct (find_between_In _ _ _ _ Hfind) as [Hin Hbetween].
  destruct (refused _ _) as [e|] eqn:Hrefused.
  all: unfold run, create_conversation; cbv zeta.
  all: rewrite (proj2 (Z.eqb_neq _ _) Hne).
  all: rewrite bind_query; cbn [work session]; rewrite Hu2.
  all: rewrite bind_query; cbn [work session]; rewrite Hfind.
  all: rewrite Hitem; cbn [truthy]; rewrite (proj2 (Z.eqb_neq _ _) Hi).
  all: rewrite bool_decide_eq_false_2 by assumption; cbn [negb andb].
  all: repeat run_statement.
  - erewrite bind_db_commit_refused by (settle; exact Hrefused).
    destruct w; reflexivity.
  - rewrite bind_db_commit by (settle; exact Hrefused).
    repeat run_statement.
    erewrite bind_refresh_conversation
      by (cbn [work session conversations];
          apply (find_replace_row_by_key _ _ existing); [assumption|];
          symmetry; apply id_reassociate).
    rewrite bind_assoc.
    match goal with
    | |- context [bind (broadcast_conversation_update ?c') ?k ?s] =>
        destruct (bind_broadcast_frame c' k s) as (s' & Heq & Hstore & Hlog & _ & Hsess);
        rewrite Heq
    end.
    rewrite bind_ret.
    destruct (conversation_response_run (reassociate (Some i) existing)
                (User.id current_user) (ConversationCreate.user2_id data) s')
      as (r & Hresp & Hr).
    rewrite Hresp.
    exists r, (world s'). split; [reflexivity|].
    rewrite Hstore, Hlog. settle.
    split; [reflexivity|]. split; [reflexivity|].
    intros Hlink. rewrite <- (id_reassociate (Some i) existing).
    apply Hr. rewrite link_reassociate by assumption. reflexivity.
Qed.

(** When the item is there. *)
Lemma create_conversation_reassociates
    (w : World) (data : ConversationCreate.t) (current_user user2 : User.t)
    (existing : Conversation.t) (i : Z) :
  User.id current_user <> ConversationCreate.user2_id data ->
  get_user (ConversationCreate.user2_id data) (store w) = Some user2 ->
  find_conversation_between (User.id current_user) (ConversationCreate.user2_id data) (store w)
  = Some existing ->
  ConversationCreate.item_id data = Some i ->
  i <> 0 ->
  Conversation.item_id existing <> Some i ->
  references_item (Some i) (store w) = true ->
  exists r w',
    run (create_conversation data current_user) w = (r, w')
    /\ store w' = update_conversation (reassociate (Some i) existing) (store w)
    /\ commit_log w' = commit_log w ++ [store w']
    /\ (Conversation.transaction_id existing = None ->
        exists resp, r = inr resp /\ ConversationResponse.id resp = Conversation.id existing).
Proof.
  intros Hne Hu2 Hfind Hitem Hi Hdiff Href.
  pose proof (create_conversation_reassociates_or_fails w data current_user user2 existing i
                Hne Hu2 Hfind Hitem Hi Hdiff) as H.
  rewrite (refused_replaced _ _ existing (reassociate (Some i) existing)) in H.
  - exact H.
  - apply (find_between_In _ _ _ _ Hfind).
  - reflexivity.
  - apply id_reassociate.
  - left. apply price_reassociate.
  - right. rewrite item_reassociate. exact Href.
Qed.

(** When the item is not there: the UPDATE breaks the foreign key. *)
Lemma create_conversation_unknown_item
    (w : World) (data : ConversationCreate.t) (current_user user2 : User.t)
    (existing : Conversation.t) (i : Z) :
  User.id current_user <> ConversationCreate.user2_id data ->
  get_user (ConversationCreate.user2_id data) (store w) = Some user2 ->
  find_conversation_between (User.id current_user) (ConversationCreate.user2_id data) (store w)
  = Some existing ->
  ConversationCreate.item_id data = Some i ->
  i <> 0 ->
  Conversation.item_id existing <> Some i ->
  references_item (Some i) (store w) = false ->
  consistent (store w) = true ->
  run (create_conversation data current_user) w
  = (inl (Unhandled "IntegrityError: violates foreign key constraint"), w).
Proof.
  intros Hne Hu2 Hfind Hitem Hi Hdiff Href Hdb.
  pose proof (create_conversation_reassociates_or_fails w data current_user user2 existing i
                Hne Hu2 Hfind Hitem Hi Hdiff) as H.
  rewrite (refused_item_of_update _ _ existing (reassociate (Some i) existing)) in H.
  - exact H.
  - exact Hdb.
  - apply (find_between_In _ _ _ _ Hfind).
  - reflexivity.
  - reflexivity.
  - apply id_reassociate.
  - apply price_reassociate.
  - rewrite item_reassociate. exact Href.
Qed.

(** C4, as stated, fails: Bob's $50 offer on the bike is pending when he
    contacts Alice again about the lamp; the conversation moves to the lamp
    and still carries the $50 offer. *)
Lemma stale_offer_survives_reassociation : ~ reassociation_resets_pending_offer.
Proof.
  intros Hclaim.
  destruct (Hclaim Scenario.offered (ConversationCreate.Build 1 (Some 11))
              Scenario.bob Scenario.alice
              (Conversation.Build (Some 1) 2 1 (Some 10) (Some 101) false None None
                 (Some 5000) (Some 2) (Some 100) false None false None None None
                 (Some "bob") (Some "bob"))
              11)
    as (c' & Hfind & _ & _ & _ & Hcleared & _).
  - cbn. lia.
  - reflexivity.
  - reflexivity.
  - reflexivity.
  - lia.
  - reflexivity.
  - cbn. congruence.
  - vm_compute in Hfind. inversion Hfind; subst c'. discriminate Hcleared.
Qed.

(** C4, amended: creating a conversation for a pair that already has one,
    with a different (non-zero) item id that names an item, moves the
    conversation to that item and leaves it neither sold nor ended; the
    pending-offer fields are left exactly as they were.  With an id that
    names no item the UPDATE breaks the foreign key: the request ends in a
    server error and the world is as before. *)
Theorem reassociation_reopens_and_keeps_pending_offer
    (w : World) (data : ConversationCreate.t) (current_user user2 : User.t)
    (existing : Conversation.t) (i : Z) :
  User.id current_user <> ConversationCreate.user2_id data ->
  get_user (ConversationCreate.user2_id data) (store w) = Some user2 ->
  find_conversation_between (User.id current_user) (ConversationCreate.user2_id data)
    (store w) = Some existing ->
  ConversationCreate.item_id data = Some i ->
  i <> 0 ->
  Conversation.item_id existing <> Some i ->
  let out := run (create_conversation data current_user) w in
  (references_item (Some i) (store w) = true ->
   exists c',
     find_conversation_between (User.id current_user) (ConversationCreate.user2_id data)
       (store (snd out)) = Some c'
     /\ Conversation.id c' = Conversation.id existing
     /\ Conversation.item_id c' = Some i
     /\ Conversation.is_sold c' = false
     /\ Conversation.is_ended c' = false
     /\ Conversation.pending_offer_price c' = Conversation.pending_offer_price existing
     /\ Conversation.pending_offer_from_user_id c'
        = Conversation.pending_offer_from_user_id existing
     /\ Conversation.pending_offer_at c' = Conversation.pending_offer_at existing)
  /\ (references_item (Some i) (store w) = false ->
      consistent (store w) = true ->
      exists exception, out = (inl (Unhandled exception), w)).
Proof.
  intros Hne Hu2 Hfind Hitem Hi Hdiff out. split.
  - intros Href.
    destruct (create_conversation_reassociates w data current_user user2 existing i
                Hne Hu2 Hfind Hitem Hi Hdiff Href) as (r & w' & Hrun & Hstore & _).
    subst out. rewrite Hrun. cbn [snd]. rewrite Hstore.
    exists (reassociate (Some i) existing).
    split.
    { unfold find_conversation_between. cbn [update_conversation conversations].
      apply (find_between_update _ _ _ existing).
      - exact Hfind.
      - rewrite between_reassociate. apply (find_between_In _ _ _ _ Hfind).
      - apply id_reassociate. }
    split; [apply id_reassociate|].
    reassociate_cases existing; repeat split; assumption.
  - intros Href Hdb. eexists. subst out.
    exact (create_conversation_unknown_item w data current_user user2 existing i
             Hne Hu2 Hfind Hitem Hi Hdiff Href Hdb).
Qed.

Lemma reassociation_reopens_and_keeps_pending_offer_witness :
  let out :=
    run (create_conversation (ConversationCreate.Build 1 (Some 11)) Scenario.bob)
        Scenario.sold in
  (references_item (Some 11) (store Scenario.sold) = true ->
   exists c',
     find_conversation_between 2 1 (store (snd out)) = Some c'
     /\ Conversation.id c' = Some 1
     /\ Conversation.item_id c' = Some 11
     /\ Conversation.is_sold c' = false
     /\ Conversation.is_ended c' = false
     /\ Conversation.pending_offer_price c' = None
     /\ Conversation.pending_offer_from_user_id c' = None
     /\ Conversation.pending_offer_at c' = None)
  /\ (references_item (Some 11) (store Scenario.sold) = false ->
      consistent (store Scenario.sold) = true ->
      exists exception, out = (inl (Unhandled exception), Scenario.sold)).
Proof.
  refine (reassociation_reopens_and_keeps_pending_offer
            Scenario.sold (ConversationCreate.Build 1 (Some 11)) Scenario.bob Scenario.alice
            (Conversation.Build (Some 1) 2 1 (Some 10) (Some 105) true (Some 103) None
               None None None true (Some 104) false None None None
               (Some "bob") (Some "alice"))
            11 _ _ _ _ _ _).
  - cbn. lia.
  - reflexivity.
  - vm_compute. reflexivity.
  - reflexivity.
  - lia.
  - cbn. congruence.
Defined.

(** The scenario again, with an item nobody listed: Bob contacts Alice
    about item 99 and gets a server error; the conversation is still about
    the bike. *)
Example bob_names_an_item_that_is_not_there :
  run (create_conversation (ConversationCreate.Build 1 (Some 99)) Scenario.bob)
      Scenario.offered
  = (inl (Unhandled "IntegrityError: violates foreign key constraint"), Scenario.offered).
Proof. vm_compute. reflexivity. Qed.

Lemma find_app_none {A} (f : A -> bool) (l : list A) (x : A) :
  List.find f l = None -> f x = true -> List.find f (l ++ [x]) = Some x.
Proof.
  intros Hnone Hx. induction l as [|y l IH]; cbn in *.
  - rewrite Hx. reflexivity.
  - destruct (f y); [discriminate|]. apply IH. assumption.
Qed.

Lemma find_pointwise {A} (f g : A -> bool) (l : list A) :
  (forall x, f x = g x) -> List.find f l = List.find g l.
Proof.
  intros H. induction l as [|x l IH]; cbn; [reflexivity|].
  rewrite H, IH. reflexivity.
Qed.

Lemma get_user_id uid db u : get_user uid db = Some u -> User.id u = uid.
Proof.
  unfold get_user. intros H. apply find_some in H. destruct H as [_ H].
  apply Z.eqb_eq in H. assumption.
Qed.

Lemma replace_row_length {A} (key : A -> option Z) (x : A) (rows : list A) :
  length (replace_row key x rows) = length rows.
Proof. unfold replace_row. apply length_map. Qed.

(** The branch that inserts the first conversation of a pair, unless the
    database refuses the INSERT. *)
Lemma create_conversation_inserts_or_fails
    (w : World) (data : ConversationCreate.t) (current_user user2 : User.t) :
  User.id current_user <> ConversationCreate.user2_id data ->
  get_user (ConversationCreate.user2_id data) (store w) = Some user2 ->
  find_conversation_between (User.id current_user) (ConversationCreate.user2_id data)
    (store w) = None ->
  let db :=
    snd (insert (clock w)
           (EConversation
              (new_conversation (User.id current_user) (ConversationCreate.user2_id data)
                 (ConversationCreate.item_id data) (User.username current_user)))
           (store w)) in
  match refused (store w) db with
  | Some e => run (create_conversation data current_user) w = (inl e, w)
  | None =>
      exists resp,
        run (create_conversation data current_user) w
        = (inr resp,
           mkWorld db (commit_log w ++ [db]) (clock w) (active_connections w) (delivered w))
        /\ ConversationResponse.id resp = Some (conversations_seq (store w))
        /\ ConversationResponse.item_id resp = ConversationCreate.item_id data
  end.
Proof.
  intros Hne Huser Hnone db.
  destruct (refused (store w) db) as [e|] eqn:Hrefused; subst db.
  all: unfold run, create_conversation.
  all: rewrite (proj2 (Z.eqb_neq _ _) Hne).
  all: rewrite bind_query; settle; rewrite Huser.
  all: rewrite bind_query; settle; rewrite Hnone.
  all: repeat run_statement.
  - erewrite bind_db_commit_refused by (settle; exact Hrefused).
    destruct w; reflexivity.
  - rewrite bind_db_commit by (settle; exact Hrefused).
    repeat run_statement. eexists. split; [reflexivity|]. split; reflexivity.
Qed.

(** Whatever branch it takes, [create_conversation] between two distinct
    users, the second of whom exists, about no item or one that is there,
    returns the conversation of the pair. *)
Lemma create_conversation_returns
    (w : World) (data : ConversationCreate.t) (current_user user2 : User.t) :
  db_ok (store w) ->
  User.id current_user <> ConversationCreate.user2_id data ->
  get_user (ConversationCreate.user2_id data) (store w) = Some user2 ->
  references_item (ConversationCreate.item_id data) (store w) = true ->
  exists resp w' row,
    run (create_conversation data current_user) w = (inr resp, w')
    /\ ConversationResponse.id resp = Conversation.id row
    /\ find_conversation_between (User.id current_user) (ConversationCreate.user2_id data)
         (store w') = Some row
    /\ users (store w') = users (store w)
    /\ items (store w') = items (store w)
    /\ match find_conversation_between (User.id current_user)
               (ConversationCreate.user2_id data) (store w) with
       | Some e =>
           Conversation.id row = Conversation.id e
           /\ length (conversations (store w')) = length (conversations (store w))
       | None =>
           conversations (store w') = conversations (store w) ++ [row]
       end.
Proof.
  intros Hok Hne Hu2 Href.
  destruct (find_conversation_between (User.id current_user)
              (ConversationCreate.user2_id data) (store w)) as [existing|] eqn:Hfind.
  - destruct (conversation_ok_found _ _ _ Hok Hfind) as [_ Hlink].
    destruct (truthy (ConversationCreate.item_id data)
              && negb (bool_decide (Conversation.item_id existing
                                    = ConversationCreate.item_id data))) eqn:Hcond.
    + apply andb_true_iff in Hcond. destruct Hcond as [Htruthy Hdiff].
      destruct (ConversationCreate.item_id data) as [i|] eqn:Hitem; [|discriminate].
      cbn in Htruthy. apply negb_true_iff, Z.eqb_neq in Htruthy.
      apply negb_true_iff, bool_decide_eq_false in Hdiff.
      destruct (create_conversation_reassociates w data current_user user2 existing i
                  Hne Hu2 Hfind Hitem Htruthy Hdiff Href) as (r & w' & Hrun & Hstore & _ & Hr).
      destruct (Hr Hlink) as (resp & -> & Hid).
      exists resp, w', (reassociate (Some i) existing).
      split; [exact Hrun|]. rewrite Hstore.
      split; [rewrite id_reassociate; exact Hid|].
      split.
      { unfold find_conversation_between. cbn [update_conversation conversations].
        apply (find_between_update _ _ _ existing).
        - exact Hfind.
        - rewrite between_reassociate. apply (find_between_In _ _ _ _ Hfind).
        - apply id_reassociate. }
      split; [reflexivity|]. split; [reflexivity|].
      split; [apply id_reassociate|].
      cbn [update_conversation conversations]. apply replace_row_length.
    + unfold run, create_conversation. cbv zeta.
      rewrite (proj2 (Z.eqb_neq _ _) Hne).
      rewrite bind_query. cbn [work session]. rewrite Hu2.
      rewrite bind_query. cbn [work session]. rewrite Hfind.
      rewrite Hcond. rewrite bind_ret.
      destruct (conversation_response_run existing (User.id current_user)
                  (ConversationCreate.user2_id data)
                  (mkCtx w (mkSession (store w) [] []))) as (r & Hresp & Hr).
      destruct Hr as (resp & -> & Hid); [rewrite Hlink; reflexivity|].
      rewrite Hresp. cbn [world].
      exists resp, w, existing.
      split; [reflexivity|]. split; [exact Hid|]. split; [exact Hfind|].
      split; [reflexivity|]. split; [reflexivity|]. split; reflexivity.
  - pose proof (create_conversation_inserts_or_fails w data current_user user2
                  Hne Hu2 Hfind) as H.
    cbv zeta in H.
    match type of H with
    | match ?r with _ => _ end =>
        assert (Haccepted : r = None)
          by (eapply refused_inserted; [reflexivity|reflexivity|exact Href]);
        rewrite Haccepted in H
    end.
    destruct H as (resp & Hrun & Hid & _).
    exists resp. eexists.
    exists (Conversation.set_id (Some (conversations_seq (store w)))
              (new_conversation (User.id current_user) (ConversationCreate.user2_id data)
                 (ConversationCreate.item_id data) (User.username current_user))).
    split; [exact Hrun|]. cbn [store insert snd conversations].
    split; [exact Hid|].
    split.
    { unfold find_conversation_between. cbn [conversations].
      apply find_app_none; [exact Hfind|].
      unfold between. cbn. rewrite !Z.eqb_refl. reflexivity. }
    split; [reflexivity|]. split; reflexivity.
Qed.

(** ** Ratings *)




Lemma bind_refresh_rating {B} x row (k : Rating.t -> M B) s :
  List.find (fun r => bool_decide (Rating.id r = Rating.id x)) (ratings (work (session s)))
  = Some row ->
  bind (refresh_rating x) k s = k row s.
Proof. intros H. unfold bind, refresh_rating. rewrite H. reflexivity. Qed.

(** The rows of a second submission: the stored rating with the new score
    and comment. *)
Lemma rate_user_updates
    (w : World) (transaction_id : Z) (rating_data : RatingCreate.t)
    (current_user : User.t) (t : Transaction.t) (r0 : Rating.t) :
  (1 <= RatingCreate.rating rating_data <= 5) ->
  get_transaction (Some transaction_id) (store w) = Some t ->
  (Transaction.seller_id t = User.id current_user
   \/ Transaction.buyer_id t = User.id current_user) ->
  RatingCreate.rated_user_id rating_data
  = (if Transaction.seller_id t =? User.id current_user
     then Transaction.buyer_id t else Transaction.seller_id t) ->
  find_rating transaction_id (User.id current_user) (store w) = Some r0 ->
  exists r1 w',
    run (rate_user transaction_id rating_data current_user) w = (inr (rating_response r1), w')
    /\ r1 = Rating.set_updated_by (Some (User.username current_user))
              (Rating.set_comment (RatingCreate.comment rating_data)
                 (Rating.set_rating (RatingCreate.rating rating_data) r0))
    /\ store w' = update_rating r1 (store w)
    /\ commit_log w' = commit_log w ++ [store w'].
Proof.
  intros Hrange Ht Hparty Hrated Hfind.
  assert (Hin : In r0 (ratings (store w))).
  { apply find_some in Hfind. apply Hfind. }
  unfold run, rate_user.
  replace (negb _) with false
    by (symmetry; apply negb_false_iff, andb_true_iff; split; apply Z.leb_le; lia).
  rewrite bind_query. cbn [work session]. rewrite Ht.
  replace (negb (Transaction.seller_id t =? User.id current_user)
           && negb (Transaction.buyer_id t =? User.id current_user)) with false
    by (destruct Hparty as [H|H]; rewrite H, Z.eqb_refl; cbn;
        [reflexivity|symmetry; apply andb_false_r]).
  cbv zeta. rewrite Hrated, Z.eqb_refl. cbn [negb].
  rewrite bind_query. cbn [work session]. rewrite Hfind.
  repeat run_statement.
  erewrite bind_refresh_rating
    by (cbn [work session ratings];
        apply (find_replace_row_by_key _ _ r0); [assumption|reflexivity]).
  unfold ret. cbn [world].
  do 2 eexists. split; [reflexivity|]. repeat split.
Qed.

Lemma summary_run (w : World) (user_id : Z) (viewer : User.t) :
  fst (run (get_user_rating_summary user_id viewer) w)
  = match ratings_received user_id (store w) with
    | [] => inr (RatingSummary.Build None 0 None)
    | r :: rest =>
        match Py.int_true_div (total_rating (r :: rest)) (Z.of_nat (length (r :: rest))) with
        | inr q =>
            inr (RatingSummary.Build (Some (Py.round2 q)) (length (r :: rest))
                   (viewer_rating (User.id viewer) (r :: rest)))
        | inl e => inl e
        end
    end.
Proof.
  unfold run, get_user_rating_summary. rewrite bind_query. cbn [work session].
  destruct (ratings_received user_id (store w)) as [|r rest]; [reflexivity|].
  destruct (Py.int_true_div _ _) as [e|q]; reflexivity.
Qed.




(** The scenario of the specification: Bob rates Alice 3, then 5, on their
    transaction.  One Rating row throughout; Alice's summary as Bob sees it
    goes from (3.0, 1, 3) to (5.0, 1, 5). *)
Example bob_rates_alice_twice :
  let again :=
    snd (run (rate_user 1 (RatingCreate.Build 1 1 5 (Some "great")) Scenario.bob)
             Scenario.rated) in
  length (ratings (store Scenario.rated)) = 1%nat
  /\ length (ratings (store again)) = 1%nat
  /\ fst (run (get_user_rating_summary 1 Scenario.bob) Scenario.rated)
     = inr (RatingSummary.Build (Some 3%float) 1 (Some 3))
  /\ fst (run (get_user_rating_summary 1 Scenario.bob) again)
     = inr (RatingSummary.Build (Some 5%float) 1 (Some 5)).
Proof. vm_compute. repeat split. Qed.

(** The sale of the scenario, as the specification tells it: Bob's $50 is
    stored as 5000 cents from user 2; Alice accepts; Transaction(item 10,
    seller 1, buyer 2, 50.0), item SOLD, conversation sold and ended, pending
    fields cleared - and no transaction linked from the conversation. *)
Example the_sale_of_the_bike :
  option_map (fun c => (Conversation.pending_offer_price c,
                        Conversation.pending_offer_from_user_id c))
    (get_conversation 1 (store Scenario.offered)) = Some (Some 5000, Some 2)
  /\ map (fun t => (Transaction.item_id t, Transaction.seller_id t, Transaction.buyer_id t,
                    Transaction.sale_price t))
       (transactions (store Scenario.sold)) = [(Some 10, 1, 2, 50%float)]
  /\ option_map Item.status (get_item (Some 10) (store Scenario.sold)) = Some SOLD
  /\ option_map (fun c => (Conversation.is_sold c, Conversation.is_ended c,
                           Conversation.pending_offer_price c,
                           Conversation.pending_offer_from_user_id c,
                           Conversation.pending_offer_at c,
                           Conversation.transaction_id c))
       (get_conversation 1 (store Scenario.sold))
     = Some (true, true, None, None, None, None).
Proof. vm_compute. repeat split. Qed.
(** * Further properties of the routes *)

(** ** What the request schemas let through *)

Lemma positive_not_le_zero (f : float) : (0 <? f)%float = true -> (f <=? 0)%float = false.
Proof.
  rewrite FloatAxioms.ltb_spec, FloatAxioms.leb_spec.
  change (Prim2SF 0) with (S754_zero false).
  destruct (Prim2SF f) as [[|]|[|]| |[|] m e]; cbn; congruence.
Qed.

Lemma valid_message_passes (message_data : MessageCreate.t) :
  valid_message message_data = true ->
  (Py.len (MessageCreate.content message_data) <? 1) = false
  /\ (5000 <? Py.len (MessageCreate.content message_data)) = false.
Proof.
  unfold valid_message. intros H. apply andb_true_iff in H. destruct H as [H1 H2].
  apply Z.leb_le in H1. apply Z.leb_le in H2.
  split; apply Z.ltb_ge; assumption.
Qed.

Ltac enter_create_message Hvalid :=
  unfold run, create_message;
  rewrite (proj1 (valid_message_passes _ Hvalid)), (proj2 (valid_message_passes _ Hvalid)).

(** ** The participant guard *)

Lemma stranger_guard u c :
  ~ participant u c ->
  negb (Conversation.user1_id c =? User.id u) && negb (Conversation.user2_id c =? User.id u)
  = true.
Proof.
  intros Hp. unfold participant in Hp.
  destruct (Z.eqb_spec (Conversation.user1_id c) (User.id u)); [tauto|].
  destruct (Z.eqb_spec (Conversation.user2_id c) (User.id u)); [tauto|].
  reflexivity.
Qed.

Lemma bind_load_missing {B} cid u msg (k : Conversation.t -> M B) s :
  get_conversation cid (work (session s)) = None ->
  bind (load_conversation cid u msg) k s
  = (inl (HTTPException HTTP_404_NOT_FOUND "Conversation not found"), s).
Proof.
  intros Hc. unfold load_conversation, bind, query. rewrite Hc. reflexivity.
Qed.

Lemma bind_load_forbidden {B} cid u msg c (k : Conversation.t -> M B) s :
  get_conversation cid (work (session s)) = Some c ->
  ~ participant u c ->
  bind (load_conversation cid u msg) k s = (inl (HTTPException HTTP_403_FORBIDDEN msg), s).
Proof.
  intros Hc Hp. unfold load_conversation, bind, query. rewrite Hc.
  rewrite (stranger_guard _ _ Hp). reflexivity.
Qed.

Lemma bind_load_conversation {B} cid u msg c (k : Conversation.t -> M B) s :
  get_conversation cid (work (session s)) = Some c ->
  participant u c ->
  bind (load_conversation cid u msg) k s = k c s.
Proof.
  intros Hc Hp. unfold bind at 1. rewrite (load_conversation_eq _ _ _ c) by assumption.
  reflexivity.
Qed.

Ltac refused_by_guard lemma :=
  unfold run; rewrite lemma by assumption; reflexivity.

(** X1: a user who is not one of the two participants is answered 403 by
    every route that takes a conversation id, each with its own message, and
    the world (database, commit log, clock, deliveries) is left as it was.
    This is the answer to a body that passes its schema: a message of 1 to
    5000 characters, a positive price. *)
Theorem stranger_is_forbidden
    (w : World) (conversation_id : Z) (current_user : User.t) (c : Conversation.t) :
  get_conversation conversation_id (store w) = Some c ->
  ~ participant current_user c ->
  let forbidden {A} (m : M A) (detail : string) :=
    run m w = (inl (HTTPException HTTP_403_FORBIDDEN detail), w) in
  forbidden (get_messages conversation_id current_user)
    "Not authorized to view this conversation"
  /\ (forall content,
        valid_message (MessageCreate.Build conversation_id content) = true ->
        forbidden (create_message (MessageCreate.Build conversation_id content) current_user)
          "Not authorized to send messages in this conversation")
  /\ forbidden (archive_conversation conversation_id current_user)
       "Not authorized to archive this conversation"
  /\ forbidden (unarchive_conversation conversation_id current_user)
       "Not authorized to unarchive this conversation"
  /\ forbidden (delete_conversation conversation_id current_user)
       "Not authorized to delete this conversation"
  /\ (forall reason,
        forbidden (report_conversation conversation_id reason current_user)
          "Not authorized to report this conversation")
  /\ forbidden (continue_conversation conversation_id current_user)
       "Not authorized to continue this conversation"
  /\ (forall data, (0 <? TransactionCreate.sale_price data)%float = true ->
        forbidden (send_purchase_offer conversation_id data current_user)
          "Not authorized to send offers in this conversation")
  /\ (forall response_data,
        forbidden (respond_to_offer conversation_id response_data current_user)
          "Not authorized to respond to offers in this conversation").
Proof.
  intros Hc Hp forbidden. subst forbidden. cbv beta.
  destruct w as [db log now conns out]. cbn [store] in Hc.
  repeat split; intros.
  - unfold run, get_messages. rewrite (bind_load_forbidden _ _ _ c) by assumption. reflexivity.
  - match goal with H : valid_message _ = true |- _ => enter_create_message H end.
    cbn [MessageCreate.conversation_id].
    rewrite (bind_load_forbidden _ _ _ c) by assumption. reflexivity.
  - unfold run, archive_conversation.
    rewrite (bind_load_forbidden _ _ _ c) by assumption. reflexivity.
  - unfold run, unarchive_conversation.
    rewrite (bind_load_forbidden _ _ _ c) by assumption. reflexivity.
  - unfold run, delete_conversation.
    rewrite (bind_load_forbidden _ _ _ c) by assumption. reflexivity.
  - unfold run, report_conversation.
    rewrite (bind_load_forbidden _ _ _ c) by assumption. reflexivity.
  - unfold run, continue_conversation.
    rewrite (bind_load_forbidden _ _ _ c) by assumption. reflexivity.
  - unfold run, send_purchase_offer.
    match goal with H : (0 <? _)%float = true |- _ => rewrite (positive_not_le_zero _ H) end.
    rewrite (bind_load_forbidden _ _ _ c) by assumption. reflexivity.
  - unfold run, respond_to_offer.
    rewrite (bind_load_forbidden _ _ _ c) by assumption. reflexivity.
Qed.

Lemma get_conversation_updated cid c x db :
  get_conversation cid db = Some c ->
  Conversation.id x = Some cid ->
  get_conversation cid (update_conversation x db) = Some x.
Proof.
  intros Hc Hx. unfold get_conversation, update_conversation. cbn [conversations].
  apply (find_replace_row Conversation.id x c (Some cid)); assumption.
Qed.

Ltac enter_route c :=
  unfold run; rewrite (bind_load_conversation _ _ _ c) by assumption.

(** X2: naming a conversation that does not exist is answered 404
    "Conversation not found" by every route that takes a conversation id;
    nothing is written.  This is the answer to a body that passes its
    schema: a message of 1 to 5000 characters, a positive price. *)
Theorem unknown_conversation_is_not_found
    (w : World) (conversation_id : Z) (current_user : User.t) :
  get_conversation conversation_id (store w) = None ->
  let not_found {A} (m : M A) :=
    run m w = (inl (HTTPException HTTP_404_NOT_FOUND "Conversation not found"), w) in
  not_found (get_messages conversation_id current_user)
  /\ (forall content,
        valid_message (MessageCreate.Build conversation_id content) = true ->
        not_found (create_message (MessageCreate.Build conversation_id content) current_user))
  /\ not_found (archive_conversation conversation_id current_user)
  /\ not_found (unarchive_conversation conversation_id current_user)
  /\ not_found (delete_conversation conversation_id current_user)
  /\ (forall reason, not_found (report_conversation conversation_id reason current_user))
  /\ not_found (continue_conversation conversation_id current_user)
  /\ (forall data, (0 <? TransactionCreate.sale_price data)%float = true ->
        not_found (send_purchase_offer conversation_id data current_user))
  /\ (forall response_data,
        not_found (respond_to_offer conversation_id response_data current_user)).
Proof.
  intros Hc not_found. subst not_found. cbv beta.
  destruct w as [db log now conns out]. cbn [store] in Hc.
  repeat split; intros.
  - unfold run, get_messages. rewrite bind_load_missing by assumption. reflexivity.
  - match goal with H : valid_message _ = true |- _ => enter_create_message H end.
    cbn [MessageCreate.conversation_id].
    rewrite bind_load_missing by assumption. reflexivity.
  - unfold run, archive_conversation. rewrite bind_load_missing by assumption. reflexivity.
  - unfold run, unarchive_conversation. rewrite bind_load_missing by assumption. reflexivity.
  - unfold run, delete_conversation. rewrite bind_load_missing by assumption. reflexivity.
  - unfold run, report_conversation. rewrite bind_load_missing by assumption. reflexivity.
  - unfold run, continue_conversation. rewrite bind_load_missing by assumption. reflexivity.
  - unfold run, send_purchase_offer.
    match goal with H : (0 <? _)%float = true |- _ => rewrite (positive_not_le_zero _ H) end.
    rewrite bind_load_missing by assumption. reflexivity.
  - unfold run, respond_to_offer. rewrite bind_load_missing by assumption. reflexivity.
Qed.

(** ** Opening a conversation *)

(** X3: a conversation with oneself is refused with 400, one with an
    unknown user with 404; in both cases nothing is written. *)
Theorem create_conversation_checks_the_peer
    (w : World) (data : ConversationCreate.t) (current_user : User.t) :
  (User.id current_user = ConversationCreate.user2_id data ->
   run (create_conversation data current_user) w
   = (inl (HTTPException HTTP_400_BAD_REQUEST "Cannot create conversation with yourself"), w))
  /\ (User.id current_user <> ConversationCreate.user2_id data ->
      get_user (ConversationCreate.user2_id data) (store w) = None ->
      run (create_conversation data current_user) w
      = (inl (HTTPException HTTP_404_NOT_FOUND "User not found"), w)).
Proof.
  destruct w as [db log now conns out]. split.
  - intros Heq. unfold run, create_conversation.
    rewrite Heq, Z.eqb_refl. reflexivity.
  - intros Hne Huser. unfold run, create_conversation.
    rewrite (proj2 (Z.eqb_neq _ _) Hne).
    rewrite bind_query. cbn [work session store] in *. rewrite Huser. reflexivity.
Qed.


(** X4: the first contact between two users, about no item or about an
    item that exists, inserts exactly one conversation row, keyed by the
    sequence, with every flag off and no pending offer.  Afterwards the pair
    lookup finds that row from either side.  Nothing is pushed to anybody.
    When the item id names no item the INSERT breaks the foreign key: the
    request ends in a server error and the world is as before. *)
Theorem first_contact_inserts_one_conversation
    (w : World) (data : ConversationCreate.t) (current_user user2 : User.t) :
  User.id current_user <> ConversationCreate.user2_id data ->
  get_user (ConversationCreate.user2_id data) (store w) = Some user2 ->
  find_conversation_between (User.id current_user) (ConversationCreate.user2_id data)
    (store w) = None ->
  let row :=
    Conversation.set_id (Some (conversations_seq (store w)))
      (new_conversation (User.id current_user) (ConversationCreate.user2_id data)
         (ConversationCreate.item_id data) (User.username current_user)) in
  let out := run (create_conversation data current_user) w in
  (references_item (ConversationCreate.item_id data) (store w) = true ->
   exists resp w',
     out = (inr resp, w')
     /\ ConversationResponse.id resp = Some (conversations_seq (store w))
     /\ ConversationResponse.item_id resp = ConversationCreate.item_id data
     /\ conversations (store w') = conversations (store w) ++ [row]
     /\ conversations_seq (store w') = conversations_seq (store w) + 1
     /\ find_conversation_between (User.id current_user) (ConversationCreate.user2_id data)
          (store w') = Some row
     /\ find_conversation_between (ConversationCreate.user2_id data) (User.id current_user)
          (store w') = Some row
     /\ messages (store w') = messages (store w)
     /\ notifications (store w') = notifications (store w)
     /\ commit_log w' = commit_log w ++ [store w']
     /\ delivered w' = delivered w)
  /\ (references_item (ConversationCreate.item_id data) (store w) = false ->
      consistent (store w) = true ->
      exists exception, out = (inl (Unhandled exception), w)).
Proof.
  intros Hne Huser Hnone row out.
  pose proof (create_conversation_inserts_or_fails w data current_user user2
                Hne Huser Hnone) as H.
  cbv zeta in H. fold out in H. split.
  - intros Href.
    match type of H with
    | match ?r with _ => _ end =>
        assert (Haccepted : r = None)
          by (eapply refused_inserted; [reflexivity|reflexivity|exact Href]);
        rewrite Haccepted in H
    end.
    destruct H as (resp & Hrun & Hid & Hitem).
    eexists resp, _. split; [exact Hrun|].
    cbn [store commit_log delivered insert snd conversations conversations_seq
         messages notifications].
    split; [exact Hid|]. split; [exact Hitem|].
    split; [reflexivity|]. split; [reflexivity|].
    split.
    { unfold find_conversation_between. cbn [conversations].
      apply find_app_none; [exact Hnone|].
      unfold between. cbn. rewrite !Z.eqb_refl. reflexivity. }
    split.
    { unfold find_conversation_between. cbn [conversations].
      apply find_app_none.
      - erewrite find_pointwise; [exact Hnone|]. intros x. apply between_sym.
      - unfold between. cbn. rewrite !Z.eqb_refl. cbn. apply orb_true_r. }
    repeat split.
  - intros Href Hdb.
    match type of H with
    | match ?r with _ => _ end =>
        assert (Hrefused : r = Some (Unhandled "IntegrityError: violates foreign key constraint"))
          by (eapply refused_item_of_insert;
              [exact Hdb|reflexivity|reflexivity|reflexivity|exact Href]);
        rewrite Hrefused in H
    end.
    eexists. exact H.
Qed.

(** ** Sending a message *)

Lemma bind_refreshed_message {B} (h : nat) (k : Message.t -> M B) s m :
  nth_error (flushed (session s)) h = Some (EMessage m) ->
  bind (refreshed_message h) k s = k m s.
Proof.
  intros H. unfold refreshed_message. rewrite bind_assoc.
  rewrite (bind_refreshed _ _ _ _ H). rewrite bind_ret. reflexivity.
Qed.

Lemma bind_get_user {B} (user_id : Z) (k : option User.t -> M B) s :
  bind (query (get_user user_id)) k s
  = k (List.find (fun u => User.id u =? user_id) (users (work (session s)))) s.
Proof. reflexivity. Qed.


(** ** Offers *)

(** X6: what [send_purchase_offer] refuses for a participant, in the order
    the handler tests it: a conversation without an item (400), an item
    that no longer exists (404), a conversation that is already sold (400).
    Nothing is written in any of these cases. *)
Theorem offer_is_refused_without_item_or_after_sale
    (w : World) (conversation_id : Z) (data : TransactionCreate.t)
    (current_user : User.t) (c : Conversation.t) :
  get_conversation conversation_id (store w) = Some c ->
  participant current_user c ->
  (0 <? TransactionCreate.sale_price data)%float = true ->
  let answer := run (send_purchase_offer conversation_id data current_user) w in
  (truthy (Conversation.item_id c) = false ->
   answer = (inl (HTTPException HTTP_400_BAD_REQUEST
                    "Conversation is not associated with an item"), w))
  /\ (truthy (Conversation.item_id c) = true ->
      get_item (Conversation.item_id c) (store w) = None ->
      answer = (inl (HTTPException HTTP_404_NOT_FOUND "Item not found"), w))
  /\ (truthy (Conversation.item_id c) = true ->
      get_item (Conversation.item_id c) (store w) <> None ->
      Conversation.is_sold c = true ->
      answer = (inl (HTTPException HTTP_400_BAD_REQUEST
                       "Item already sold in this conversation"), w)).
Proof.
  intros Hc Hp Hprice answer. subst answer.
  destruct w as [db log now conns out]. cbn [store] in *.
  repeat split.
  - intros Hitem. unfold run, send_purchase_offer. rewrite (positive_not_le_zero _ Hprice).
    rewrite (bind_load_conversation _ _ _ c) by assumption.
    rewrite Hitem. reflexivity.
  - intros Hitem Hnone. unfold run, send_purchase_offer. rewrite (positive_not_le_zero _ Hprice).
    rewrite (bind_load_conversation _ _ _ c) by assumption.
    rewrite Hitem. cbn [negb]. rewrite bind_query. settle. rewrite Hnone. reflexivity.
  - intros Hitem Hsome Hsold. unfold run, send_purchase_offer. rewrite (positive_not_le_zero _ Hprice).
    rewrite (bind_load_conversation _ _ _ c) by assumption.
    rewrite Hitem. cbn [negb]. rewrite bind_query. settle.
    destruct (get_item (Conversation.item_id c) db) as [item|]; [|congruence].
    rewrite Hsold. reflexivity.
Qed.

(** The conversation row an offer leaves behind. *)
Lemma send_purchase_offer_run
    (w : World) (conversation_id : Z) (data : TransactionCreate.t)
    (current_user : User.t) (c : Conversation.t) (item : Item.t) (cents : Z) :
  get_conversation conversation_id (store w) = Some c ->
  participant current_user c ->
  (TransactionCreate.sale_price data <=? 0)%float = false ->
  truthy (Conversation.item_id c) = true ->
  get_item (Conversation.item_id c) (store w) = Some item ->
  Conversation.is_sold c = false ->
  Py.int (Py.times100 (Py.PyFloat (TransactionCreate.sale_price data))) = inr cents ->
  fits_integer (Some cents) = true ->
  let sale_price := Py.PyFloat (TransactionCreate.sale_price data) in
  let other_user_id := counterpart c (User.id current_user) in
  let is_seller := Item.seller_id item =? User.id current_user in
  let known := bool_decide (is_Some (get_user other_user_id (store w))) in
  let c' :=
    Conversation.set_last_message_at (Some (clock w + 1))
      (Conversation.set_updated_by (Some (User.username current_user))
         (Conversation.set_pending_offer_at (Some (clock w))
            (Conversation.set_pending_offer_from_user_id (Some (User.id current_user))
               (Conversation.set_pending_offer_price (Some cents) c)))) in
  let m :=
    {| Message.id := Some (messages_seq (store w));
       Message.conversation_id := conversation_id;
       Message.sender_id := User.id current_user;
       Message.content :=
         if is_seller then [Lit "💰 Purchase offer: "; Money sale_price]
         else [Lit "💵 Offer: "; Money sale_price];
       Message.is_read := false;
       Message.read_at := None;
       Message.created_at := Some (clock w + 2);
       Message.created_by := Some (User.username current_user) |} in
  let n :=
    {| Notification.id := Some (notifications_seq (store w));
       Notification.user_id := other_user_id;
       Notification.type := SYSTEM;
       Notification.title := if is_seller then "New Purchase Offer" else "New Offer";
       Notification.message :=
         if is_seller
         then [Lit (User.full_name current_user); Lit " offered to sell ";
               Lit (Item.title item); Lit " for "; Money sale_price]
         else [Lit (User.full_name current_user); Lit " made an offer of ";
               Money sale_price; Lit " for "; Lit (Item.title item)];
       Notification.is_read := false;
       Notification.read_at := None;
       Notification.related_item_id := Some (Item.id item);
       Notification.related_user_id := Some (User.id current_user);
       Notification.related_conversation_id := Some conversation_id;
       Notification.created_at := Some (clock w + 2);
       Notification.created_by := Some "system" |} in
  let offer :=
    {| PurchaseOffer.conversation_id := conversation_id;
       PurchaseOffer.item_id := Item.id item;
       PurchaseOffer.item_title := Item.title item;
       PurchaseOffer.offerer_name := User.full_name current_user;
       PurchaseOffer.offer_price := sale_price;
       PurchaseOffer.original_price := Item.price item;
       PurchaseOffer.is_from_seller := is_seller |} in
  exists w' : World,
    run (send_purchase_offer conversation_id data current_user) w = (inr sale_price, w')
    /\ conversations (store w') = replace_row Conversation.id c' (conversations (store w))
    /\ get_conversation conversation_id (store w') = Some c'
    /\ messages (store w') = messages (store w) ++ [m]
    /\ items (store w') = items (store w)
    /\ transactions (store w') = transactions (store w)
    /\ notifications (store w') = notifications (store w) ++ (if known then [n] else [])
    /\ delivered w'
       = delivered w
         ++ pushed (active_connections w) other_user_id (ev_purchase_offer offer)
         ++ pushed (active_connections w) other_user_id
              (ev_message (message_response m (Some (User.username current_user))
                                              (Some (User.full_name current_user)))).
Proof.
  intros Hc Hp Hprice Htruthy Hitem Hsold Hcents Hfits sale_price other_user_id is_seller
         known c' m n offer.
  pose proof (get_conversation_id _ _ _ Hc) as Hid.
  destruct w as [db log now conns out]. cbn [store clock active_connections delivered] in *.
  subst known.
  destruct (get_user other_user_id db) as [other|] eqn:Hother.
  all: eassert (Hrun : run (send_purchase_offer conversation_id data current_user)
                         (mkWorld db log now conns out) = _).
  1, 3: unfold run, send_purchase_offer; rewrite Hprice;
    rewrite (bind_load_conversation _ _ _ c) by assumption;
    rewrite Htruthy; cbn [negb]; rewrite bind_query; settle; rewrite Hitem, Hsold;
    fold other_user_id;
    rewrite Hcents; cbn [lift]; repeat run_statement;
    erewrite bind_refreshed_message by reflexivity;
    rewrite bind_get_user; settle;
    fold (get_user other_user_id db); rewrite Hother;
    repeat run_statement;
    unfold ret; cbn [world]; reflexivity.
  all: eexists; rewrite Hrun; settle.
  all: split; [reflexivity|].
  all: split; [reflexivity|].
  all: split; [apply (get_conversation_updated _ c); [exact Hc|exact Hid]|].
  all: subst m n offer is_seller; rewrite <- !Z.add_assoc.
  all: change (1 + 1) with 2.
  all: split; [destruct (Item.seller_id item =? User.id current_user); reflexivity|].
  all: split; [reflexivity|].
  all: split; [reflexivity|].
  all: split; [destruct (Item.seller_id item =? User.id current_user);
               try reflexivity; rewrite app_nil_r; reflexivity|].
  all: rewrite <- ?app_assoc.
  all: destruct (Item.seller_id item =? User.id current_user); reflexivity.
Qed.

(** An offer whose cents are beyond the column, or whose price has no
    integer value. *)
Lemma send_purchase_offer_fails
    (w : World) (conversation_id : Z) (data : TransactionCreate.t)
    (current_user : User.t) (c : Conversation.t) (item : Item.t) :
  get_conversation conversation_id (store w) = Some c ->
  participant current_user c ->
  (TransactionCreate.sale_price data <=? 0)%float = false ->
  truthy (Conversation.item_id c) = true ->
  get_item (Conversation.item_id c) (store w) = Some item ->
  Conversation.is_sold c = false ->
  let out := run (send_purchase_offer conversation_id data current_user) w in
  match Py.int (Py.times100 (Py.PyFloat (TransactionCreate.sale_price data))) with
  | inr cents =>
      fits_integer (Some cents) = false -> consistent (store w) = true ->
      server_error out w
  | inl e => out = (inl e, w)
  end.
Proof.
  intros Hc Hp Hprice Htruthy Hitem Hsold out. subst out.
  destruct (Py.int _) as [e|cents] eqn:Hcents; [|intros Hbig Hdb].
  all: unfold run, send_purchase_offer; rewrite Hprice.
  all: rewrite (bind_load_conversation _ _ _ c) by assumption.
  all: rewrite Htruthy; cbn [negb]; rewrite bind_query; settle; rewrite Hitem, Hsold.
  all: rewrite Hcents; cbn [lift].
  - rewrite bind_raise. destruct w; reflexivity.
  - repeat run_statement.
    erewrite bind_db_commit_refused
      by (settle; eapply (refused_price _ _ _ c);
          [exact Hdb|exact Hc|reflexivity|reflexivity|exact Hbig]).
    unfold server_error. cbn [fst snd world store commit_log delivered].
    split; [eexists; reflexivity|]. repeat split.
Qed.

(** X7: an offer that passes the schema (its price is not zero or below),
    on an unsold conversation, is turned into cents by [int(price * 100)].
    When that integer fits the 32-bit column the offer is recorded with the
    sender as its author, the offer message is appended, the item and the
    transactions are untouched, and the pushes go to the other participant
    only: a [purchase_offer] event, then the message; the sender's own
    socket receives nothing, and no [conversation_updated] goes out.  When
    the integer does not fit, or the price has no integer value (an
    infinity, NaN), the request ends in a server error and nothing is stored
    or pushed. *)
Theorem offer_is_recorded_and_told_to_the_other_side
    (w : World) (conversation_id : Z) (data : TransactionCreate.t)
    (current_user : User.t) (c : Conversation.t) (item : Item.t) :
  get_conversation conversation_id (store w) = Some c ->
  participant current_user c ->
  (TransactionCreate.sale_price data <=? 0)%float = false ->
  truthy (Conversation.item_id c) = true ->
  get_item (Conversation.item_id c) (store w) = Some item ->
  Conversation.is_sold c = false ->
  let out := run (send_purchase_offer conversation_id data current_user) w in
  match Py.int (Py.times100 (Py.PyFloat (TransactionCreate.sale_price data))) with
  | inr cents =>
      if fits_integer (Some cents)
      then
        exists (w' : World) (c' : Conversation.t) (m : Message.t) (events : list (Z * Event)),
          out = (inr (Py.PyFloat (TransactionCreate.sale_price data)), w')
          /\ get_conversation conversation_id (store w') = Some c'
          /\ Conversation.pending_offer_price c' = Some cents
          /\ Conversation.pending_offer_from_user_id c' = Some (User.id current_user)
          /\ Conversation.pending_offer_at c' = Some (clock w)
          /\ Conversation.is_sold c' = false
          /\ Conversation.item_id c' = Conversation.item_id c
          /\ messages (store w') = messages (store w) ++ [m]
          /\ Message.sender_id m = User.id current_user
          /\ Message.conversation_id m = conversation_id
          /\ items (store w') = items (store w)
          /\ transactions (store w') = transactions (store w)
          /\ delivered w' = delivered w ++ events
          /\ (length events <= 2)%nat
          /\ Forall (fun e => fst e = counterpart c (User.id current_user)
                              /\ match snd e with
                                 | ev_purchase_offer _ | ev_message _ => True
                                 | _ => False
                                 end) events
      else consistent (store w) = true -> server_error out w
  | inl _ => server_error out w
  end.
Proof.
  intros Hc Hp Hprice Htruthy Hitem Hsold out.
  pose proof (send_purchase_offer_fails w conversation_id data current_user c item
                Hc Hp Hprice Htruthy Hitem Hsold) as Hfails.
  cbv zeta in Hfails. fold out in Hfails.
  destruct (Py.int _) as [e|cents] eqn:Hcents.
  { rewrite Hfails. destruct (int_failure_is_unhandled _ _ Hcents) as (exception & ->).
    split; [eexists; reflexivity|]. repeat split. }
  destruct (fits_integer (Some cents)) eqn:Hfits; [|exact (Hfails eq_refl)].
  destruct (send_purchase_offer_run w conversation_id data current_user c item cents
              Hc Hp Hprice Htruthy Hitem Hsold Hcents Hfits)
    as (w' & Hrun & _ & Hc' & Hm & Hitems & Htx & _ & Hout).
  eexists w', _, _, _.
  split; [exact Hrun|]. split; [exact Hc'|].
  do 5 (split; [first [reflexivity | exact Hsold]|]).
  split; [exact Hm|]. do 2 (split; [reflexivity|]).
  split; [exact Hitems|]. split; [exact Htx|]. split; [exact Hout|].
  split.
  - rewrite length_app. unfold pushed.
    destruct (active_connections w !! counterpart c (User.id current_user)) as [[[|]]|];
      cbn; lia.
  - apply Forall_app. split; (apply Forall_pushed; cbn; split; [reflexivity|exact I]).
Qed.

(** Bob offers $30,000,000 for the bike: the 3,000,000,000 cents do not fit
    the column, and the conversation is left without an offer. *)
Example an_offer_beyond_the_column :
  let out := run (send_purchase_offer 1 (TransactionCreate.Build 30000000) Scenario.bob)
                 Scenario.opened in
  fst out = inl (Unhandled "DataError: integer out of range")
  /\ store (snd out) = store Scenario.opened
  /\ delivered (snd out) = delivered Scenario.opened.
Proof. vm_compute. repeat split. Qed.

(** A price that is not a number passes [gt=0] and fails at [int]. *)
Example an_offer_that_is_not_a_number :
  run (send_purchase_offer 1 (TransactionCreate.Build nan) Scenario.bob) Scenario.opened
  = (inl (Unhandled "ValueError: cannot convert float NaN to integer"), Scenario.opened).
Proof. vm_compute. reflexivity. Qed.

(** X8: an offer below one cent passes the price validation, is stored as 0
    cents, and from then on reads as no offer at all: whatever either
    participant answers is refused with 400 "No pending offer to respond
    to". *)
Theorem sub_cent_offer_cannot_be_answered
    (w : World) (conversation_id : Z) (data : TransactionCreate.t)
    (current_user responder : User.t) (c : Conversation.t) (item : Item.t)
    (response_data : gmap string json) :
  get_conversation conversation_id (store w) = Some c ->
  participant current_user c ->
  participant responder c ->
  (0 <? TransactionCreate.sale_price data)%float = true ->
  truthy (Conversation.item_id c) = true ->
  get_item (Conversation.item_id c) (store w) = Some item ->
  Conversation.is_sold c = false ->
  Py.int (Py.times100 (Py.PyFloat (TransactionCreate.sale_price data))) = inr 0 ->
  exists (w' : World) (c' : Conversation.t),
    run (send_purchase_offer conversation_id data current_user) w
    = (inr (Py.PyFloat (TransactionCreate.sale_price data)), w')
    /\ get_conversation conversation_id (store w') = Some c'
    /\ Conversation.pending_offer_price c' = Some 0
    /\ Conversation.pending_offer_from_user_id c' = Some (User.id current_user)
    /\ run (respond_to_offer conversation_id response_data responder) w'
       = (inl (HTTPException HTTP_400_BAD_REQUEST "No pending offer to respond to"), w').
Proof.
  intros Hc Hp Hp' Hprice Htruthy Hitem Hsold Hcents.
  destruct (send_purchase_offer_run w conversation_id data current_user c item 0
              Hc Hp (positive_not_le_zero _ Hprice) Htruthy Hitem Hsold Hcents eq_refl)
    as (w' & Hrun & _ & Hc' & _).
  eexists w', _.
  split; [exact Hrun|]. split; [exact Hc'|]. do 2 (split; [reflexivity|]).
  apply (respond_without_pending_offer w' conversation_id response_data responder _ Hc' Hp').
  reflexivity.
Qed.

(** ** The simple conversation writes *)

Lemma replace_row_again {A} (key : A -> option Z) (x : A) (rows : list A) :
  replace_row key x (replace_row key x rows) = replace_row key x rows.
Proof.
  unfold replace_row. rewrite map_map. apply map_ext. intros r.
  destruct (bool_decide (key r = key x)) eqn:E; [|rewrite E; reflexivity].
  rewrite bool_decide_eq_true_2 by reflexivity. reflexivity.
Qed.

Lemma offer_after_sale
    (w : World) (conversation_id : Z) (data : TransactionCreate.t)
    (current_user : User.t) (c : Conversation.t) (item : Item.t) :
  get_conversation conversation_id (store w) = Some c ->
  participant current_user c ->
  (0 <? TransactionCreate.sale_price data)%float = true ->
  truthy (Conversation.item_id c) = true ->
  get_item (Conversation.item_id c) (store w) = Some item ->
  Conversation.is_sold c = true ->
  run (send_purchase_offer conversation_id data current_user) w
  = (inl (HTTPException HTTP_400_BAD_REQUEST "Item already sold in this conversation"), w).
Proof.
  intros Hc Hp Hprice Hitem Hsome Hsold.
  destruct w as [db log now conns out]. cbn [store] in *.
  unfold run, send_purchase_offer. rewrite (positive_not_le_zero _ Hprice).
  rewrite (bind_load_conversation _ _ _ c) by assumption.
  rewrite Hitem. cbn [negb]. rewrite bind_query. settle.
  rewrite Hsome, Hsold. reflexivity.
Qed.

(** X9: [continue_conversation] re-opens the chat and nothing else.  The
    row loses [is_ended] and [ended_at]; the sale flag, the pending offer and
    the item link stay as they were, nobody is notified, and on a sold
    conversation a new offer is still refused afterwards. *)
Theorem continue_reopens_the_chat_not_the_sale
    (w : World) (conversation_id : Z) (current_user : User.t) (c : Conversation.t) :
  get_conversation conversation_id (store w) = Some c ->
  participant current_user c ->
  exists (w' : World) (c' : Conversation.t),
    run (continue_conversation conversation_id current_user) w
    = (inr "Conversation can now continue", w')
    /\ get_conversation conversation_id (store w') = Some c'
    /\ Conversation.is_ended c' = false
    /\ Conversation.ended_at c' = None
    /\ Conversation.is_sold c' = Conversation.is_sold c
    /\ Conversation.sold_at c' = Conversation.sold_at c
    /\ Conversation.item_id c' = Conversation.item_id c
    /\ Conversation.pending_offer_price c' = Conversation.pending_offer_price c
    /\ Conversation.pending_offer_from_user_id c'
       = Conversation.pending_offer_from_user_id c
    /\ items (store w') = items (store w)
    /\ messages (store w') = messages (store w)
    /\ delivered w' = delivered w
    /\ (forall (data : TransactionCreate.t) (sender : User.t) (item : Item.t),
          Conversation.is_sold c = true ->
          participant sender c ->
          (0 <? TransactionCreate.sale_price data)%float = true ->
          truthy (Conversation.item_id c) = true ->
          get_item (Conversation.item_id c) (store w) = Some item ->
          run (send_purchase_offer conversation_id data sender) w'
          = (inl (HTTPException HTTP_400_BAD_REQUEST
                    "Item already sold in this conversation"), w')).
Proof.
  intros Hc Hp.
  pose proof (get_conversation_id _ _ _ Hc) as Hid.
  destruct w as [db log now conns out]. cbn [store clock active_connections delivered] in *.
  eassert (Hrun : run (continue_conversation conversation_id current_user)
                      (mkWorld db log now conns out) = _).
  { unfold run, continue_conversation.
    rewrite (bind_load_conversation _ _ _ c) by assumption.
    repeat run_statement. unfold ret; cbn [world]; reflexivity. }
  eexists _, _. rewrite Hrun.
  assert (Hc' : get_conversation conversation_id
                  (update_conversation
                     (Conversation.set_updated_by (Some (User.username current_user))
                        (Conversation.set_ended_at None
                           (Conversation.set_is_ended false c))) db)
                = Some (Conversation.set_updated_by (Some (User.username current_user))
                          (Conversation.set_ended_at None
                             (Conversation.set_is_ended false c)))).
  { apply (get_conversation_updated _ c); [exact Hc|exact Hid]. }
  split; [reflexivity|]. split; [exact Hc'|].
  do 10 (split; [reflexivity|]).
  intros data sender item Hsold Hsender Hprice Htruthy Hitem.
  eapply (offer_after_sale _ _ _ _ _ item); [exact Hc'|exact Hsender|exact Hprice
                                             |exact Htruthy|exact Hitem|exact Hsold].
Qed.

(** X10: with the per-user status columns commented out of the model,
    archiving writes nothing but [updated_by]: every other column of the
    row, the messages and the sockets are as before, and unarchiving
    afterwards commits the very same database again. *)
Theorem archive_only_stamps_the_row
    (w : World) (conversation_id : Z) (current_user : User.t) (c : Conversation.t) :
  get_conversation conversation_id (store w) = Some c ->
  participant current_user c ->
  exists (w' w'' : World),
    run (archive_conversation conversation_id current_user) w
    = (inr "Conversation archived", w')
    /\ store w'
       = update_conversation
           (Conversation.set_updated_by (Some (User.username current_user)) c) (store w)
    /\ get_conversation conversation_id (store w')
       = Some (Conversation.set_updated_by (Some (User.username current_user)) c)
    /\ delivered w' = delivered w
    /\ run (unarchive_conversation conversation_id current_user) w'
       = (inr "Conversation unarchived", w'')
    /\ store w'' = store w'.
Proof.
  intros Hc Hp.
  pose proof (get_conversation_id _ _ _ Hc) as Hid.
  destruct w as [db log now conns out]. cbn [store clock active_connections delivered] in *.
  set (c' := Conversation.set_updated_by (Some (User.username current_user)) c).
  assert (Hc' : get_conversation conversation_id (update_conversation c' db) = Some c').
  { apply (get_conversation_updated _ c); [exact Hc|exact Hid]. }
  eassert (Hrun : run (archive_conversation conversation_id current_user)
                      (mkWorld db log now conns out) = _).
  { unfold run, archive_conversation.
    rewrite (bind_load_conversation _ _ _ c) by assumption.
    repeat run_statement. unfold ret; cbn [world]; reflexivity. }
  eexists _, _. rewrite Hrun.
  split; [reflexivity|]. split; [reflexivity|]. split; [exact Hc'|]. split; [reflexivity|].
  split.
  - unfold run, unarchive_conversation.
    rewrite (bind_load_conversation _ _ _ c') by (try exact Hc'; exact Hp).
    repeat run_statement. unfold ret; cbn [world]; reflexivity.
  - cbn [store]. unfold update_conversation. cbn [conversations].
    change (Conversation.set_updated_by (Some (User.username current_user)) c') with c'.
    rewrite replace_row_again. reflexivity.
Qed.


(** ** Deleting a conversation *)

Lemma bind_try_except {A B} (m : M A) (h : Failure -> M A) (k : A -> M B) s a s1 :
  m s = (inr a, s1) ->
  bind (try_except m h) k s = k a s1.
Proof. intros H. unfold bind, try_except. rewrite H. reflexivity. Qed.

Lemma find_filter_out {A} (f keep : A -> bool) (l : list A) :
  (forall x, f x = true -> keep x = false) ->
  List.find f (List.filter keep l) = None.
Proof.
  intros H. induction l as [|x l IH]; cbn; [reflexivity|].
  destruct (keep x) eqn:Hk; [|exact IH].
  cbn. destruct (f x) eqn:Hf; [|exact IH].
  rewrite (H _ Hf) in Hk. discriminate.
Qed.

(** X12: either participant deletes the conversation for both.  The row
    and its messages are gone (messages of other conversations stay), the
    transactions survive with every column but the conversation link, no
    transaction or notification points at the deleted id any more, ratings
    are untouched, and the other participant is not told. *)
Theorem delete_removes_the_thread_and_keeps_the_sale
    (w : World) (conversation_id : Z) (current_user : User.t) (c : Conversation.t) :
  get_conversation conversation_id (store w) = Some c ->
  participant current_user c ->
  exists w' : World,
    run (delete_conversation conversation_id current_user) w
    = (inr "Conversation deleted", w')
    /\ get_conversation conversation_id (store w') = None
    /\ messages (store w')
       = List.filter (fun m => negb (Message.conversation_id m =? conversation_id))
           (messages (store w))
    /\ map (Transaction.set_conversation_id None) (transactions (store w'))
       = map (Transaction.set_conversation_id None) (transactions (store w))
    /\ Forall (fun t => Transaction.conversation_id t <> Some conversation_id)
         (transactions (store w'))
    /\ Forall (fun n => Notification.related_conversation_id n <> Some conversation_id)
         (notifications (store w'))
    /\ length (notifications (store w')) = length (notifications (store w))
    /\ ratings (store w') = ratings (store w)
    /\ items (store w') = items (store w)
    /\ commit_log w' = commit_log w ++ [store w']
    /\ delivered w' = delivered w.
Proof.
  intros Hc Hp.
  pose proof (get_conversation_id _ _ _ Hc) as Hid.
  destruct w as [db log now conns out]. cbn [store commit_log delivered] in *.
  eassert (Hrun : run (delete_conversation conversation_id current_user)
                      (mkWorld db log now conns out) = _).
  { unfold run, delete_conversation.
    rewrite (bind_load_conversation _ _ _ c) by assumption.
    erewrite bind_try_except;
      [|repeat run_statement; unfold db_commit; settle;
        erewrite refused_removed by reflexivity; reflexivity].
    unfold ret; cbn [world]; reflexivity. }
  eexists. rewrite Hrun.
  split; [reflexivity|]. settle.
  split.
  { unfold get_conversation. cbn [conversations]. apply find_filter_out.
    intros x Hx. apply bool_decide_eq_true_1 in Hx.
    rewrite bool_decide_eq_true_2; [reflexivity|congruence]. }
  split.
  { apply filter_ext. intros m. rewrite Hid. f_equal.
    destruct (Z.eqb_spec (Message.conversation_id m) conversation_id) as [->|Hne].
    - apply bool_decide_eq_true_2. reflexivity.
    - apply bool_decide_eq_false_2. congruence. }
  split.
  { rewrite map_map. apply map_ext. intros t.
    destruct (bool_decide (Transaction.conversation_id t = Some conversation_id));
      reflexivity. }
  split.
  { apply Forall_map. apply Forall_forall. intros t _.
    destruct (bool_decide (Transaction.conversation_id t = Some conversation_id)) eqn:E.
    - cbn. discriminate.
    - apply bool_decide_eq_false_1 in E. exact E. }
  split.
  { apply Forall_map. apply Forall_forall. intros n _.
    destruct (bool_decide (Notification.related_conversation_id n = Some conversation_id))
      eqn:E.
    - cbn. discriminate.
    - apply bool_decide_eq_false_1 in E. exact E. }
  split; [apply length_map|].
  repeat split.
Qed.

(** ** Ratings *)

(** X13: what [rate_user] refuses, in the order the handler tests it: an
    unknown transaction (404), a user who is neither its seller nor its
    buyer (403), a rated user who is not the other party - oneself included
    (400).  Nothing is written in any of these cases. *)
Theorem rating_is_for_the_other_party_only
    (w : World) (transaction_id : Z) (rating_data : RatingCreate.t) (current_user : User.t) :
  (1 <= RatingCreate.rating rating_data <= 5) ->
  let answer := run (rate_user transaction_id rating_data current_user) w in
  (get_transaction (Some transaction_id) (store w) = None ->
   answer = (inl (HTTPException HTTP_404_NOT_FOUND "Transaction not found"), w))
  /\ (forall t : Transaction.t,
        get_transaction (Some transaction_id) (store w) = Some t ->
        Transaction.seller_id t <> User.id current_user ->
        Transaction.buyer_id t <> User.id current_user ->
        answer = (inl (HTTPException HTTP_403_FORBIDDEN
                         "Not authorized to rate for this transaction"), w))
  /\ (forall t : Transaction.t,
        get_transaction (Some transaction_id) (store w) = Some t ->
        (Transaction.seller_id t = User.id current_user
         \/ Transaction.buyer_id t = User.id current_user) ->
        RatingCreate.rated_user_id rating_data
        <> (if Transaction.seller_id t =? User.id current_user
            then Transaction.buyer_id t else Transaction.seller_id t) ->
        answer = (inl (HTTPException HTTP_400_BAD_REQUEST
                         "Can only rate the other party in the transaction"), w)).
Proof.
  intros Hrange answer. subst answer.
  assert (Hguard : (1 <=? RatingCreate.rating rating_data)
                   && (RatingCreate.rating rating_data <=? 5) = true).
  { apply andb_true_intro. split; apply Z.leb_le; lia. }
  destruct w as [db log now conns out]. cbn [store] in *.
  repeat split.
  - intros Hnone. unfold run, rate_user. rewrite Hguard. cbn [negb].
    rewrite bind_query. settle. rewrite Hnone. reflexivity.
  - intros t Ht Hs Hb. unfold run, rate_user. rewrite Hguard. cbn [negb].
    rewrite bind_query. settle. rewrite Ht.
    rewrite (proj2 (Z.eqb_neq _ _) Hs), (proj2 (Z.eqb_neq _ _) Hb). reflexivity.
  - intros t Ht Hparty Hother. unfold run, rate_user. rewrite Hguard. cbn [negb].
    rewrite bind_query. settle. rewrite Ht.
    assert (Hin : negb (Transaction.seller_id t =? User.id current_user)
                  && negb (Transaction.buyer_id t =? User.id current_user) = false).
    { destruct Hparty as [H|H]; rewrite H, Z.eqb_refl; cbn;
        [reflexivity|apply andb_false_r]. }
    rewrite Hin. rewrite (proj2 (Z.eqb_neq _ _) Hother). reflexivity.
Qed.

Lemma rate_user_inserts
    (w : World) (transaction_id : Z) (rating_data : RatingCreate.t)
    (current_user : User.t) (t : Transaction.t) :
  (1 <= RatingCreate.rating rating_data <= 5) ->
  get_transaction (Some transaction_id) (store w) = Some t ->
  (Transaction.seller_id t = User.id current_user
   \/ Transaction.buyer_id t = User.id current_user) ->
  RatingCreate.rated_user_id rating_data
  = (if Transaction.seller_id t =? User.id current_user
     then Transaction.buyer_id t else Transaction.seller_id t) ->
  find_rating transaction_id (User.id current_user) (store w) = None ->
  let r :=
    {| Rating.id := Some (ratings_seq (store w));
       Rating.transaction_id := transaction_id;
       Rating.rater_id := User.id current_user;
       Rating.rated_user_id := RatingCreate.rated_user_id rating_data;
       Rating.rating := RatingCreate.rating rating_data;
       Rating.comment := RatingCreate.comment rating_data;
       Rating.created_at := Some (clock w);
       Rating.created_by := Some (User.username current_user);
       Rating.updated_by := None |} in
  exists w' : World,
    run (rate_user transaction_id rating_data current_user) w = (inr (rating_response r), w')
    /\ ratings (store w') = ratings (store w) ++ [r].
Proof.
  intros Hrange Ht Hparty Hother Hnone r.
  assert (Hguard : (1 <=? RatingCreate.rating rating_data)
                   && (RatingCreate.rating rating_data <=? 5) = true).
  { apply andb_true_intro. split; apply Z.leb_le; lia. }
  assert (Hin : negb (Transaction.seller_id t =? User.id current_user)
                && negb (Transaction.buyer_id t =? User.id current_user) = false).
  { destruct Hparty as [H|H]; rewrite H, Z.eqb_refl; cbn;
      [reflexivity|apply andb_false_r]. }
  destruct w as [db log now conns out]. cbn [store clock commit_log delivered] in *.
  eassert (Hrun : run (rate_user transaction_id rating_data current_user)
                      (mkWorld db log now conns out) = _).
  { unfold run, rate_user. rewrite Hguard. cbn [negb].
    rewrite bind_query. settle. rewrite Ht, Hin.
    rewrite <- Hother, Z.eqb_refl. cbn [negb].
    rewrite bind_query. settle. rewrite Hnone.
    repeat run_statement. unfold ret; cbn [world]; reflexivity. }
  eexists. rewrite Hrun.
  split; [reflexivity|]. settle. reflexivity.
Qed.


Lemma find_app_first {A} (f : A -> bool) (l1 l2 : list A) (x : A) :
  List.find f l1 = Some x -> List.find f (l1 ++ l2) = Some x.
Proof.
  induction l1 as [|a l1 IH]; cbn; [discriminate|].
  destruct (f a); [intros H; exact H|exact IH].
Qed.

Lemma total_rating_permutation (rows rows' : list Rating.t) :
  Permutation rows rows' -> total_rating rows = total_rating rows'.
Proof.
  unfold total_rating.
  induction 1 as [|x l l' _ IH|x y l|l l' l'' _ IH1 _ IH2]; cbn [fold_right].
  - reflexivity.
  - rewrite IH. reflexivity.
  - lia.
  - congruence.
Qed.

Lemma viewer_rating_some (viewer : Z) (rows : list Rating.t) (score : Z) :
  viewer_rating viewer rows = Some score ->
  exists r, In r rows /\ Rating.rater_id r = viewer /\ Rating.rating r = score.
Proof.
  unfold viewer_rating. intros H.
  destruct (List.find _ rows) as [r|] eqn:Hfind; [|discriminate].
  apply find_some in Hfind. destruct Hfind as [Hin Hr]. apply Z.eqb_eq in Hr.
  injection H as H. exists r. auto.
Qed.

Lemma viewer_rating_none (viewer : Z) (rows : list Rating.t) :
  viewer_rating viewer rows = None ->
  forall r, In r rows -> Rating.rater_id r <> viewer.
Proof.
  unfold viewer_rating. intros H r Hin Hr.
  destruct (List.find _ rows) as [r0|] eqn:Hfind; [discriminate|].
  pose proof (find_none _ _ Hfind r Hin) as Hno. cbv beta in Hno.
  rewrite Hr, Z.eqb_refl in Hno. discriminate.
Qed.

(** X15: [viewer_rating] is the score of a rating the viewer gave that
    user, and it is absent only when there is none.  The query has no ORDER
    BY: whatever the order of the rows, the count and the total (hence the
    average) are the same, but when the viewer has rated the user more than
    once, each of those ratings is the one shown for some order of the
    rows. *)
Theorem viewer_rating_depends_on_the_row_order
    (w : World) (user_id : Z) (viewer : User.t) :
  let received := ratings_received user_id (store w) in
  (forall summary : RatingSummary.t,
      fst (run (get_user_rating_summary user_id viewer) w) = inr summary ->
      match RatingSummary.viewer_rating summary with
      | Some score =>
          exists r, In r (ratings (store w))
                    /\ Rating.rated_user_id r = user_id
                    /\ Rating.rater_id r = User.id viewer
                    /\ Rating.rating r = score
      | None =>
          forall r, In r (ratings (store w)) ->
                    Rating.rated_user_id r = user_id -> Rating.rater_id r <> User.id viewer
      end)
  /\ (forall rows : list Rating.t,
        Permutation rows received ->
        length rows = length received /\ total_rating rows = total_rating received)
  /\ (forall r : Rating.t,
        In r received -> Rating.rater_id r = User.id viewer ->
        exists rows, Permutation rows received
                     /\ viewer_rating (User.id viewer) rows = Some (Rating.rating r)).
Proof.
  intros received. split; [|split].
  - intros summary Hsummary. rewrite summary_run in Hsummary. fold received in Hsummary.
    assert (Hreceived : forall r, In r received <->
                                  In r (ratings (store w)) /\ Rating.rated_user_id r = user_id).
    { intros r. unfold received, ratings_received. rewrite filter_In, Z.eqb_eq. reflexivity. }
    destruct received as [|r0 rest] eqn:Hrows.
    + injection Hsummary as <-. cbn. intros r Hin Hrated.
      exfalso. apply (proj2 (Hreceived r)). split; assumption.
    + destruct (Py.int_true_div _ _) as [e|q]; [discriminate|].
      injection Hsummary as <-. cbn [RatingSummary.viewer_rating].
      destruct (viewer_rating (User.id viewer) (r0 :: rest)) as [score|] eqn:Hviewer.
      * destruct (viewer_rating_some _ _ _ Hviewer) as (r & Hin & Hrater & Hscore).
        exists r. apply Hreceived in Hin. destruct Hin as [Hin Hrated]. auto.
      * intros r Hin Hrated.
        apply (viewer_rating_none _ _ Hviewer r). apply Hreceived. split; assumption.
  - intros rows Hperm. split.
    + apply Permutation_length. exact Hperm.
    + apply total_rating_permutation. exact Hperm.
  - intros r Hin Hrater.
    apply in_split in Hin. destruct Hin as (l1 & l2 & Hsplit).
    exists (r :: l1 ++ l2). split.
    + rewrite Hsplit. apply Permutation_middle.
    + unfold viewer_rating. cbn [List.find]. rewrite Hrater, Z.eqb_refl. reflexivity.
Qed.

(** Alice has rated Bob 2 on one sale and 5 on another: her rating of Bob,
    as his summary shows it, is 2 or 5 with the order of the two rows. *)
Example viewer_rating_of_two :
  let first := Rating.Build (Some 1) 1 1 2 2 None (Some 10) (Some "alice") None in
  let second := Rating.Build (Some 2) 2 1 2 5 None (Some 20) (Some "alice") None in
  viewer_rating 1 [first; second] = Some 2
  /\ viewer_rating 1 [second; first] = Some 5
  /\ total_rating [first; second] = total_rating [second; first].
Proof. repeat split. Qed.

(** ** Reading the ratings of a transaction *)

Lemma existsb_filter_find {A} (f g : A -> bool) (l : list A) :
  existsb g (List.filter f l)
  = bool_decide (is_Some (List.find (fun x => f x && g x) l)).
Proof.
  induction l as [|x l IH]; cbn; [reflexivity|].
  destruct (f x); cbn; [|exact IH].
  destruct (g x); cbn; [reflexivity|exact IH].
Qed.

(** X16: [get_transaction_ratings] is open to the two parties only (404 for
    an unknown transaction, 403 for anybody else) and writes nothing.  Its
    [has_rated] flag is true exactly when the caller's rating exists, that
    is, when a submission by the caller would update instead of insert. *)
Theorem has_rated_is_the_update_test
    (w : World) (transaction_id : Z) (current_user : User.t) :
  let answer := run (get_transaction_ratings transaction_id current_user) w in
  (get_transaction (Some transaction_id) (store w) = None ->
   answer = (inl (HTTPException HTTP_404_NOT_FOUND "Transaction not found"), w))
  /\ (forall t : Transaction.t,
        get_transaction (Some transaction_id) (store w) = Some t ->
        Transaction.seller_id t <> User.id current_user ->
        Transaction.buyer_id t <> User.id current_user ->
        answer = (inl (HTTPException HTTP_403_FORBIDDEN
                         "Not authorized to view ratings for this transaction"), w))
  /\ (forall t : Transaction.t,
        get_transaction (Some transaction_id) (store w) = Some t ->
        (Transaction.seller_id t = User.id current_user
         \/ Transaction.buyer_id t = User.id current_user) ->
        answer
        = (inr (map rating_response
                  (List.filter (fun r => Rating.transaction_id r =? transaction_id)
                               (ratings (store w))),
                bool_decide
                  (is_Some (find_rating transaction_id (User.id current_user) (store w)))),
           w)).
Proof.
  intros answer. subst answer.
  destruct w as [db log now conns out]. cbn [store] in *.
  repeat split.
  - intros Hnone. unfold run, get_transaction_ratings.
    rewrite bind_query. settle. rewrite Hnone. reflexivity.
  - intros t Ht Hs Hb. unfold run, get_transaction_ratings.
    rewrite bind_query. settle. rewrite Ht.
    rewrite (proj2 (Z.eqb_neq _ _) Hs), (proj2 (Z.eqb_neq _ _) Hb). reflexivity.
  - intros t Ht Hparty. unfold run, get_transaction_ratings.
    rewrite bind_query. settle. rewrite Ht.
    assert (Hin : negb (Transaction.seller_id t =? User.id current_user)
                  && negb (Transaction.buyer_id t =? User.id current_user) = false).
    { destruct Hparty as [H|H]; rewrite H, Z.eqb_refl; cbn;
        [reflexivity|apply andb_false_r]. }
    rewrite Hin. rewrite bind_query. settle. unfold ret. cbn [world].
    rewrite existsb_filter_find. reflexivity.
Qed.

(** ** Reading a conversation *)

Lemma bind_connected {B} (user_id : Z) (k : bool -> M B) s :
  bind (connected user_id) k s
  = k (bool_decide (is_Some (active_connections (world s) !! user_id))) s.
Proof. reflexivity. Qed.

Lemma In_place_by_created_at x m l :
  In x (place_by_created_at m l) <-> x = m \/ In x l.
Proof.
  induction l as [|y l IH]; cbn.
  - intuition congruence.
  - destruct (created_no_later y m); cbn; rewrite ?IH; intuition congruence.
Qed.

Lemma In_order_by_created_at x l : In x (order_by_created_at l) <-> In x l.
Proof.
  unfold order_by_created_at.
  enough (H : forall acc, In x (fold_left (fun sorted m => place_by_created_at m sorted) l acc)
                          <-> In x l \/ In x acc).
  { rewrite H. cbn. tauto. }
  induction l as [|y l IH]; intros acc; cbn.
  - tauto.
  - rewrite IH, In_place_by_created_at. intuition congruence.
Qed.

Lemma In_messages_of m conversation_id db :
  In m (messages_of conversation_id db)
  <-> In m (messages db) /\ Message.conversation_id m = conversation_id.
Proof.
  unfold messages_of. rewrite In_order_by_created_at, filter_In, Z.eqb_eq. reflexivity.
Qed.

Lemma filter_nil_Forall {A} (f : A -> bool) (l : list A) :
  List.filter f l = [] <-> Forall (fun x => f x = false) l.
Proof.
  induction l as [|x l IH]; cbn.
  - split; [constructor|reflexivity].
  - destruct (f x) eqn:Hx.
    + split; [discriminate|]. intros H. inversion H; congruence.
    + rewrite IH. split; [intros H; constructor; assumption|intros H; inversion H; assumption].
Qed.

Lemma get_messages_quiet
    (w : World) (conversation_id : Z) (current_user : User.t) (c : Conversation.t) :
  get_conversation conversation_id (store w) = Some c ->
  participant current_user c ->
  List.filter (unread_by (User.id current_user)) (messages_of conversation_id (store w)) = [] ->
  run (get_messages conversation_id current_user) w
  = (inr (map (fun msg =>
                 message_response msg
                   (option_map User.username (get_user (Message.sender_id msg) (store w)))
                   (option_map User.full_name (get_user (Message.sender_id msg) (store w))))
              (messages_of conversation_id (store w))),
     w).
Proof.
  intros Hc Hp Hunread.
  destruct w as [db log now conns out]. cbn [store] in *.
  unfold run, get_messages.
  rewrite (bind_load_conversation _ _ _ c) by assumption.
  rewrite bind_query. settle. rewrite Hunread.
  repeat run_statement. reflexivity.
Qed.

Lemma get_messages_marks
    (w : World) (conversation_id : Z) (current_user : User.t) (c : Conversation.t)
    (m0 : Message.t) (unread : list Message.t) :
  get_conversation conversation_id (store w) = Some c ->
  participant current_user c ->
  List.filter (unread_by (User.id current_user)) (messages_of conversation_id (store w))
  = m0 :: unread ->
  let reader := User.id current_user in
  let db' :=
    mark_notifications_read conversation_id reader (clock w)
      (mark_messages_read conversation_id reader (clock w) (store w)) in
  let matched :=
    length (List.filter (unread_notification_of conversation_id reader)
                        (notifications (store w))) in
  let w' :=
    mkWorld db' (commit_log w ++ [db']) (clock w + 1) (active_connections w) (delivered w) in
  let result :=
    map (fun msg =>
           message_response msg
             (option_map User.username (get_user (Message.sender_id msg) db'))
             (option_map User.full_name (get_user (Message.sender_id msg) db')))
        (messages_of conversation_id db') in
  run (get_messages conversation_id current_user) w
  = match matched, active_connections w !! reader with
    | O, _ | _, None => (inr result, w')
    | S _, Some (Channel false) => (inl (Unhandled "WebSocketDisconnect"), w')
    | S _, Some (Channel true) =>
        (inr result,
         mkWorld db' (commit_log w ++ [db']) (clock w + 1) (active_connections w)
                 (delivered w
                  ++ [(reader, ev_notifications_read conversation_id matched)]))
    end.
Proof.
  intros Hc Hp Hunread reader db' matched w' result.
  destruct w as [db log now conns out].
  cbn [store clock commit_log active_connections delivered] in *.
  unfold run, get_messages.
  rewrite (bind_load_conversation _ _ _ c) by assumption.
  rewrite bind_query. settle. rewrite Hunread.
  repeat run_statement.
  change (notifications (mark_messages_read conversation_id (User.id current_user) now db))
    with (notifications db).
  fold reader. fold matched. fold db'.
  destruct matched as [|k] eqn:Hmatched.
  - cbn [Nat.eqb negb]. repeat run_statement. reflexivity.
  - cbn [Nat.eqb negb]. rewrite bind_connected. settle.
    destruct (conns !! reader) as [[[|]]|] eqn:Hlook.
    1, 2: rewrite bool_decide_eq_true_2 by (eexists; reflexivity).
    3: rewrite bool_decide_eq_false_2 by (intros [? ?]; discriminate).
    all: unfold bind, send_json, ret; settle; rewrite ?Hlook; reflexivity.
Qed.

Lemma unread_nil_Forall conversation_id reader db :
  List.filter (unread_by reader) (messages_of conversation_id db) = []
  <-> Forall (fun m => Message.conversation_id m = conversation_id
                       -> unread_by reader m = false) (messages db).
Proof.
  rewrite filter_nil_Forall, !List.Forall_forall. split.
  - intros H m Hin Hcid. apply H, In_messages_of. split; assumption.
  - intros H m Hin. apply In_messages_of in Hin. destruct Hin as [Hin Hcid].
    apply H; assumption.
Qed.

Lemma unread_count_zero conversation_id reader db :
  Forall (fun m => Message.conversation_id m = conversation_id
                   -> unread_by reader m = false) (messages db) ->
  unread_count (Some conversation_id) reader db = 0%nat.
Proof.
  intros H. unfold unread_count.
  replace (List.filter _ (messages db)) with (@nil Message.t); [reflexivity|].
  symmetry. apply filter_nil_Forall. eapply Forall_impl; [exact H|].
  cbn beta. intros m Hm.
  destruct (bool_decide (Some (Message.conversation_id m) = Some conversation_id)) eqn:E;
    [|reflexivity].
  apply bool_decide_eq_true_1 in E. injection E as E. specialize (Hm E).
  unfold unread_by in Hm. cbn [andb].
  destruct (Message.is_read m), (Message.sender_id m =? reader); cbn in *; congruence.
Qed.

Lemma marked_messages_are_read conversation_id reader now db :
  Forall (fun m => Message.conversation_id m = conversation_id
                   -> unread_by reader m = false)
    (messages (mark_notifications_read conversation_id reader now
                 (mark_messages_read conversation_id reader now db))).
Proof.
  cbn [messages mark_notifications_read mark_messages_read].
  apply Forall_map. apply List.Forall_forall. intros m _.
  destruct ((Message.conversation_id m =? conversation_id) && unread_by reader m) eqn:E.
  - intros _. reflexivity.
  - intros Hcid. cbn in Hcid. rewrite Hcid, Z.eqb_refl in E. exact E.
Qed.

Lemma get_messages_store
    (w : World) (conversation_id : Z) (current_user : User.t) (c : Conversation.t) :
  get_conversation conversation_id (store w) = Some c ->
  participant current_user c ->
  let w' := snd (run (get_messages conversation_id current_user) w) in
  active_connections w' = active_connections w
  /\ ((store w' = store w /\ commit_log w' = commit_log w /\ delivered w' = delivered w
       /\ List.filter (unread_by (User.id current_user))
            (messages_of conversation_id (store w)) = [])
      \/ (store w'
          = mark_notifications_read conversation_id (User.id current_user) (clock w)
              (mark_messages_read conversation_id (User.id current_user) (clock w) (store w))
          /\ commit_log w' = commit_log w ++ [store w']
          /\ List.filter (unread_by (User.id current_user))
               (messages_of conversation_id (store w)) <> [])).
Proof.
  intros Hc Hp w'. subst w'.
  destruct (List.filter (unread_by (User.id current_user))
              (messages_of conversation_id (store w))) as [|m0 unread] eqn:Hunread.
  - rewrite (get_messages_quiet w conversation_id current_user c Hc Hp Hunread).
    cbn [snd]. split; [reflexivity|]. left. repeat split.
  - rewrite (get_messages_marks w conversation_id current_user c m0 unread Hc Hp Hunread).
    destruct (length _) as [|k];
      [|destruct (active_connections w !! User.id current_user) as [[[|]]|]].
    all: cbn [snd store commit_log active_connections]; split; [reflexivity|].
    all: right; repeat split; discriminate.
Qed.

(** X17: after a participant has fetched the messages of a conversation,
    that participant's unread count for it is zero - whether or not the
    request was answered.  The read writes messages and notifications only:
    the reader's own messages and every other conversation's messages are
    the rows they were, and no conversation, transaction or rating is
    touched. *)
Theorem reading_clears_the_readers_unread_count
    (w : World) (conversation_id : Z) (current_user : User.t) (c : Conversation.t) :
  get_conversation conversation_id (store w) = Some c ->
  participant current_user c ->
  let w' := snd (run (get_messages conversation_id current_user) w) in
  unread_count (Some conversation_id) (User.id current_user) (store w') = 0%nat
  /\ (forall m : Message.t,
        In m (messages (store w)) ->
        Message.sender_id m = User.id current_user
        \/ Message.conversation_id m <> conversation_id ->
        In m (messages (store w')))
  /\ length (messages (store w')) = length (messages (store w))
  /\ elsewhere w w'.
Proof.
  intros Hc Hp w'.
  destruct (get_messages_store w conversation_id current_user c Hc Hp)
    as [_ [(Hstore & _ & _ & Hunread)|(Hstore & _ & _)]]; fold w' in Hstore;
    unfold elsewhere; rewrite Hstore.
  - split; [apply unread_count_zero, unread_nil_Forall, Hunread|].
    split; [intros m Hin _; exact Hin|]. split; [reflexivity|]. repeat split.
  - split; [apply unread_count_zero, marked_messages_are_read|].
    cbn [messages conversations transactions ratings conversations_seq transactions_seq
         ratings_seq mark_notifications_read mark_messages_read].
    split; [|split; [apply length_map|repeat split]].
    intros m Hin Hown. apply in_map_iff. exists m. split; [|exact Hin].
    replace ((Message.conversation_id m =? conversation_id)
             && unread_by (User.id current_user) m) with false; [reflexivity|].
    symmetry. destruct Hown as [Hown|Hown].
    + unfold unread_by. rewrite Hown, Z.eqb_refl. cbn. rewrite andb_false_r.
      apply andb_false_r.
    + rewrite (proj2 (Z.eqb_neq _ _) Hown). reflexivity.
Qed.

(** X18: reading is idempotent: a second fetch right after the first one
    succeeds, commits nothing, pushes nothing, and shows every message of
    the other side as read. *)
Theorem reading_again_changes_nothing
    (w : World) (conversation_id : Z) (current_user : User.t) (c : Conversation.t) :
  get_conversation conversation_id (store w) = Some c ->
  participant current_user c ->
  let w' := snd (run (get_messages conversation_id current_user) w) in
  exists result : list MessageResponse.t,
    run (get_messages conversation_id current_user) w' = (inr result, w')
    /\ Forall (fun r => MessageResponse.conversation_id r = conversation_id
                        /\ (MessageResponse.sender_id r <> User.id current_user
                            -> MessageResponse.is_read r = true)) result.
Proof.
  intros Hc Hp w'.
  assert (Hclean : Forall (fun m => Message.conversation_id m = conversation_id
                                    -> unread_by (User.id current_user) m = false)
                          (messages (store w'))
                   /\ conversations (store w') = conversations (store w)).
  { destruct (get_messages_store w conversation_id current_user c Hc Hp)
      as [_ [(Hstore & _ & _ & Hunread)|(Hstore & _ & _)]]; fold w' in Hstore; rewrite Hstore.
    - split; [apply unread_nil_Forall, Hunread|reflexivity].
    - split; [apply marked_messages_are_read|reflexivity]. }
  destruct Hclean as [Hclean Hconv].
  assert (Hc' : get_conversation conversation_id (store w') = Some c).
  { unfold get_conversation. rewrite Hconv. exact Hc. }
  eexists. split.
  - apply (get_messages_quiet w' conversation_id current_user c Hc' Hp).
    apply unread_nil_Forall, Hclean.
  - apply Forall_map. apply List.Forall_forall. intros m Hin.
    apply In_messages_of in Hin. destruct Hin as [Hin Hcid].
    cbn. split; [exact Hcid|]. intros Hother.
    rewrite List.Forall_forall in Hclean. specialize (Hclean m Hin Hcid).
    unfold unread_by in Hclean.
    destruct (Message.is_read m); [reflexivity|].
    rewrite (proj2 (Z.eqb_neq _ _) Hother) in Hclean. discriminate.
Qed.

(** X19: the read receipt is sent outside any [try].  When the read marked
    at least one notification and the reader's registered socket is stale,
    the request fails with a server error although the marks are already
    committed; with a live socket the reader receives one
    [notifications_read] event carrying the count, and without a socket the
    read is silent. *)
Theorem read_receipt_is_an_unguarded_send
    (w : World) (conversation_id : Z) (current_user : User.t) (c : Conversation.t)
    (m : Message.t) (n : Notification.t) :
  get_conversation conversation_id (store w) = Some c ->
  participant current_user c ->
  In m (messages (store w)) ->
  Message.conversation_id m = conversation_id ->
  unread_by (User.id current_user) m = true ->
  In n (notifications (store w)) ->
  unread_notification_of conversation_id (User.id current_user) n = true ->
  let reader := User.id current_user in
  let marked :=
    mark_notifications_read conversation_id reader (clock w)
      (mark_messages_read conversation_id reader (clock w) (store w)) in
  let count :=
    length (List.filter (unread_notification_of conversation_id reader)
                        (notifications (store w))) in
  let answer := run (get_messages conversation_id current_user) w in
  store (snd answer) = marked
  /\ commit_log (snd answer) = commit_log w ++ [marked]
  /\ (0 < count)%nat
  /\ match active_connections w !! reader with
     | Some (Channel false) =>
         fst answer = inl (Unhandled "WebSocketDisconnect")
         /\ response_status (Unhandled "WebSocketDisconnect") = HTTP_500_INTERNAL_SERVER_ERROR
         /\ delivered (snd answer) = delivered w
     | Some (Channel true) =>
         (exists result, fst answer = inr result)
         /\ delivered (snd answer)
            = delivered w ++ [(reader, ev_notifications_read conversation_id count)]
     | None =>
         (exists result, fst answer = inr result)
         /\ delivered (snd answer) = delivered w
     end.
Proof.
  intros Hc Hp Hm Hcid Hunread Hn Hmatch reader marked count answer.
  destruct (List.filter (unread_by (User.id current_user))
              (messages_of conversation_id (store w))) as [|m0 unread] eqn:Hfilter.
  { exfalso. apply unread_nil_Forall in Hfilter. rewrite List.Forall_forall in Hfilter.
    specialize (Hfilter m Hm Hcid). congruence. }
  assert (Hcount : (0 < count)%nat).
  { subst count.
    destruct (List.filter (unread_notification_of conversation_id reader)
                (notifications (store w))) as [|x l] eqn:E; [|cbn; lia].
    exfalso. apply filter_nil_Forall in E. rewrite List.Forall_forall in E.
    specialize (E n Hn). subst reader. congruence. }
  subst answer.
  rewrite (get_messages_marks w conversation_id current_user c m0 unread Hc Hp Hfilter).
  fold reader. fold count. fold marked.
  destruct count as [|k]; [lia|].
  destruct (active_connections w !! reader) as [[[|]]|];
    cbn [fst snd store commit_log delivered]; repeat split; try reflexivity; try lia.
  all: eexists; reflexivity.
Qed.

(** ** Cents are never negative *)

Lemma Prim2SF_100 : Prim2SF 100 = S754_finite false 7036874417766400 (-46).
Proof. vm_compute. reflexivity. Qed.

Lemma cents_not_negative (f : float) (z : Z) :
  (f <=? 0)%float = false ->
  Py.int_of_float (f * 100) = inr z ->
  0 <= z.
Proof.
  intros Hle Hint. unfold Py.int_of_float in Hint.
  rewrite mul_spec, Prim2SF_100 in Hint.
  rewrite FloatAxioms.leb_spec in Hle.
  change (Prim2SF 0) with (S754_zero false) in Hle.
  destruct (Prim2SF f) as [s|s| |s m e].
  - cbn in Hle. discriminate.
  - destruct s; cbn in Hle; [discriminate|]. cbn in Hint. discriminate.
  - cbn in Hint. discriminate.
  - destruct s; cbn in Hle; [discriminate|].
    unfold SF64mul, SFmul in Hint. cbn [xorb] in Hint.
    unfold binary_round_aux in Hint.
    destruct (shr_fexp _ _ _ _ _) as [mrs' e'].
    destruct (shr_fexp _ _ _ _ _) as [mrs'' e''].
    destruct (shr_m mrs'') as [|p|p]; cbn in Hint; try discriminate.
    + injection Hint as <-. lia.
    + destruct (e'' <=? emax - prec); cbn in Hint; [|discriminate].
      injection Hint as <-. apply Z.shiftl_nonneg. lia.
Qed.

Lemma price_in_cents_not_negative (x : Py.number) (z : Z) :
  Py.le_zero x = false -> Py.int (Py.times100 x) = inr z -> 0 <= z.
Proof.
  destruct x as [i|f]; cbn.
  - intros Hle [= <-]. apply Z.leb_gt in Hle. lia.
  - apply cents_not_negative.
Qed.

(** ** Sound databases and the primitives of the request monad *)

Lemma NoDup_map_eq {A B} (f : A -> B) (l : list A) (a b : A) :
  NoDup (map f l) -> In a l -> In b l -> f a = f b -> a = b.
Proof.
  induction l as [|x l IH]; cbn; [contradiction|].
  intros Hnd Ha Hb Hf. apply NoDup_cons in Hnd. destruct Hnd as [Hx Hnd].
  rewrite list_elem_of_In in Hx.
  destruct Ha as [->|Ha], Hb as [->|Hb].
  - reflexivity.
  - exfalso. apply Hx. rewrite Hf. apply in_map. exact Hb.
  - exfalso. apply Hx. rewrite <- Hf. apply in_map. exact Ha.
  - apply IH; assumption.
Qed.

Lemma NoDup_map_filter {A B} (f : A -> B) (keep : A -> bool) (l : list A) :
  NoDup (map f l) -> NoDup (map f (List.filter keep l)).
Proof.
  induction l as [|x l IH]; cbn; [intros H; exact H|].
  intros Hnd. apply NoDup_cons in Hnd. destruct Hnd as [Hx Hnd].
  rewrite list_elem_of_In in Hx.
  destruct (keep x); cbn; [|apply IH; exact Hnd].
  apply NoDup_cons. split; [|apply IH; exact Hnd].
  rewrite list_elem_of_In.
  intros Hin. apply Hx. apply in_map_iff in Hin. destruct Hin as (y & Hy & Hin).
  apply filter_In in Hin. apply in_map_iff. exists y. tauto.
Qed.

Lemma map_replace_row {A B} (g : A -> B) (key : A -> option Z) (x : A) (rows : list A) :
  (forall r, In r rows -> key r = key x -> g x = g r) ->
  map g (replace_row key x rows) = map g rows.
Proof.
  intros H. unfold replace_row. rewrite map_map. apply map_ext_in. intros r Hin.
  case_bool_decide; [apply H; assumption|reflexivity].
Qed.

Lemma same_thread_pair_key c c' : same_thread c c' -> pair_key c' = pair_key c.
Proof. intros (_ & H1 & H2). unfold pair_key. rewrite H1, H2. reflexivity. Qed.

Section Request.

Variable threads : list Conversation.t.
Hypothesis threads_keyed : NoDup (map Conversation.id threads).

Lemma known_thread_pair_key c c' :
  known_thread threads c -> known_thread threads c' ->
  Conversation.id c = Conversation.id c' -> pair_key c' = pair_key c.
Proof.
  intros (r & Hr & Hsame) (r' & Hr' & Hsame') Hid.
  assert (r = r') as <-.
  { apply (NoDup_map_eq Conversation.id threads); [assumption..|].
    destruct Hsame as (H1 & _), Hsame' as (H1' & _). congruence. }
  rewrite (same_thread_pair_key _ _ Hsame), (same_thread_pair_key _ _ Hsame').
  reflexivity.
Qed.

Lemma sound_update_conversation c db :
  thread_ok c -> known_thread threads c ->
  db_sound_in threads db -> db_sound_in threads (update_conversation c db).
Proof.
  intros Hc Hknown ((Hok & Hkeyed & Hids & Hpairs & Hratings & Hsales) & Hall).
  split; [repeat split|]; cbn; try assumption.
  - apply Forall_replace_row; auto.
  - apply Forall_replace_row; [|assumption].
    intros Hex. apply List.Exists_exists in Hex. destruct Hex as (r & Hin & Hr).
    rewrite List.Forall_forall in Hkeyed. destruct (Hkeyed r Hin) as (k & Hk & Hlt).
    exists k. split; [congruence|assumption].
  - rewrite replace_row_ids. assumption.
  - rewrite map_replace_row; [assumption|].
    intros r Hin Hr. rewrite List.Forall_forall in Hall.
    apply known_thread_pair_key; [apply Hall; assumption|assumption|assumption].
  - apply Forall_replace_row; auto.
Qed.

Lemma sound_update_item i db : db_sound_in threads db -> db_sound_in threads (update_item i db).
Proof. intros H. exact H. Qed.

Lemma sound_unlink_conversation cid db :
  db_sound_in threads db -> db_sound_in threads (unlink_conversation cid db).
Proof.
  intros ((Hok & Hkeyed & Hids & Hpairs & Hratings & Hsales) & Hall).
  split; [repeat split|]; cbn; try assumption.
  apply Forall_map. eapply Forall_impl; [exact Hsales|].
  cbn beta. intros t Ht. case_bool_decide; exact Ht.
Qed.

Lemma sound_remove_conversation c db :
  db_sound_in threads db -> db_sound_in threads (remove_conversation c db).
Proof.
  intros ((Hok & Hkeyed & Hids & Hpairs & Hratings & Hsales) & Hall).
  split; [repeat split|]; cbn; try assumption.
  - apply Forall_filter. assumption.
  - apply Forall_filter. assumption.
  - apply NoDup_map_filter. assumption.
  - apply NoDup_map_filter. assumption.
  - apply Forall_filter. assumption.
Qed.

Lemma sound_insert now e db :
  harmless e -> db_sound_in threads db -> db_sound_in threads (snd (insert now e db)).
Proof.
  intros He ((Hok & Hkeyed & Hids & Hpairs & Hratings & Hsales) & Hall).
  destruct e as [c|m|t|r|n]; cbn in He; try contradiction.
  all: split; [repeat split|]; cbn; try assumption.
  apply Forall_app. split; [assumption|]. constructor; [exact He|constructor].
Qed.

Lemma sound_flush now pending db :
  Forall harmless pending -> db_sound_in threads db ->
  db_sound_in threads (snd (flush now pending db)).
Proof.
  intros Hall. revert db.
  induction Hall as [|e rest He Hall IH]; intros db Hdb; cbn; [assumption|].
  pose proof (sound_insert now e db He Hdb) as H1.
  destruct (insert now e db) as [row db1]. cbn in H1.
  specialize (IH db1 H1).
  destruct (flush now rest db1) as [rows db2]. exact IH.
Qed.

Lemma upholds_ret {A} (a : A) (R : A -> Prop) : R a -> upholds threads (ret a) R.
Proof. intros Ha s Hs. split; [assumption|]. cbn. intros b [= <-]. assumption. Qed.

Lemma upholds_raise {A} (e : Failure) (R : A -> Prop) : upholds threads (raise e) R.
Proof. intros s Hs. split; [assumption|]. cbn. discriminate. Qed.

Lemma upholds_bind {A B} (m : M A) (k : A -> M B) (R : A -> Prop) (R' : B -> Prop) :
  upholds threads m R -> (forall a, R a -> upholds threads (k a) R') ->
  upholds threads (bind m k) R'.
Proof.
  intros Hm Hk s Hs. unfold bind.
  destruct (Hm s Hs) as [Hs1 Hr].
  destruct (m s) as [[e|a] s1]; cbn in *.
  - split; [assumption|discriminate].
  - apply Hk; auto.
Qed.

Lemma upholds_weaken {A} (m : M A) (R R' : A -> Prop) :
  upholds threads m R -> (forall a, R a -> R' a) -> upholds threads m R'.
Proof. intros Hm Himp s Hs. destruct (Hm s Hs). split; auto. Qed.

Lemma upholds_top {A} (m : M A) (R : A -> Prop) :
  upholds threads m R -> upholds threads m (fun _ => True).
Proof. intros H. eapply upholds_weaken; [exact H|auto]. Qed.

Lemma upholds_try_except {A} (m : M A) (h : Failure -> M A) (R : A -> Prop) :
  upholds threads m R -> (forall e, upholds threads (h e) R) ->
  upholds threads (try_except m h) R.
Proof.
  intros Hm Hh s Hs. unfold try_except.
  destruct (Hm s Hs) as [Hs1 Hr].
  destruct (m s) as [[e|a] s1]; cbn in *.
  - apply Hh. assumption.
  - split; assumption.
Qed.

Lemma upholds_for_each {A} (l : list A) (body : A -> M unit) :
  (forall x, upholds threads (body x) (fun _ => True)) ->
  upholds threads (for_each l body) (fun _ => True).
Proof.
  intros Hbody. induction l as [|x l IH]; cbn.
  - apply upholds_ret. exact I.
  - eapply upholds_bind; [apply Hbody|]. intros _ _. exact IH.
Qed.

Lemma upholds_query {A} (q : DB -> A) (R : A -> Prop) :
  (forall db, db_sound_in threads db -> R (q db)) -> upholds threads (query q) R.
Proof.
  intros Hq s Hs. split; [assumption|]. cbn. intros a [= <-].
  apply Hq. apply Hs.
Qed.

Lemma upholds_lift {A} (r : Failure + A) : upholds threads (lift r) (fun a => r = inr a).
Proof.
  destruct r as [e|a]; cbn.
  - apply upholds_raise.
  - apply upholds_ret. reflexivity.
Qed.

Lemma upholds_utcnow : upholds threads utcnow (fun _ => True).
Proof. intros s Hs. split; [exact Hs|auto]. Qed.

Lemma upholds_db_add e : harmless e -> upholds threads (db_add e) (fun _ => True).
Proof.
  intros He s (H1 & H2 & H3). split; [|auto].
  split; [exact H1|]. split; [exact H2|]. cbn.
  apply Forall_app. split; [assumption|]. constructor; [assumption|constructor].
Qed.

Lemma upholds_modify_work f :
  (forall db, db_sound_in threads db -> db_sound_in threads (f db)) ->
  upholds threads (modify_work f) (fun _ => True).
Proof.
  intros Hf s (H1 & H2 & H3). split; [|auto].
  split; [exact H1|]. split; [apply Hf; exact H2|exact H3].
Qed.

Lemma upholds_db_commit : upholds threads db_commit (fun _ => True).
Proof.
  intros s (H1 & H2 & H3). unfold db_commit.
  pose proof (sound_flush (clock (world s)) _ _ H3 H2) as Hf.
  destruct (flush (clock (world s)) (pending (session s)) (work (session s))) as [rows db].
  cbn in Hf.
  destruct (refused (store (world s)) db) as [e|].
  - split; [exact (conj H1 (conj H2 H3))|auto].
  - cbn. split; [|auto]. split; [exact Hf|]. split; [exact Hf|constructor].
Qed.

Lemma upholds_db_rollback : upholds threads db_rollback (fun _ => True).
Proof.
  intros s (H1 & H2 & H3). split; [|auto].
  split; [exact H1|]. split; [exact H1|constructor].
Qed.

Lemma upholds_refreshed h : upholds threads (refreshed h) (fun _ => True).
Proof.
  intros s Hs. unfold refreshed.
  destruct (nth_error (flushed (session s)) h); split; auto.
Qed.

Lemma upholds_push user_id event : upholds threads (push user_id event) (fun _ => True).
Proof. intros s Hs. rewrite push_eq. split; [exact Hs|auto]. Qed.

Ltac upholds_leaf :=
  first
    [ apply upholds_raise
    | apply upholds_ret; exact I
    | apply upholds_utcnow
    | apply upholds_db_commit
    | apply upholds_db_rollback
    | apply upholds_refreshed
    | apply upholds_push
    | apply (upholds_top _ _ (upholds_lift _))
    | apply upholds_query; intros; exact I
    | apply upholds_db_add; exact I
    | apply upholds_modify_work; intros ? ?;
      first [ apply sound_update_item | apply sound_unlink_conversation
            | apply sound_remove_conversation ];
      assumption ].

Ltac upholds_go :=
  repeat
    (cbv zeta;
     lazymatch goal with
     | |- upholds _ (bind _ _) _ =>
         eapply (upholds_bind _ _ (fun _ => True)); [|intros ? _]
     | |- upholds _ (try_except _ _) _ => apply upholds_try_except; [|intros ?]
     | |- upholds _ (for_each _ _) _ => apply upholds_for_each; intros ?
     | |- upholds _ (if ?b then _ else _) _ => destruct b eqn:?
     | |- upholds _ (match ?x with _ => _ end) _ => destruct x eqn:?
     | |- upholds _ _ _ => upholds_leaf
     end).

Lemma upholds_serialize_transaction t :
  upholds threads (serialize_transaction t) (fun _ => True).
Proof. unfold serialize_transaction. upholds_go. Qed.

Lemma upholds_create_notification uid ty title msg i u c :
  upholds threads (create_notification uid ty title msg i u c) (fun _ => True).
Proof. unfold create_notification. upholds_go. Qed.

Lemma upholds_broadcast c : upholds threads (broadcast_conversation_update c) (fun _ => True).
Proof.
  unfold broadcast_conversation_update.
  upholds_go; apply upholds_serialize_transaction.
Qed.

Lemma upholds_refreshed_message h : upholds threads (refreshed_message h) (fun _ => True).
Proof. unfold refreshed_message. upholds_go. Qed.

Lemma upholds_load_conversation cid u msg :
  upholds threads (load_conversation cid u msg) (own_thread threads u).
Proof.
  unfold load_conversation.
  eapply (upholds_bind _ _ (fun o => exists db, db_sound_in threads db
                                                /\ o = get_conversation cid db)).
  { apply upholds_query. intros db Hdb. exists db. split; [assumption|reflexivity]. }
  intros o (db & Hdb & ->).
  destruct (get_conversation cid db) as [c|] eqn:E; [|apply upholds_raise].
  destruct (_ && _) eqn:Hguard; [apply upholds_raise|].
  apply upholds_ret.
  apply find_some in E. destruct E as [Hin _].
  destruct Hdb as ((Hok & _) & Hall). rewrite List.Forall_forall in Hok, Hall.
  split; [apply Hok; assumption|]. split; [apply Hall; assumption|].
  unfold participant.
  destruct (Z.eqb_spec (Conversation.user1_id c) (User.id u)); [left; assumption|].
  destruct (Z.eqb_spec (Conversation.user2_id c) (User.id u)); [right; assumption|].
  discriminate.
Qed.

(** Attribute writes keep the row the row it was. *)
Ltac same_row :=
  match goal with
  | H : known_thread _ ?c |- known_thread _ _ =>
      let r := fresh in let Hr := fresh in let Hs := fresh in
      destruct H as (r & Hr & Hs); exists r; split; [exact Hr|exact Hs]
  end.

Ltac still_ok :=
  match goal with
  | H : thread_ok ?c, Hp : participant _ ?c |- thread_ok _ =>
      let H1 := fresh in let H2 := fresh in let H3 := fresh in
      destruct H as (H1 & H2 & H3);
      split; [exact H1|split]; cbn;
      [ intros ? ?;
        first [ discriminate
              | apply H2; assumption
              | match goal with
                | E : Some _ = Some _ |- _ =>
                    injection E as <-; destruct Hp as [Hp|Hp]; [left|right];
                    symmetry; exact Hp
                end ]
      | intros ? ?; first [ discriminate | apply H3; assumption ] ]
  end.

Ltac write_row :=
  apply upholds_modify_work; intros ? ?; apply sound_update_conversation;
  [ still_ok | same_row | assumption ].

Ltac upholds_leaf' :=
  first
    [ upholds_leaf
    | apply upholds_create_notification
    | apply (upholds_top _ _ (upholds_create_notification _ _ _ _ _ _ _))
    | apply upholds_broadcast
    | apply upholds_serialize_transaction
    | apply upholds_refreshed_message
    | write_row
    | apply upholds_db_add; cbn; try exact I ].

Ltac upholds_run :=
  repeat
    (cbv zeta;
     lazymatch goal with
     | |- upholds _ (bind (load_conversation _ _ _) _) _ =>
         eapply upholds_bind; [apply upholds_load_conversation|intros ? (? & ? & ?)]
     | |- upholds _ (bind (lift _) _) _ =>
         eapply upholds_bind; [apply upholds_lift|intros ? ?]
     | |- upholds _ (bind _ _) _ =>
         eapply (upholds_bind _ _ (fun _ => True)); [|intros ? _]
     | |- upholds _ (try_except _ _) _ => apply upholds_try_except; [|intros ?]
     | |- upholds _ (for_each _ _) _ => apply upholds_for_each; intros ?
     | |- upholds _ (if ?b then _ else _) _ => destruct b eqn:?
     | |- upholds _ (match ?x with _ => _ end) _ => destruct x eqn:?
     | |- upholds _ _ _ => upholds_leaf'
     end).

Lemma upholds_create_message d u : upholds threads (create_message d u) (fun _ => True).
Proof. unfold create_message. upholds_run. Qed.

Lemma upholds_archive_conversation cid u :
  upholds threads (archive_conversation cid u) (fun _ => True).
Proof. unfold archive_conversation. upholds_run. Qed.

Lemma upholds_unarchive_conversation cid u :
  upholds threads (unarchive_conversation cid u) (fun _ => True).
Proof. unfold unarchive_conversation. upholds_run. Qed.

Lemma upholds_delete_conversation cid u :
  upholds threads (delete_conversation cid u) (fun _ => True).
Proof. unfold delete_conversation. upholds_run. Qed.

Lemma upholds_report_conversation cid reason u :
  upholds threads (report_conversation cid reason u) (fun _ => True).
Proof. unfold report_conversation. upholds_run. Qed.

Lemma upholds_continue_conversation cid u :
  upholds threads (continue_conversation cid u) (fun _ => True).
Proof. unfold continue_conversation. upholds_run. Qed.

(** The row after an offer of [cents] by a participant. *)
Lemma thread_ok_offer c u cents at_ :
  thread_ok c -> participant u c -> 0 <= cents ->
  thread_ok (Conversation.set_pending_offer_at at_
               (Conversation.set_pending_offer_from_user_id (Some (User.id u))
                  (Conversation.set_pending_offer_price (Some cents) c))).
Proof.
  intros (H1 & H2 & H3) Hp Hcents. split; [exact H1|]. split; cbn.
  - intros x [= <-]. destruct Hp as [Hp|Hp]; [left|right]; symmetry; exact Hp.
  - intros p [= <-]. exact Hcents.
Qed.

Lemma upholds_send_purchase_offer cid d u :
  upholds threads (send_purchase_offer cid d u) (fun _ => True).
Proof.
  unfold send_purchase_offer. upholds_run.
  apply upholds_modify_work. intros ? ?. apply sound_update_conversation;
    [|same_row|assumption].
  cbv beta in *.
  match goal with
  | Hprice : (_ <=? 0)%float = false, Hcents : Py.int _ = inr ?z |- _ =>
      pose proof (cents_not_negative _ _ Hprice Hcents) as Hz
  end.
  match goal with
  | Hok : thread_ok ?c, Hp : participant _ ?c |- _ =>
      exact (thread_ok_offer c u _ None Hok Hp Hz)
  end.
Qed.

Lemma upholds_reject_offer cid c item u :
  own_thread threads u c -> upholds threads (reject_offer cid c item u) (fun _ => True).
Proof. intros (? & ? & ?). unfold reject_offer. upholds_run. Qed.

Lemma upholds_accept_offer cid c item seller_id buyer_id u :
  own_thread threads u c -> seller_id <> buyer_id ->
  upholds threads (accept_offer cid c item seller_id buyer_id u) (fun _ => True).
Proof.
  intros (? & ? & ?) Hsale. unfold accept_offer. upholds_run.
  all: exact Hsale.
Qed.

Lemma upholds_counter_offer cid rd c item u :
  own_thread threads u c ->
  upholds threads (counter_offer cid rd c item u) (fun _ => True).
Proof.
  intros (Hok & Hknown & Hp). unfold counter_offer. cbv zeta.
  eapply (upholds_bind _ _ (fun invalid =>
            invalid = false -> json_le_zero (json_get rd "counter_price") = inr false)).
  { destruct (negb _).
    - apply upholds_ret. discriminate.
    - eapply upholds_weaken; [apply upholds_lift|]. intros a -> ->. reflexivity. }
  intros invalid Hvalid. destruct invalid; [apply upholds_raise|].
  specialize (Hvalid eq_refl). unfold json_le_zero in Hvalid.
  destruct (json_number _) as [price|]; [|apply upholds_raise].
  injection Hvalid as Hvalid.
  eapply upholds_bind; [apply upholds_lift|intros cents Hcents].
  pose proof (price_in_cents_not_negative _ _ Hvalid Hcents) as Hz.
  upholds_run.
  apply upholds_modify_work. intros ? ?. apply sound_update_conversation;
    [|same_row|assumption].
  exact (thread_ok_offer c u _ None Hok Hp Hz).
Qed.

Lemma counterpart_differs c x :
  Conversation.user1_id c <> Conversation.user2_id c -> x <> counterpart c x.
Proof.
  intros Hne. unfold counterpart.
  destruct (Z.eqb_spec (Conversation.user1_id c) x); congruence.
Qed.

Lemma upholds_respond_to_offer cid rd u :
  upholds threads (respond_to_offer cid rd u) (fun _ => True).
Proof.
  unfold respond_to_offer.
  eapply upholds_bind; [apply upholds_load_conversation|intros c Hc].
  destruct (_ || _); [apply upholds_raise|].
  eapply (upholds_bind _ _ (fun _ => True)); [upholds_run|intros item _].
  destruct item as [item|]; [|apply upholds_raise]. cbv zeta.
  destruct (json_is _ "accept").
  { apply upholds_accept_offer; [assumption|].
    apply counterpart_differs. apply Hc. }
  destruct (json_is _ "reject"); [apply upholds_reject_offer; assumption|].
  destruct (json_is _ "counter"); [apply upholds_counter_offer; assumption|].
  apply upholds_raise.
Qed.

Lemma upholds_handler {A} (m : M A) (w : World) :
  threads = conversations (store w) ->
  upholds threads m (fun _ => True) -> db_sound (store w) -> db_sound (store (snd (run m w))).
Proof.
  intros Hthreads Hm Hw. unfold run.
  assert (Hin : db_sound_in threads (store w)).
  { split; [exact Hw|]. rewrite Hthreads. apply List.Forall_forall. intros c Hc.
    exists c. split; [exact Hc|]. repeat split. }
  destruct (Hm (mkCtx w (mkSession (store w) [] []))) as [Hok _].
  { split; [exact Hin|]. split; [exact Hin|constructor]. }
  destruct (m _) as [r s]. cbn in *. apply Hok.
Qed.

End Request.

(** ** The two routes that insert keyed rows *)

Lemma pair_key_between c r :
  pair_key r = pair_key c ->
  between (Conversation.user1_id c) (Conversation.user2_id c) r = true.
Proof.
  unfold pair_key, between. intros [= Hmin Hmax].
  destruct (Z.eqb_spec (Conversation.user1_id r) (Conversation.user1_id c)),
           (Z.eqb_spec (Conversation.user2_id r) (Conversation.user2_id c)),
           (Z.eqb_spec (Conversation.user1_id r) (Conversation.user2_id c)),
           (Z.eqb_spec (Conversation.user2_id r) (Conversation.user1_id c));
    cbn; try reflexivity; exfalso; lia.
Qed.

Lemma thread_keyed_weaken bound bound' c :
  bound <= bound' -> thread_keyed bound c -> thread_keyed bound' c.
Proof. intros Hle (k & Hk & Hlt). exists k. split; [assumption|lia]. Qed.

Lemma db_sound_insert_conversation now c db :
  thread_ok c ->
  List.find (between (Conversation.user1_id c) (Conversation.user2_id c)) (conversations db)
  = None ->
  db_sound db -> db_sound (snd (insert now (EConversation c) db)).
Proof.
  intros Hc Hnone (Hok & Hkeyed & Hids & Hpairs & Hratings & Hsales).
  repeat split; cbn; try assumption.
  - apply Forall_app. split; [assumption|]. constructor; [exact Hc|constructor].
  - apply Forall_app. split.
    + eapply Forall_impl; [exact Hkeyed|]. intros x. apply thread_keyed_weaken. lia.
    + constructor; [|constructor]. exists (conversations_seq db). cbn.
      split; [reflexivity|lia].
  - rewrite map_app. cbn. apply NoDup_app. split; [assumption|]. split.
    + intros k Hin Hk.
      apply list_elem_of_In in Hin. apply in_map_iff in Hin. destruct Hin as (x & Hx & Hin).
      rewrite List.Forall_forall in Hkeyed.
      destruct (Hkeyed x Hin) as (j & Hj & Hlt).
      apply list_elem_of_In in Hk. destruct Hk as [Hk|[]].
      rewrite <- Hk in Hx. rewrite Hj in Hx. inversion Hx. lia.
    + apply NoDup_singleton.
  - rewrite map_app. cbn. apply NoDup_app. split; [assumption|]. split.
    + intros k Hin Hk.
      apply list_elem_of_In in Hin. apply in_map_iff in Hin. destruct Hin as (x & Hx & Hin).
      apply list_elem_of_In in Hk. destruct Hk as [Hk|[]]. rewrite <- Hk in Hx.
      pose proof (find_none _ _ Hnone x Hin) as Hb.
      rewrite (pair_key_between c x) in Hb; [discriminate|].
      exact Hx.
    + apply NoDup_singleton.
Qed.

Lemma thread_ok_reassociate i c : thread_ok c -> thread_ok (reassociate i c).
Proof.
  intros (H1 & H2 & H3). unfold thread_ok.
  reassociate_cases c; (split; [exact H1|split; [exact H2|exact H3]]).
Qed.

Lemma same_thread_reassociate i c : same_thread c (reassociate i c).
Proof.
  unfold same_thread. reassociate_cases c; repeat split.
Qed.

Lemma db_sound_rewrite c c' db :
  db_sound db -> In c (conversations db) -> same_thread c c' -> thread_ok c' ->
  db_sound (update_conversation c' db).
Proof.
  intros Hdb Hin Hsame Hok.
  apply (sound_update_conversation (conversations db)).
  - apply Hdb.
  - exact Hok.
  - exists c. split; assumption.
  - split; [exact Hdb|]. apply List.Forall_forall. intros r Hr.
    exists r. split; [exact Hr|]. repeat split.
Qed.

Lemma create_conversation_known_store
    (w : World) (data : ConversationCreate.t) (current_user user2 : User.t)
    (existing : Conversation.t) :
  User.id current_user <> ConversationCreate.user2_id data ->
  get_user (ConversationCreate.user2_id data) (store w) = Some user2 ->
  find_conversation_between (User.id current_user) (ConversationCreate.user2_id data)
    (store w) = Some existing ->
  truthy (ConversationCreate.item_id data)
  && negb (bool_decide (Conversation.item_id existing = ConversationCreate.item_id data))
  = false ->
  snd (run (create_conversation data current_user) w) = w.
Proof.
  intros Hne Huser Hfound Hsame.
  destruct w as [db log now conns out]. cbn [store clock] in *.
  unfold run, create_conversation.
  rewrite (proj2 (Z.eqb_neq _ _) Hne).
  rewrite bind_query. settle. rewrite Huser.
  rewrite bind_query. settle. rewrite Hfound, Hsame.
  rewrite bind_ret.
  match goal with
  | |- context [conversation_response ?c ?a ?b ?s] =>
      destruct (conversation_response_run c a b s) as (r & Hr & _); rewrite Hr
  end.
  reflexivity.
Qed.

Lemma create_conversation_sound (w : World) (data : ConversationCreate.t) (u : User.t) :
  db_sound (store w) -> db_sound (store (snd (run (create_conversation data u) w))).
Proof.
  intros Hdb.
  destruct (Z.eq_dec (User.id u) (ConversationCreate.user2_id data)) as [Heq|Hne].
  { replace (snd (run (create_conversation data u) w)) with w; [exact Hdb|].
    destruct w as [db log now conns out]. unfold run, create_conversation.
    rewrite Heq, Z.eqb_refl. reflexivity. }
  destruct (get_user (ConversationCreate.user2_id data) (store w)) as [user2|] eqn:Huser.
  2: { replace (snd (run (create_conversation data u) w)) with w; [exact Hdb|].
       destruct w as [db log now conns out]. cbn [store] in *.
       unfold run, create_conversation.
       rewrite (proj2 (Z.eqb_neq _ _) Hne). rewrite bind_query. settle.
       rewrite Huser. reflexivity. }
  destruct (find_conversation_between (User.id u) (ConversationCreate.user2_id data)
              (store w)) as [existing|] eqn:Hfound.
  - destruct (truthy (ConversationCreate.item_id data)
              && negb (bool_decide (Conversation.item_id existing
                                    = ConversationCreate.item_id data))) eqn:Hcond.
    + apply andb_prop in Hcond. destruct Hcond as [Htruthy Hdiff].
      destruct (ConversationCreate.item_id data) as [i|] eqn:Hitem; [|discriminate].
      cbn in Htruthy. apply negb_true_iff, Z.eqb_neq in Htruthy.
      apply negb_true_iff, bool_decide_eq_false_1 in Hdiff.
      pose proof (create_conversation_reassociates_or_fails w data u user2 existing i
                    Hne Huser Hfound Hitem Htruthy Hdiff) as Hcases.
      destruct (refused _ _) as [e|]; [rewrite Hcases; exact Hdb|].
      destruct Hcases as (r & w' & Hrun & Hstore & _).
      rewrite Hrun. cbn [snd]. rewrite Hstore.
      destruct (find_between_In _ _ _ _ Hfound) as [Hin _].
      apply (db_sound_rewrite existing); [exact Hdb|exact Hin|apply same_thread_reassociate|].
      apply thread_ok_reassociate.
      destruct Hdb as (Hok & _). rewrite List.Forall_forall in Hok. apply Hok, Hin.
    + rewrite (create_conversation_known_store w data u user2 existing
                 Hne Huser Hfound Hcond). exact Hdb.
  - pose proof (create_conversation_inserts_or_fails w data u user2 Hne Huser Hfound)
      as Hcases.
    cbv zeta in Hcases.
    destruct (refused _ _) as [e|]; [rewrite Hcases; exact Hdb|].
    destruct Hcases as (resp & Hrun & _). rewrite Hrun. cbn [snd store].
    apply db_sound_insert_conversation; [|exact Hfound|exact Hdb].
    split; [exact Hne|]. split; cbn; discriminate.
Qed.

Lemma rate_user_new_store
    (w : World) (transaction_id : Z) (rating_data : RatingCreate.t)
    (current_user : User.t) (t : Transaction.t) :
  (1 <=? RatingCreate.rating rating_data) && (RatingCreate.rating rating_data <=? 5) = true ->
  get_transaction (Some transaction_id) (store w) = Some t ->
  negb (Transaction.seller_id t =? User.id current_user)
  && negb (Transaction.buyer_id t =? User.id current_user) = false ->
  (RatingCreate.rated_user_id rating_data
   =? (if Transaction.seller_id t =? User.id current_user
       then Transaction.buyer_id t else Transaction.seller_id t)) = true ->
  find_rating transaction_id (User.id current_user) (store w) = None ->
  store (snd (run (rate_user transaction_id rating_data current_user) w))
  = snd (insert (clock w)
           (ERating
              {| Rating.id := None;
                 Rating.transaction_id := transaction_id;
                 Rating.rater_id := User.id current_user;
                 Rating.rated_user_id := RatingCreate.rated_user_id rating_data;
                 Rating.rating := RatingCreate.rating rating_data;
                 Rating.comment := RatingCreate.comment rating_data;
                 Rating.created_at := None;
                 Rating.created_by := Some (User.username current_user);
                 Rating.updated_by := None |})
           (store w)).
Proof.
  intros Hguard Ht Hin Hother Hnone.
  destruct w as [db log now conns out]. cbn [store clock] in *.
  unfold run, rate_user. rewrite Hguard. cbn [negb].
  rewrite bind_query. settle. rewrite Ht, Hin, Hother. cbn [negb].
  rewrite bind_query. settle. rewrite Hnone.
  repeat run_statement. reflexivity.
Qed.

Lemma db_sound_insert_rating now r db :
  find_rating (Rating.transaction_id r) (Rating.rater_id r) db = None ->
  db_sound db -> db_sound (snd (insert now (ERating r) db)).
Proof.
  intros Hnone (Hok & Hkeyed & Hids & Hpairs & Hratings & Hsales).
  repeat split; cbn; try assumption.
  rewrite map_app. cbn. apply NoDup_app. split; [assumption|]. split.
  - intros k Hin Hk.
    apply list_elem_of_In in Hin. apply in_map_iff in Hin. destruct Hin as (x & Hx & Hin).
    apply list_elem_of_In in Hk. destruct Hk as [Hk|[]]. rewrite <- Hk in Hx.
    pose proof (find_none _ _ Hnone x Hin) as Hb. cbn beta in Hb.
    unfold rating_key in Hx. cbn in Hx. injection Hx as Ht Hr.
    rewrite Ht, Hr, !Z.eqb_refl in Hb. discriminate.
  - apply NoDup_singleton.
Qed.

Lemma db_sound_update_rating r0 r1 db :
  NoDup (map Rating.id (ratings db)) ->
  In r0 (ratings db) ->
  Rating.id r1 = Rating.id r0 ->
  rating_key r1 = rating_key r0 ->
  db_sound db -> db_sound (update_rating r1 db).
Proof.
  intros Hnd Hin Hid Hkey (Hok & Hkeyed & Hids & Hpairs & Hratings & Hsales).
  repeat split; cbn; try assumption.
  rewrite map_replace_row; [assumption|].
  intros r Hr Hsame.
  rewrite (NoDup_map_eq Rating.id (ratings db) r r0 Hnd Hr Hin); [exact Hkey|congruence].
Qed.

Lemma rate_user_sound (w : World) (transaction_id : Z) (data : RatingCreate.t) (u : User.t) :
  db_ok (store w) -> db_sound (store w) ->
  db_sound (store (snd (run (rate_user transaction_id data u) w))).
Proof.
  intros Hok Hdb.
  assert (Hquiet : forall e,
            run (rate_user transaction_id data u) w = (inl e, w) ->
            db_sound (store (snd (run (rate_user transaction_id data u) w)))).
  { intros e ->. exact Hdb. }
  destruct ((1 <=? RatingCreate.rating data) && (RatingCreate.rating data <=? 5))
    eqn:Hguard.
  2: { eapply Hquiet. destruct w as [db log now conns out].
       unfold run, rate_user. rewrite Hguard. reflexivity. }
  destruct (get_transaction (Some transaction_id) (store w)) as [t|] eqn:Ht.
  2: { eapply Hquiet. destruct w as [db log now conns out]. cbn [store] in *.
       unfold run, rate_user. rewrite Hguard. cbn [negb].
       rewrite bind_query. settle. rewrite Ht. reflexivity. }
  destruct (negb (Transaction.seller_id t =? User.id u)
            && negb (Transaction.buyer_id t =? User.id u)) eqn:Hin.
  { eapply Hquiet. destruct w as [db log now conns out]. cbn [store] in *.
    unfold run, rate_user. rewrite Hguard. cbn [negb].
    rewrite bind_query. settle. rewrite Ht, Hin. reflexivity. }
  destruct (RatingCreate.rated_user_id data
            =? (if Transaction.seller_id t =? User.id u
                then Transaction.buyer_id t else Transaction.seller_id t)) eqn:Hother.
  2: { eapply Hquiet. destruct w as [db log now conns out]. cbn [store] in *.
       unfold run, rate_user. rewrite Hguard. cbn [negb].
       rewrite bind_query. settle. rewrite Ht, Hin, Hother. reflexivity. }
  destruct (find_rating transaction_id (User.id u) (store w)) as [r0|] eqn:Hfind.
  - assert (Hrange : 1 <= RatingCreate.rating data <= 5).
    { apply andb_prop in Hguard. destruct Hguard as [H1 H2].
      apply Z.leb_le in H1, H2. lia. }
    assert (Hparty : Transaction.seller_id t = User.id u
                     \/ Transaction.buyer_id t = User.id u).
    { destruct (Z.eqb_spec (Transaction.seller_id t) (User.id u)); [left; assumption|].
      destruct (Z.eqb_spec (Transaction.buyer_id t) (User.id u)); [right; assumption|].
      discriminate. }
    apply Z.eqb_eq in Hother.
    destruct (rate_user_updates w transaction_id data u t r0 Hrange Ht Hparty Hother Hfind)
      as (r1 & w' & Hrun & Hr1 & Hstore & _).
    rewrite Hrun. cbn [snd]. rewrite Hstore.
    apply find_some in Hfind. destruct Hfind as [Hr0 _].
    apply (db_sound_update_rating r0); [apply Hok|exact Hr0| | |exact Hdb];
      rewrite Hr1; reflexivity.
  - rewrite (rate_user_new_store w transaction_id data u t Hguard Ht Hin Hother Hfind).
    apply db_sound_insert_rating; [exact Hfind|exact Hdb].
Qed.

(** ** Every step keeps the database sound *)

Lemma step_db_sound w w' : step w w' -> db_ok (store w) -> db_sound (store w) ->
  db_sound (store w').
Proof.
  intros Hstep Hok Hw. destruct Hstep as [request u w _|w w' Hel].
  - assert (Hkeys : NoDup (map Conversation.id (conversations (store w)))) by apply Hw.
    destruct request; cbn.
    + apply create_conversation_sound. exact Hw.
    + apply (upholds_handler (conversations (store w))); [reflexivity| |exact Hw].
      apply upholds_create_message. exact Hkeys.
    + apply (upholds_handler (conversations (store w))); [reflexivity| |exact Hw].
      apply upholds_archive_conversation. exact Hkeys.
    + apply (upholds_handler (conversations (store w))); [reflexivity| |exact Hw].
      apply upholds_unarchive_conversation. exact Hkeys.
    + apply (upholds_handler (conversations (store w))); [reflexivity| |exact Hw].
      apply upholds_delete_conversation.
    + apply (upholds_handler (conversations (store w))); [reflexivity| |exact Hw].
      apply upholds_report_conversation. exact Hkeys.
    + apply (upholds_handler (conversations (store w))); [reflexivity| |exact Hw].
      apply upholds_continue_conversation. exact Hkeys.
    + apply (upholds_handler (conversations (store w))); [reflexivity| |exact Hw].
      apply upholds_send_purchase_offer. exact Hkeys.
    + apply (upholds_handler (conversations (store w))); [reflexivity| |exact Hw].
      apply upholds_respond_to_offer. exact Hkeys.
    + apply rate_user_sound; assumption.
  - destruct Hel as (Hc & Ht & Hr & Hcs & Hts & Hrs).
    unfold db_sound. rewrite Hc, Ht, Hr, Hcs. exact Hw.
Qed.

Lemma reachable_db_sound w : reachable w -> db_sound (store w).
Proof.
  induction 1 as [|w w' Hreach IH Hstep].
  - repeat split; cbn; constructor.
  - eapply step_db_sound; [eassumption|apply reachable_db_ok; assumption|assumption].
Qed.

(** ** One conversation per pair, from either side *)

Lemma same_pair db a b c1 c2 :
  db_sound db ->
  In c1 (conversations db) -> In c2 (conversations db) ->
  between a b c1 = true -> between a b c2 = true ->
  c1 = c2.
Proof.
  intros (_ & _ & _ & Hpairs & _) H1 H2 Hb1 Hb2.
  apply (NoDup_map_eq pair_key (conversations db)); [assumption..|].
  unfold between in Hb1, Hb2. unfold pair_key.
  destruct (Z.eqb_spec (Conversation.user1_id c1) a),
           (Z.eqb_spec (Conversation.user2_id c1) b),
           (Z.eqb_spec (Conversation.user1_id c1) b),
           (Z.eqb_spec (Conversation.user2_id c1) a);
    cbn in Hb1; try discriminate;
    destruct (Z.eqb_spec (Conversation.user1_id c2) a),
             (Z.eqb_spec (Conversation.user2_id c2) b),
             (Z.eqb_spec (Conversation.user1_id c2) b),
             (Z.eqb_spec (Conversation.user2_id c2) a);
    cbn in Hb2; try discriminate; f_equal; lia.
Qed.

(** C10: in a reachable state, for two distinct existing users A and B,
    creating the conversation as A with B and then as B with A - each about
    no item or about an item that exists - returns the same conversation id
    both times.  That id is the key of a stored row between A and B, the
    only row between them; the second call finds the row of the first and
    adds none. *)
Theorem create_conversation_is_symmetric
    (w : World) (user_a user_b : User.t) (item_a item_b : option Z) :
  reachable w ->
  User.id user_a <> User.id user_b ->
  get_user (User.id user_a) (store w) = Some user_a ->
  get_user (User.id user_b) (store w) = Some user_b ->
  references_item item_a (store w) = true ->
  references_item item_b (store w) = true ->
  let first :=
    run (create_conversation (ConversationCreate.Build (User.id user_b) item_a) user_a) w in
  let second :=
    run (create_conversation (ConversationCreate.Build (User.id user_a) item_b) user_b)
        (snd first) in
  exists r1 r2 row1 row2,
    fst first = inr r1
    /\ fst second = inr r2
    /\ ConversationResponse.id r1 = ConversationResponse.id r2
    /\ is_Some (ConversationResponse.id r1)
    /\ find_conversation_between (User.id user_a) (User.id user_b) (store (snd first))
       = Some row1
    /\ Conversation.id row1 = ConversationResponse.id r1
    /\ find_conversation_between (User.id user_b) (User.id user_a) (store (snd second))
       = Some row2
    /\ Conversation.id row2 = ConversationResponse.id r2
    /\ (forall c, In c (conversations (store (snd second))) ->
                  between (User.id user_a) (User.id user_b) c = true -> c = row2)
    /\ length (conversations (store (snd second)))
       = length (conversations (store (snd first))).
Proof.
  intros Hreach Hne Ha Hb Hitem_a Hitem_b first second.
  assert (Hreach1 : reachable (snd first)).
  { apply (reachable_step w); [exact Hreach|].
    apply (step_request (CreateConversation (ConversationCreate.Build (User.id user_b) item_a))
             user_a w Ha). }
  destruct (create_conversation_returns w (ConversationCreate.Build (User.id user_b) item_a)
              user_a user_b (reachable_db_ok w Hreach) Hne Hb Hitem_a)
    as (r1 & w1 & row1 & Hrun1 & Hid1 & Hfind1 & Husers1 & Hitems1 & _).
  cbn [ConversationCreate.user2_id ConversationCreate.item_id] in *.
  assert (Hw1 : snd first = w1) by (subst first; rewrite Hrun1; reflexivity).
  rewrite Hw1 in Hreach1.
  assert (Ha1 : get_user (User.id user_a) (store w1) = Some user_a).
  { unfold get_user in *. rewrite Husers1. exact Ha. }
  assert (Hitem_b1 : references_item item_b (store w1) = true).
  { unfold references_item in *. rewrite Hitems1. exact Hitem_b. }
  assert (Hreach2 : reachable (snd second)).
  { apply (reachable_step w1); [exact Hreach1|]. subst second. rewrite Hw1.
    apply (step_request (CreateConversation (ConversationCreate.Build (User.id user_a) item_b))
             user_b w1).
    unfold get_user in *. rewrite Husers1. exact Hb. }
  destruct (create_conversation_returns w1 (ConversationCreate.Build (User.id user_a) item_b)
              user_b user_a (reachable_db_ok w1 Hreach1) (not_eq_sym Hne) Ha1 Hitem_b1)
    as (r2 & w2 & row2 & Hrun2 & Hid2 & Hfind2 & _ & _ & Hsame).
  cbn [ConversationCreate.user2_id ConversationCreate.item_id] in *.
  assert (Hfind1' : find_conversation_between (User.id user_b) (User.id user_a) (store w1)
                    = Some row1).
  { unfold find_conversation_between in *. rewrite <- Hfind1.
    apply find_pointwise. intros c. apply between_sym. }
  rewrite Hfind1' in Hsame. destruct Hsame as [Hrow Hlen].
  assert (Hw2 : snd second = w2) by (subst second; rewrite Hw1, Hrun2; reflexivity).
  rewrite Hw2 in Hreach2.
  exists r1, r2, row1, row2.
  subst second. rewrite Hw1, Hrun2. subst first. rewrite Hrun1. cbn [fst snd].
  split; [reflexivity|]. split; [reflexivity|].
  split; [congruence|].
  split.
  { rewrite Hid1.
    destruct (reachable_db_ok w1 Hreach1) as (_ & _ & _ & Hkeyed).
    rewrite Forall_forall in Hkeyed. apply Hkeyed.
    apply list_elem_of_In. apply (find_between_In _ _ _ _ Hfind1). }
  split; [exact Hfind1|]. split; [symmetry; exact Hid1|].
  split; [exact Hfind2|]. split; [symmetry; exact Hid2|].
  split; [|exact Hlen].
  intros c Hc Hbetween.
  destruct (find_between_In _ _ _ _ Hfind2) as [Hin2 Hb2].
  rewrite between_sym in Hb2.
  exact (same_pair (store w2) _ _ c row2 (reachable_db_sound w2 Hreach2) Hc Hin2 Hbetween Hb2).
Qed.

Lemma create_conversation_is_symmetric_witness :
  let first :=
    run (create_conversation (ConversationCreate.Build 2 (Some 10)) Scenario.alice)
        Scenario.registered in
  let second :=
    run (create_conversation (ConversationCreate.Build 1 (Some 11)) Scenario.bob)
        (snd first) in
  exists r1 r2 row1 row2,
    fst first = inr r1
    /\ fst second = inr r2
    /\ ConversationResponse.id r1 = ConversationResponse.id r2
    /\ is_Some (ConversationResponse.id r1)
    /\ find_conversation_between 1 2 (store (snd first)) = Some row1
    /\ Conversation.id row1 = ConversationResponse.id r1
    /\ find_conversation_between 2 1 (store (snd second)) = Some row2
    /\ Conversation.id row2 = ConversationResponse.id r2
    /\ (forall c, In c (conversations (store (snd second))) ->
                  between 1 2 c = true -> c = row2)
    /\ length (conversations (store (snd second)))
       = length (conversations (store (snd first))).
Proof.
  refine (create_conversation_is_symmetric Scenario.registered Scenario.alice Scenario.bob
            (Some 10) (Some 11) registered_reachable _ _ _ _ _).
  - cbn. lia.
  - reflexivity.
  - reflexivity.
  - reflexivity.
  - reflexivity.
Defined.

(** The first contact names an item nobody listed: nothing is created, and
    the conversation the other side then opens is the first for the pair. *)
Example contact_about_an_item_that_is_not_there :
  let first :=
    run (create_conversation (ConversationCreate.Build 2 (Some 99)) Scenario.alice)
        Scenario.registered in
  let second :=
    run (create_conversation (ConversationCreate.Build 1 None) Scenario.bob) (snd first) in
  first = (inl (Unhandled "IntegrityError: violates foreign key constraint"),
           Scenario.registered)
  /\ option_map ConversationResponse.id (match fst second with inr r => Some r | inl _ => None end)
     = Some (Some 1)
  /\ length (conversations (store (snd second))) = 1%nat.
Proof. vm_compute. repeat split. Qed.

(** ** What holds in every reachable state *)

(** X20: in every reachable state a conversation is between two different
    users, and there is at most one conversation per unordered pair: two
    rows between the same two users are the same row. *)
Theorem one_conversation_per_pair_of_users (w : World) :
  reachable w ->
  (forall c, In c (conversations (store w)) ->
             Conversation.user1_id c <> Conversation.user2_id c)
  /\ (forall c1 c2,
        In c1 (conversations (store w)) -> In c2 (conversations (store w)) ->
        between (Conversation.user1_id c1) (Conversation.user2_id c1) c2 = true ->
        c1 = c2).
Proof.
  intros Hreach.
  destruct (reachable_db_sound w Hreach) as (Hok & _ & _ & Hpairs & _).
  split.
  - intros c Hc. rewrite List.Forall_forall in Hok. apply (Hok c Hc).
  - intros c1 c2 H1 H2 Hb.
    apply (NoDup_map_eq pair_key (conversations (store w))); [assumption..|].
    unfold between in Hb. unfold pair_key.
    destruct (Z.eqb_spec (Conversation.user1_id c2) (Conversation.user1_id c1)),
             (Z.eqb_spec (Conversation.user2_id c2) (Conversation.user2_id c1)),
             (Z.eqb_spec (Conversation.user1_id c2) (Conversation.user2_id c1)),
             (Z.eqb_spec (Conversation.user2_id c2) (Conversation.user1_id c1));
      cbn in Hb; try discriminate; f_equal; lia.
Qed.

(** X21: in every reachable state there is at most one rating per
    transaction and rater. *)
Theorem one_rating_per_transaction_and_rater (w : World) (r1 r2 : Rating.t) :
  reachable w ->
  In r1 (ratings (store w)) -> In r2 (ratings (store w)) ->
  Rating.transaction_id r1 = Rating.transaction_id r2 ->
  Rating.rater_id r1 = Rating.rater_id r2 ->
  r1 = r2.
Proof.
  intros Hreach H1 H2 Ht Hr.
  destruct (reachable_db_sound w Hreach) as (_ & _ & _ & _ & Hratings & _).
  apply (NoDup_map_eq rating_key (ratings (store w))); [assumption..|].
  unfold rating_key. rewrite Ht, Hr. reflexivity.
Qed.

(** X22: in every reachable state a pending offer is authored by one of the
    two participants of its conversation and its price in cents is not
    negative. *)
Theorem pending_offer_is_from_a_participant (w : World) (c : Conversation.t) :
  reachable w ->
  In c (conversations (store w)) ->
  (forall x, Conversation.pending_offer_from_user_id c = Some x ->
             x = Conversation.user1_id c \/ x = Conversation.user2_id c)
  /\ (forall p, Conversation.pending_offer_price c = Some p -> 0 <= p).
Proof.
  intros Hreach Hc.
  destruct (reachable_db_sound w Hreach) as (Hok & _).
  rewrite List.Forall_forall in Hok. destruct (Hok c Hc) as (_ & H2 & H3).
  split; assumption.
Qed.

(** X23: in every reachable state the seller and the buyer of a transaction
    are different users. *)
Theorem nobody_buys_from_themselves (w : World) (t : Transaction.t) :
  reachable w ->
  In t (transactions (store w)) ->
  Transaction.seller_id t <> Transaction.buyer_id t.
Proof.
  intros Hreach Ht.
  destruct (reachable_db_sound w Hreach) as (_ & _ & _ & _ & _ & Hsales).
  rewrite List.Forall_forall in Hsales. apply (Hsales t Ht).
Qed.

(** X24: in every reachable state no conversation row links a transaction
    ([transaction_id] is NULL throughout, sold or not), and a sold
    conversation holds no pending price. *)
Theorem conversations_never_link_their_transaction (w : World) (c : Conversation.t) :
  reachable w ->
  In c (conversations (store w)) ->
  Conversation.transaction_id c = None
  /\ (Conversation.is_sold c = true -> Conversation.pending_offer_price c = None).
Proof.
  intros Hreach Hc.
  destruct (reachable_db_ok w Hreach) as (Hok & _).
  rewrite List.Forall_forall in Hok. destruct (Hok c Hc) as (Hsold & Hlink).
  split; assumption.
Qed.

(** ** Answers to an offer that are not one *)

Lemma json_is_action rd a :
  json_is (json_get rd "action") a = true -> action_is rd a.
Proof.
  unfold json_get, action_is.
  destruct (rd !! "action") as [[| | |s|]|]; cbn; try discriminate.
  intros H. apply String.eqb_eq in H. congruence.
Qed.

Lemma not_action rd a : ~ action_is rd a -> json_is (json_get rd "action") a = false.
Proof.
  intros H. destruct (json_is (json_get rd "action") a) eqn:E; [|reflexivity].
  exfalso. apply H, json_is_action, E.
Qed.

(** X25: on a conversation with a pending offer, an answer whose action is
    missing or is none of accept, reject, counter is refused with 400, and
    an answer about an item that no longer exists with 404 - whatever the
    action.  In both cases nothing is written: the offer stays pending. *)
Theorem respond_refuses_other_actions
    (w : World) (conversation_id : Z) (response_data : gmap string json)
    (current_user : User.t) (c : Conversation.t) :
  get_conversation conversation_id (store w) = Some c ->
  participant current_user c ->
  has_pending_offer c = true ->
  let answer := run (respond_to_offer conversation_id response_data current_user) w in
  (get_item (Conversation.item_id c) (store w) = None ->
   answer = (inl (HTTPException HTTP_404_NOT_FOUND "Item not found"), w))
  /\ (get_item (Conversation.item_id c) (store w) <> None ->
      ~ action_is response_data "accept" ->
      ~ action_is response_data "reject" ->
      ~ action_is response_data "counter" ->
      answer = (inl (HTTPException HTTP_400_BAD_REQUEST
                       "Invalid action. Must be 'accept', 'reject', or 'counter'"), w)).
Proof.
  intros Hc Hp Hpending answer. subst answer.
  destruct w as [db log now conns out]. cbn [store] in *.
  unfold has_pending_offer in Hpending.
  split.
  - intros Hnone. unfold run, respond_to_offer.
    rewrite (bind_load_conversation _ _ _ c) by assumption.
    rewrite <- negb_andb, Hpending. cbn [negb].
    rewrite bind_query. settle. rewrite Hnone. reflexivity.
  - intros Hsome Ha Hr Hk. unfold run, respond_to_offer.
    rewrite (bind_load_conversation _ _ _ c) by assumption.
    rewrite <- negb_andb, Hpending. cbn [negb].
    rewrite bind_query. settle.
    destruct (get_item (Conversation.item_id c) db) as [item|]; [|congruence].
    rewrite (not_action _ _ Ha), (not_action _ _ Hr), (not_action _ _ Hk). reflexivity.
Qed.

(** X26: the counter price is tested for truth and for [<= 0] before it is
    known to be a number.  A missing, null, false, zero or empty value is
    refused with 400; a non-empty string, array or object makes the
    comparison raise, and the request fails with a server error.  Nothing
    is written either way. *)
Theorem counter_price_must_be_a_number
    (w : World) (conversation_id : Z) (response_data : gmap string json)
    (current_user : User.t) (c : Conversation.t) (item : Item.t) :
  get_conversation conversation_id (store w) = Some c ->
  participant current_user c ->
  has_pending_offer c = true ->
  get_item (Conversation.item_id c) (store w) = Some item ->
  action_is response_data "counter" ->
  let price := json_get response_data "counter_price" in
  let answer := run (respond_to_offer conversation_id response_data current_user) w in
  (json_truthy price = false ->
   answer = (inl (HTTPException HTTP_400_BAD_REQUEST "Invalid counter offer price"), w))
  /\ (json_truthy price = true -> json_number price = None ->
      answer = (inl (Unhandled "TypeError: '<=' not supported"), w)
      /\ response_status (Unhandled "TypeError: '<=' not supported")
         = HTTP_500_INTERNAL_SERVER_ERROR).
Proof.
  intros Hc Hp Hpending Hitem Haction price answer. subst answer.
  destruct w as [db log now conns out]. cbn [store] in *.
  split.
  - intros Hfalsy.
    enter_respond c Hpending Hitem Haction.
    unfold counter_offer. fold price. rewrite Hfalsy. cbn [negb].
    rewrite bind_ret. reflexivity.
  - intros Htruthy Hnumber. split; [|reflexivity].
    enter_respond c Hpending Hitem Haction.
    unfold counter_offer. fold price. rewrite Htruthy. cbn [negb].
    unfold json_le_zero. rewrite Hnumber. cbn [lift].
    rewrite bind_raise. reflexivity.
Qed.

(** ** Pushes *)

(** X27: a push never fails the request that makes it.
    [send_notification_via_websocket] delivers the notification when the
    user has a live socket and does nothing otherwise;
    [broadcast_conversation_update] always returns, leaves the database,
    the commit log, the registry and the session alone, and delivers to the
    two participants only. *)
Theorem pushes_never_fail (s : Ctx) :
  (forall user_id notification_data,
      send_notification_via_websocket user_id notification_data s
      = (inr tt,
         deliver (pushed (active_connections (world s)) user_id
                    (ev_notification notification_data)) s))
  /\ (forall conversation,
        exists s' events,
          broadcast_conversation_update conversation s = (inr tt, s')
          /\ store (world s') = store (world s)
          /\ commit_log (world s') = commit_log (world s)
          /\ active_connections (world s') = active_connections (world s)
          /\ session s' = session s
          /\ delivered (world s') = delivered (world s) ++ events
          /\ Forall (fun e => fst e = Conversation.user1_id conversation
                              \/ fst e = Conversation.user2_id conversation) events).
Proof.
  split.
  - intros user_id n. exact (push_eq user_id (ev_notification n) s).
  - intros conversation.
    unfold broadcast_conversation_update, try_except.
    destruct (get_transaction (Conversation.transaction_id conversation) (work (session s)))
      as [t|] eqn:Et;
      [destruct (Transaction.id t) as [i|] eqn:Ei;
       [destruct (Transaction.item_id t) as [j|] eqn:Ej|]|].
    all: destruct (truthy (Conversation.item_id conversation)); cbv iota.
    all: destruct (truthy (Conversation.transaction_id conversation)); cbv iota.
    all: eexists; eexists; split;
      [ repeat first
          [ rewrite bind_assoc | rewrite bind_query | rewrite bind_ret | rewrite bind_utcnow
          | rewrite bind_push | rewrite bind_raise | rewrite Et
          | progress (unfold serialize_transaction at 1; rewrite ?Ei, ?Ej)
          | progress cbn [for_each] ];
        unfold ret; cbv beta iota; reflexivity
      | ].
    all: do 4 (split; [reflexivity|]).
    all: cbn [world delivered deliver tick].
    all: first
      [ split; [rewrite <- app_assoc; reflexivity|];
        apply Forall_app; split; apply Forall_pushed; cbn; auto
      | split; [symmetry; apply app_nil_r|constructor] ].
Qed.

(** ** Contacting the same user again *)

(** X28: when the pair already has a conversation and the request names no
    item (none, or the falsy id 0) or the item the conversation is already
    about, [create_conversation] writes nothing at all and answers with the
    existing conversation, sold and ended flags included. *)
Theorem contact_without_a_new_item_writes_nothing
    (w : World) (data : ConversationCreate.t) (current_user user2 : User.t)
    (existing : Conversation.t) :
  User.id current_user <> ConversationCreate.user2_id data ->
  get_user (ConversationCreate.user2_id data) (store w) = Some user2 ->
  find_conversation_between (User.id current_user) (ConversationCreate.user2_id data)
    (store w) = Some existing ->
  truthy (ConversationCreate.item_id data) = false
  \/ ConversationCreate.item_id data = Conversation.item_id existing ->
  truthy (Conversation.transaction_id existing) = false ->
  exists resp : ConversationResponse.t,
    run (create_conversation data current_user) w = (inr resp, w)
    /\ ConversationResponse.id resp = Conversation.id existing
    /\ ConversationResponse.item_id resp = Conversation.item_id existing
    /\ ConversationResponse.is_sold resp = Conversation.is_sold existing
    /\ ConversationResponse.is_ended resp = Conversation.is_ended existing
    /\ ConversationResponse.status resp = "active".
Proof.
  intros Hne Huser Hfound Hitem Hlink.
  assert (Hcond : truthy (ConversationCreate.item_id data)
                  && negb (bool_decide (Conversation.item_id existing
                                        = ConversationCreate.item_id data)) = false).
  { destruct Hitem as [H|H]; [rewrite H; reflexivity|].
    rewrite bool_decide_eq_true_2 by congruence. apply andb_false_r. }
  destruct w as [db log now conns out]. cbn [store clock] in *.
  unfold run, create_conversation.
  rewrite (proj2 (Z.eqb_neq _ _) Hne).
  rewrite bind_query. settle. rewrite Huser.
  rewrite bind_query. settle. rewrite Hfound, Hcond.
  rewrite bind_ret.
  unfold conversation_response. cbv zeta.
  rewrite bind_query, bind_query, bind_query.
  destruct (last_message (Conversation.id existing) _) as [last|].
  all: repeat (rewrite bind_assoc || rewrite bind_query || rewrite bind_ret).
  all: rewrite Hlink.
  all: repeat (rewrite bind_assoc || rewrite bind_query || rewrite bind_ret).
  all: eexists; split; [unfold ret; reflexivity|].
  all: repeat split.
Qed.

(** ** The statements at work: instances on the run of the service *)

Lemma stranger_is_forbidden_witness :
  let w := Scenario.opened in
  let conversation_id := 1 in
  let current_user := Cases.carol in
  let c := (Cases.thread Scenario.opened) in
  ((get_conversation conversation_id (store w) = Some c)
   /\ (~ participant current_user c))
  /\ (let forbidden {A} (m : M A) (detail : string) :=
    run m w = (inl (HTTPException HTTP_403_FORBIDDEN detail), w) in
  forbidden (get_messages conversation_id current_user)
    "Not authorized to view this conversation"
  /\ (forall content,
        valid_message (MessageCreate.Build conversation_id content) = true ->
        forbidden (create_message (MessageCreate.Build conversation_id content) current_user)
          "Not authorized to send messages in this conversation")
  /\ forbidden (archive_conversation conversation_id current_user)
       "Not authorized to archive this conversation"
  /\ forbidden (unarchive_conversation conversation_id current_user)
       "Not authorized to unarchive this conversation"
  /\ forbidden (delete_conversation conversation_id current_user)
       "Not authorized to delete this conversation"
  /\ (forall reason,
        forbidden (report_conversation conversation_id reason current_user)
          "Not authorized to report this conversation")
  /\ forbidden (continue_conversation conversation_id current_user)
       "Not authorized to continue this conversation"
  /\ (forall data, (0 <? TransactionCreate.sale_price data)%float = true ->
        forbidden (send_purchase_offer conversation_id data current_user)
          "Not authorized to send offers in this conversation")
  /\ (forall response_data,
        forbidden (respond_to_offer conversation_id response_data current_user)
          "Not authorized to respond to offers in this conversation")).
Proof.
  intros w conversation_id current_user c.
  assert (H1 : get_conversation conversation_id (store w) = Some c)
    by (vm_compute; reflexivity).
  assert (H2 : ~ participant current_user c)
    by (vm_compute; intros [H|H]; discriminate H).
  split; [exact (conj H1 H2)|].
  exact (stranger_is_forbidden w conversation_id current_user c H1 H2).
Defined.

Lemma unknown_conversation_is_not_found_witness :
  let w := Scenario.opened in
  let conversation_id := 7 in
  let current_user := Scenario.alice in
  ((get_conversation conversation_id (store w) = None))
  /\ (let not_found {A} (m : M A) :=
    run m w = (inl (HTTPException HTTP_404_NOT_FOUND "Conversation not found"), w) in
  not_found (get_messages conversation_id current_user)
  /\ (forall content,
        valid_message (MessageCreate.Build conversation_id content) = true ->
        not_found (create_message (MessageCreate.Build conversation_id content) current_user))
  /\ not_found (archive_conversation conversation_id current_user)
  /\ not_found (unarchive_conversation conversation_id current_user)
  /\ not_found (delete_conversation conversation_id current_user)
  /\ (forall reason, not_found (report_conversation conversation_id reason current_user))
  /\ not_found (continue_conversation conversation_id current_user)
  /\ (forall data, (0 <? TransactionCreate.sale_price data)%float = true ->
        not_found (send_purchase_offer conversation_id data current_user))
  /\ (forall response_data,
        not_found (respond_to_offer conversation_id response_data current_user))).
Proof.
  intros w conversation_id current_user.
  assert (H1 : get_conversation conversation_id (store w) = None)
    by (vm_compute; reflexivity).
  split; [exact H1|].
  exact (unknown_conversation_is_not_found w conversation_id current_user H1).
Defined.

Lemma first_contact_inserts_one_conversation_witness :
  let w := Scenario.registered in
  let data := (ConversationCreate.Build 1 (Some 10)) in
  let current_user := Scenario.bob in
  let user2 := Scenario.alice in
  ((User.id current_user <> ConversationCreate.user2_id data)
   /\ (get_user (ConversationCreate.user2_id data) (store w) = Some user2)
   /\ (find_conversation_between (User.id current_user) (ConversationCreate.user2_id data)
    (store w) = None))
  /\ (let row :=
    Conversation.set_id (Some (conversations_seq (store w)))
      (new_conversation (User.id current_user) (ConversationCreate.user2_id data)
         (ConversationCreate.item_id data) (User.username current_user)) in
  let out := run (create_conversation data current_user) w in
  (references_item (ConversationCreate.item_id data) (store w) = true ->
   exists resp w',
     out = (inr resp, w')
     /\ ConversationResponse.id resp = Some (conversations_seq (store w))
     /\ ConversationResponse.item_id resp = ConversationCreate.item_id data
     /\ conversations (store w') = conversations (store w) ++ [row]
     /\ conversations_seq (store w') = conversations_seq (store w) + 1
     /\ find_conversation_between (User.id current_user) (ConversationCreate.user2_id data)
          (store w') = Some row
     /\ find_conversation_between (ConversationCreate.user2_id data) (User.id current_user)
          (store w') = Some row
     /\ messages (store w') = messages (store w)
     /\ notifications (store w') = notifications (store w)
     /\ commit_log w' = commit_log w ++ [store w']
     /\ delivered w' = delivered w)
  /\ (references_item (ConversationCreate.item_id data) (store w) = false ->
      consistent (store w) = true ->
      exists exception, out = (inl (Unhandled exception), w))).
Proof.
  intros w data current_user user2.
  assert (H1 : User.id current_user <> ConversationCreate.user2_id data)
    by (discriminate).
  assert (H2 : get_user (ConversationCreate.user2_id data) (store w) = Some user2)
    by (vm_compute; reflexivity).
  assert (H3 : find_conversation_between (User.id current_user) (ConversationCreate.user2_id data)
    (store w) = None)
    by (vm_compute; reflexivity).
  split; [exact (conj H1 (conj H2 H3))|].
  exact (first_contact_inserts_one_conversation w data current_user user2 H1 H2 H3).
Defined.


Lemma offer_is_refused_without_item_or_after_sale_witness :
  let w := Scenario.sold in
  let conversation_id := 1 in
  let data := (TransactionCreate.Build 40) in
  let current_user := Scenario.bob in
  let c := (Cases.thread Scenario.sold) in
  ((get_conversation conversation_id (store w) = Some c)
   /\ (participant current_user c)
   /\ ((0 <? TransactionCreate.sale_price data)%float = true))
  /\ (let answer := run (send_purchase_offer conversation_id data current_user) w in
  (truthy (Conversation.item_id c) = false ->
   answer = (inl (HTTPException HTTP_400_BAD_REQUEST
                    "Conversation is not associated with an item"), w))
  /\ (truthy (Conversation.item_id c) = true ->
      get_item (Conversation.item_id c) (store w) = None ->
      answer = (inl (HTTPException HTTP_404_NOT_FOUND "Item not found"), w))
  /\ (truthy (Conversation.item_id c) = true ->
      get_item (Conversation.item_id c) (store w) <> None ->
      Conversation.is_sold c = true ->
      answer = (inl (HTTPException HTTP_400_BAD_REQUEST
                       "Item already sold in this conversation"), w))).
Proof.
  intros w conversation_id data current_user c.
  assert (H1 : get_conversation conversation_id (store w) = Some c)
    by (vm_compute; reflexivity).
  assert (H2 : participant current_user c)
    by (left; reflexivity).
  assert (H3 : (0 <? TransactionCreate.sale_price data)%float = true)
    by (vm_compute; reflexivity).
  split; [exact (conj H1 (conj H2 H3))|].
  exact (offer_is_refused_without_item_or_after_sale w conversation_id data current_user c H1 H2 H3).
Defined.

Lemma offer_is_recorded_and_told_to_the_other_side_witness :
  let w := Scenario.opened in
  let conversation_id := 1 in
  let data := (TransactionCreate.Build 50) in
  let current_user := Scenario.bob in
  let c := (Cases.thread Scenario.opened) in
  let item := Scenario.bike in
  ((get_conversation conversation_id (store w) = Some c)
   /\ (participant current_user c)
   /\ ((TransactionCreate.sale_price data <=? 0)%float = false)
   /\ (truthy (Conversation.item_id c) = true)
   /\ (get_item (Conversation.item_id c) (store w) = Some item)
   /\ (Conversation.is_sold c = false))
  /\ (let out := run (send_purchase_offer conversation_id data current_user) w in
  match Py.int (Py.times100 (Py.PyFloat (TransactionCreate.sale_price data))) with
  | inr cents =>
      if fits_integer (Some cents)
      then
        exists (w' : World) (c' : Conversation.t) (m : Message.t) (events : list (Z * Event)),
          out = (inr (Py.PyFloat (TransactionCreate.sale_price data)), w')
          /\ get_conversation conversation_id (store w') = Some c'
          /\ Conversation.pending_offer_price c' = Some cents
          /\ Conversation.pending_offer_from_user_id c' = Some (User.id current_user)
          /\ Conversation.pending_offer_at c' = Some (clock w)
          /\ Conversation.is_sold c' = false
          /\ Conversation.item_id c' = Conversation.item_id c
          /\ messages (store w') = messages (store w) ++ [m]
          /\ Message.sender_id m = User.id current_user
          /\ Message.conversation_id m = conversation_id
          /\ items (store w') = items (store w)
          /\ transactions (store w') = transactions (store w)
          /\ delivered w' = delivered w ++ events
          /\ (length events <= 2)%nat
          /\ Forall (fun e => fst e = counterpart c (User.id current_user)
                              /\ match snd e with
                                 | ev_purchase_offer _ | ev_message _ => True
                                 | _ => False
                                 end) events
      else consistent (store w) = true -> server_error out w
  | inl _ => server_error out w
  end).
Proof.
  intros w conversation_id data current_user c item.
  assert (H1 : get_conversation conversation_id (store w) = Some c)
    by (vm_compute; reflexivity).
  assert (H2 : participant current_user c)
    by (left; reflexivity).
  assert (H3 : (TransactionCreate.sale_price data <=? 0)%float = false)
    by (vm_compute; reflexivity).
  assert (H4 : truthy (Conversation.item_id c) = true)
    by (vm_compute; reflexivity).
  assert (H5 : get_item (Conversation.item_id c) (store w) = Some item)
    by (vm_compute; reflexivity).
  assert (H6 : Conversation.is_sold c = false)
    by (vm_compute; reflexivity).
  split; [exact (conj H1 (conj H2 (conj H3 (conj H4 (conj H5 H6)))))|].
  exact (offer_is_recorded_and_told_to_the_other_side w conversation_id data current_user c item H1 H2 H3 H4 H5 H6).
Defined.

Lemma sub_cent_offer_cannot_be_answered_witness :
  let w := Scenario.opened in
  let conversation_id := 1 in
  let data := (TransactionCreate.Build 0.0078125) in
  let current_user := Scenario.bob in
  let responder := Scenario.alice in
  let c := (Cases.thread Scenario.opened) in
  let item := Scenario.bike in
  let response_data := Scenario.accept in
  ((get_conversation conversation_id (store w) = Some c)
   /\ (participant current_user c)
   /\ (participant responder c)
   /\ ((0 <? TransactionCreate.sale_price data)%float = true)
   /\ (truthy (Conversation.item_id c) = true)
   /\ (get_item (Conversation.item_id c) (store w) = Some item)
   /\ (Conversation.is_sold c = false)
   /\ (Py.int (Py.times100 (Py.PyFloat (TransactionCreate.sale_price data))) = inr 0))
  /\ (exists (w' : World) (c' : Conversation.t),
    run (send_purchase_offer conversation_id data current_user) w
    = (inr (Py.PyFloat (TransactionCreate.sale_price data)), w')
    /\ get_conversation conversation_id (store w') = Some c'
    /\ Conversation.pending_offer_price c' = Some 0
    /\ Conversation.pending_offer_from_user_id c' = Some (User.id current_user)
    /\ run (respond_to_offer conversation_id response_data responder) w'
       = (inl (HTTPException HTTP_400_BAD_REQUEST "No pending offer to respond to"), w')).
Proof.
  intros w conversation_id data current_user responder c item response_data.
  assert (H1 : get_conversation conversation_id (store w) = Some c)
    by (vm_compute; reflexivity).
  assert (H2 : participant current_user c)
    by (left; reflexivity).
  assert (H3 : participant responder c)
    by (right; reflexivity).
  assert (H4 : (0 <? TransactionCreate.sale_price data)%float = true)
    by (vm_compute; reflexivity).
  assert (H5 : truthy (Conversation.item_id c) = true)
    by (vm_compute; reflexivity).
  assert (H6 : get_item (Conversation.item_id c) (store w) = Some item)
    by (vm_compute; reflexivity).
  assert (H7 : Conversation.is_sold c = false)
    by (vm_compute; reflexivity).
  assert (H8 : Py.int (Py.times100 (Py.PyFloat (TransactionCreate.sale_price data))) = inr 0)
    by (vm_compute; reflexivity).
  split; [exact (conj H1 (conj H2 (conj H3 (conj H4 (conj H5 (conj H6 (conj H7 H8)))))))|].
  exact (sub_cent_offer_cannot_be_answered w conversation_id data current_user responder c item response_data H1 H2 H3 H4 H5 H6 H7 H8).
Defined.

Lemma continue_reopens_the_chat_not_the_sale_witness :
  let w := Scenario.sold in
  let conversation_id := 1 in
  let current_user := Scenario.bob in
  let c := (Cases.thread Scenario.sold) in
  ((get_conversation conversation_id (store w) = Some c)
   /\ (participant current_user c))
  /\ (exists (w' : World) (c' : Conversation.t),
    run (continue_conversation conversation_id current_user) w
    = (inr "Conversation can now continue", w')
    /\ get_conversation conversation_id (store w') = Some c'
    /\ Conversation.is_ended c' = false
    /\ Conversation.ended_at c' = None
    /\ Conversation.is_sold c' = Conversation.is_sold c
    /\ Conversation.sold_at c' = Conversation.sold_at c
    /\ Conversation.item_id c' = Conversation.item_id c
    /\ Conversation.pending_offer_price c' = Conversation.pending_offer_price c
    /\ Conversation.pending_offer_from_user_id c'
       = Conversation.pending_offer_from_user_id c
    /\ items (store w') = items (store w)
    /\ messages (store w') = messages (store w)
    /\ delivered w' = delivered w
    /\ (forall (data : TransactionCreate.t) (sender : User.t) (item : Item.t),
          Conversation.is_sold c = true ->
          participant sender c ->
          (0 <? TransactionCreate.sale_price data)%float = true ->
          truthy (Conversation.item_id c) = true ->
          get_item (Conversation.item_id c) (store w) = Some item ->
          run (send_purchase_offer conversation_id data sender) w'
          = (inl (HTTPException HTTP_400_BAD_REQUEST
                    "Item already sold in this conversation"), w'))).
Proof.
  intros w conversation_id current_user c.
  assert (H1 : get_conversation conversation_id (store w) = Some c)
    by (vm_compute; reflexivity).
  assert (H2 : participant current_user c)
    by (left; reflexivity).
  split; [exact (conj H1 H2)|].
  exact (continue_reopens_the_chat_not_the_sale w conversation_id current_user c H1 H2).
Defined.

Lemma archive_only_stamps_the_row_witness :
  let w := Scenario.opened in
  let conversation_id := 1 in
  let current_user := Scenario.alice in
  let c := (Cases.thread Scenario.opened) in
  ((get_conversation conversation_id (store w) = Some c)
   /\ (participant current_user c))
  /\ (exists (w' w'' : World),
    run (archive_conversation conversation_id current_user) w
    = (inr "Conversation archived", w')
    /\ store w'
       = update_conversation
           (Conversation.set_updated_by (Some (User.username current_user)) c) (store w)
    /\ get_conversation conversation_id (store w')
       = Some (Conversation.set_updated_by (Some (User.username current_user)) c)
    /\ delivered w' = delivered w
    /\ run (unarchive_conversation conversation_id current_user) w'
       = (inr "Conversation unarchived", w'')
    /\ store w'' = store w').
Proof.
  intros w conversation_id current_user c.
  assert (H1 : get_conversation conversation_id (store w) = Some c)
    by (vm_compute; reflexivity).
  assert (H2 : participant current_user c)
    by (right; reflexivity).
  split; [exact (conj H1 H2)|].
  exact (archive_only_stamps_the_row w conversation_id current_user c H1 H2).
Defined.


Lemma delete_removes_the_thread_and_keeps_the_sale_witness :
  let w := Scenario.sold in
  let conversation_id := 1 in
  let current_user := Scenario.alice in
  let c := (Cases.thread Scenario.sold) in
  ((get_conversation conversation_id (store w) = Some c)
   /\ (participant current_user c))
  /\ (exists w' : World,
    run (delete_conversation conversation_id current_user) w
    = (inr "Conversation deleted", w')
    /\ get_conversation conversation_id (store w') = None
    /\ messages (store w')
       = List.filter (fun m => negb (Message.conversation_id m =? conversation_id))
           (messages (store w))
    /\ map (Transaction.set_conversation_id None) (transactions (store w'))
       = map (Transaction.set_conversation_id None) (transactions (store w))
    /\ Forall (fun t => Transaction.conversation_id t <> Some conversation_id)
         (transactions (store w'))
    /\ Forall (fun n => Notification.related_conversation_id n <> Some conversation_id)
         (notifications (store w'))
    /\ length (notifications (store w')) = length (notifications (store w))
    /\ ratings (store w') = ratings (store w)
    /\ items (store w') = items (store w)
    /\ commit_log w' = commit_log w ++ [store w']
    /\ delivered w' = delivered w).
Proof.
  intros w conversation_id current_user c.
  assert (H1 : get_conversation conversation_id (store w) = Some c)
    by (vm_compute; reflexivity).
  assert (H2 : participant current_user c)
    by (right; reflexivity).
  split; [exact (conj H1 H2)|].
  exact (delete_removes_the_thread_and_keeps_the_sale w conversation_id current_user c H1 H2).
Defined.

Lemma rating_is_for_the_other_party_only_witness :
  let w := Scenario.sold in
  let transaction_id := 1 in
  let rating_data := (RatingCreate.Build 1 2 4 None) in
  let current_user := Scenario.bob in
  (((1 <= RatingCreate.rating rating_data <= 5)))
  /\ (let answer := run (rate_user transaction_id rating_data current_user) w in
  (get_transaction (Some transaction_id) (store w) = None ->
   answer = (inl (HTTPException HTTP_404_NOT_FOUND "Transaction not found"), w))
  /\ (forall t : Transaction.t,
        get_transaction (Some transaction_id) (store w) = Some t ->
        Transaction.seller_id t <> User.id current_user ->
        Transaction.buyer_id t <> User.id current_user ->
        answer = (inl (HTTPException HTTP_403_FORBIDDEN
                         "Not authorized to rate for this transaction"), w))
  /\ (forall t : Transaction.t,
        get_transaction (Some transaction_id) (store w) = Some t ->
        (Transaction.seller_id t = User.id current_user
         \/ Transaction.buyer_id t = User.id current_user) ->
        RatingCreate.rated_user_id rating_data
        <> (if Transaction.seller_id t =? User.id current_user
            then Transaction.buyer_id t else Transaction.seller_id t) ->
        answer = (inl (HTTPException HTTP_400_BAD_REQUEST
                         "Can only rate the other party in the transaction"), w))).
Proof.
  intros w transaction_id rating_data current_user.
  assert (H1 : (1 <= RatingCreate.rating rating_data <= 5))
    by (vm_compute; split; discriminate).
  split; [exact H1|].
  exact (rating_is_for_the_other_party_only w transaction_id rating_data current_user H1).
Defined.


Lemma reading_clears_the_readers_unread_count_witness :
  let w := Scenario.offered in
  let conversation_id := 1 in
  let current_user := Scenario.alice in
  let c := (Cases.thread Scenario.offered) in
  ((get_conversation conversation_id (store w) = Some c)
   /\ (participant current_user c))
  /\ (let w' := snd (run (get_messages conversation_id current_user) w) in
  unread_count (Some conversation_id) (User.id current_user) (store w') = 0%nat
  /\ (forall m : Message.t,
        In m (messages (store w)) ->
        Message.sender_id m = User.id current_user
        \/ Message.conversation_id m <> conversation_id ->
        In m (messages (store w')))
  /\ length (messages (store w')) = length (messages (store w))
  /\ elsewhere w w').
Proof.
  intros w conversation_id current_user c.
  assert (H1 : get_conversation conversation_id (store w) = Some c)
    by (vm_compute; reflexivity).
  assert (H2 : participant current_user c)
    by (right; reflexivity).
  split; [exact (conj H1 H2)|].
  exact (reading_clears_the_readers_unread_count w conversation_id current_user c H1 H2).
Defined.

Lemma reading_again_changes_nothing_witness :
  let w := Scenario.offered in
  let conversation_id := 1 in
  let current_user := Scenario.alice in
  let c := (Cases.thread Scenario.offered) in
  ((get_conversation conversation_id (store w) = Some c)
   /\ (participant current_user c))
  /\ (let w' := snd (run (get_messages conversation_id current_user) w) in
  exists result : list MessageResponse.t,
    run (get_messages conversation_id current_user) w' = (inr result, w')
    /\ Forall (fun r => MessageResponse.conversation_id r = conversation_id
                        /\ (MessageResponse.sender_id r <> User.id current_user
                            -> MessageResponse.is_read r = true)) result).
Proof.
  intros w conversation_id current_user c.
  assert (H1 : get_conversation conversation_id (store w) = Some c)
    by (vm_compute; reflexivity).
  assert (H2 : participant current_user c)
    by (right; reflexivity).
  split; [exact (conj H1 H2)|].
  exact (reading_again_changes_nothing w conversation_id current_user c H1 H2).
Defined.

Lemma read_receipt_is_an_unguarded_send_witness :
  let w := Cases.stale in
  let conversation_id := 1 in
  let current_user := Scenario.alice in
  let c := (Cases.thread Cases.stale) in
  let m := (Cases.first_message Cases.stale) in
  let n := (Cases.first_notification Cases.stale) in
  ((get_conversation conversation_id (store w) = Some c)
   /\ (participant current_user c)
   /\ (In m (messages (store w)))
   /\ (Message.conversation_id m = conversation_id)
   /\ (unread_by (User.id current_user) m = true)
   /\ (In n (notifications (store w)))
   /\ (unread_notification_of conversation_id (User.id current_user) n = true))
  /\ (let reader := User.id current_user in
  let marked :=
    mark_notifications_read conversation_id reader (clock w)
      (mark_messages_read conversation_id reader (clock w) (store w)) in
  let count :=
    length (List.filter (unread_notification_of conversation_id reader)
                        (notifications (store w))) in
  let answer := run (get_messages conversation_id current_user) w in
  store (snd answer) = marked
  /\ commit_log (snd answer) = commit_log w ++ [marked]
  /\ (0 < count)%nat
  /\ match active_connections w !! reader with
     | Some (Channel false) =>
         fst answer = inl (Unhandled "WebSocketDisconnect")
         /\ response_status (Unhandled "WebSocketDisconnect") = HTTP_500_INTERNAL_SERVER_ERROR
         /\ delivered (snd answer) = delivered w
     | Some (Channel true) =>
         (exists result, fst answer = inr result)
         /\ delivered (snd answer)
            = delivered w ++ [(reader, ev_notifications_read conversation_id count)]
     | None =>
         (exists result, fst answer = inr result)
         /\ delivered (snd answer) = delivered w
     end).
Proof.
  intros w conversation_id current_user c m n.
  assert (H1 : get_conversation conversation_id (store w) = Some c)
    by (vm_compute; reflexivity).
  assert (H2 : participant current_user c)
    by (right; reflexivity).
  assert (H3 : In m (messages (store w)))
    by (vm_compute; left; reflexivity).
  assert (H4 : Message.conversation_id m = conversation_id)
    by (vm_compute; reflexivity).
  assert (H5 : unread_by (User.id current_user) m = true)
    by (vm_compute; reflexivity).
  assert (H6 : In n (notifications (store w)))
    by (vm_compute; left; reflexivity).
  assert (H7 : unread_notification_of conversation_id (User.id current_user) n = true)
    by (vm_compute; reflexivity).
  split; [exact (conj H1 (conj H2 (conj H3 (conj H4 (conj H5 (conj H6 H7))))))|].
  exact (read_receipt_is_an_unguarded_send w conversation_id current_user c m n H1 H2 H3 H4 H5 H6 H7).
Defined.

Lemma one_conversation_per_pair_of_users_witness :
  let w := Scenario.sold in
  ((reachable w))
  /\ ((forall c, In c (conversations (store w)) ->
             Conversation.user1_id c <> Conversation.user2_id c)
  /\ (forall c1 c2,
        In c1 (conversations (store w)) -> In c2 (conversations (store w)) ->
        between (Conversation.user1_id c1) (Conversation.user2_id c1) c2 = true ->
        c1 = c2)).
Proof.
  intros w.
  assert (H1 : reachable w)
    by (exact sold_reachable).
  split; [exact H1|].
  exact (one_conversation_per_pair_of_users w H1).
Defined.

Lemma one_rating_per_transaction_and_rater_witness :
  let w := Scenario.rated in
  let r1 := (Cases.first_rating Scenario.rated) in
  let r2 := (Cases.first_rating Scenario.rated) in
  ((reachable w)
   /\ (In r1 (ratings (store w)))
   /\ (In r2 (ratings (store w)))
   /\ (Rating.transaction_id r1 = Rating.transaction_id r2)
   /\ (Rating.rater_id r1 = Rating.rater_id r2))
  /\ (r1 = r2).
Proof.
  intros w r1 r2.
  assert (H1 : reachable w)
    by (exact rated_reachable).
  assert (H2 : In r1 (ratings (store w)))
    by (vm_compute; left; reflexivity).
  assert (H3 : In r2 (ratings (store w)))
    by (vm_compute; left; reflexivity).
  assert (H4 : Rating.transaction_id r1 = Rating.transaction_id r2)
    by (reflexivity).
  assert (H5 : Rating.rater_id r1 = Rating.rater_id r2)
    by (reflexivity).
  split; [exact (conj H1 (conj H2 (conj H3 (conj H4 H5))))|].
  exact (one_rating_per_transaction_and_rater w r1 r2 H1 H2 H3 H4 H5).
Defined.

Lemma pending_offer_is_from_a_participant_witness :
  let w := Scenario.offered in
  let c := (Cases.thread Scenario.offered) in
  ((reachable w)
   /\ (In c (conversations (store w))))
  /\ ((forall x, Conversation.pending_offer_from_user_id c = Some x ->
             x = Conversation.user1_id c \/ x = Conversation.user2_id c)
  /\ (forall p, Conversation.pending_offer_price c = Some p -> 0 <= p)).
Proof.
  intros w c.
  assert (H1 : reachable w)
    by (exact offered_reachable).
  assert (H2 : In c (conversations (store w)))
    by (vm_compute; left; reflexivity).
  split; [exact (conj H1 H2)|].
  exact (pending_offer_is_from_a_participant w c H1 H2).
Defined.

Lemma nobody_buys_from_themselves_witness :
  let w := Scenario.sold in
  let t := (Cases.sale 1 Scenario.sold) in
  ((reachable w)
   /\ (In t (transactions (store w))))
  /\ (Transaction.seller_id t <> Transaction.buyer_id t).
Proof.
  intros w t.
  assert (H1 : reachable w)
    by (exact sold_reachable).
  assert (H2 : In t (transactions (store w)))
    by (vm_compute; left; reflexivity).
  split; [exact (conj H1 H2)|].
  exact (nobody_buys_from_themselves w t H1 H2).
Defined.

Lemma conversations_never_link_their_transaction_witness :
  let w := Scenario.sold in
  let c := (Cases.thread Scenario.sold) in
  ((reachable w)
   /\ (In c (conversations (store w))))
  /\ (Conversation.transaction_id c = None
  /\ (Conversation.is_sold c = true -> Conversation.pending_offer_price c = None)).
Proof.
  intros w c.
  assert (H1 : reachable w)
    by (exact sold_reachable).
  assert (H2 : In c (conversations (store w)))
    by (vm_compute; left; reflexivity).
  split; [exact (conj H1 H2)|].
  exact (conversations_never_link_their_transaction w c H1 H2).
Defined.

Lemma respond_refuses_other_actions_witness :
  let w := Scenario.offered in
  let conversation_id := 1 in
  let response_data := ({[ "action" := JString "maybe" ]} : gmap string json) in
  let current_user := Scenario.alice in
  let c := (Cases.thread Scenario.offered) in
  ((get_conversation conversation_id (store w) = Some c)
   /\ (participant current_user c)
   /\ (has_pending_offer c = true))
  /\ (let answer := run (respond_to_offer conversation_id response_data current_user) w in
  (get_item (Conversation.item_id c) (store w) = None ->
   answer = (inl (HTTPException HTTP_404_NOT_FOUND "Item not found"), w))
  /\ (get_item (Conversation.item_id c) (store w) <> None ->
      ~ action_is response_data "accept" ->
      ~ action_is response_data "reject" ->
      ~ action_is response_data "counter" ->
      answer = (inl (HTTPException HTTP_400_BAD_REQUEST
                       "Invalid action. Must be 'accept', 'reject', or 'counter'"), w))).
Proof.
  intros w conversation_id response_data current_user c.
  assert (H1 : get_conversation conversation_id (store w) = Some c)
    by (vm_compute; reflexivity).
  assert (H2 : participant current_user c)
    by (right; reflexivity).
  assert (H3 : has_pending_offer c = true)
    by (vm_compute; reflexivity).
  split; [exact (conj H1 (conj H2 H3))|].
  exact (respond_refuses_other_actions w conversation_id response_data current_user c H1 H2 H3).
Defined.

Lemma counter_price_must_be_a_number_witness :
  let w := Scenario.offered in
  let conversation_id := 1 in
  let response_data := (Scenario.counter (JString "a lot")) in
  let current_user := Scenario.alice in
  let c := (Cases.thread Scenario.offered) in
  let item := Scenario.bike in
  ((get_conversation conversation_id (store w) = Some c)
   /\ (participant current_user c)
   /\ (has_pending_offer c = true)
   /\ (get_item (Conversation.item_id c) (store w) = Some item)
   /\ (action_is response_data "counter"))
  /\ (let price := json_get response_data "counter_price" in
  let answer := run (respond_to_offer conversation_id response_data current_user) w in
  (json_truthy price = false ->
   answer = (inl (HTTPException HTTP_400_BAD_REQUEST "Invalid counter offer price"), w))
  /\ (json_truthy price = true -> json_number price = None ->
      answer = (inl (Unhandled "TypeError: '<=' not supported"), w)
      /\ response_status (Unhandled "TypeError: '<=' not supported")
         = HTTP_500_INTERNAL_SERVER_ERROR)).
Proof.
  intros w conversation_id response_data current_user c item.
  assert (H1 : get_conversation conversation_id (store w) = Some c)
    by (vm_compute; reflexivity).
  assert (H2 : participant current_user c)
    by (right; reflexivity).
  assert (H3 : has_pending_offer c = true)
    by (vm_compute; reflexivity).
  assert (H4 : get_item (Conversation.item_id c) (store w) = Some item)
    by (vm_compute; reflexivity).
  assert (H5 : action_is response_data "counter")
    by (vm_compute; reflexivity).
  split; [exact (conj H1 (conj H2 (conj H3 (conj H4 H5))))|].
  exact (counter_price_must_be_a_number w conversation_id response_data current_user c item H1 H2 H3 H4 H5).
Defined.

Lemma contact_without_a_new_item_writes_nothing_witness :
  let w := Scenario.opened in
  let data := (ConversationCreate.Build 1 None) in
  let current_user := Scenario.bob in
  let user2 := Scenario.alice in
  let existing := (Cases.thread Scenario.opened) in
  ((User.id current_user <> ConversationCreate.user2_id data)
   /\ (get_user (ConversationCreate.user2_id data) (store w) = Some user2)
   /\ (find_conversation_between (User.id current_user) (ConversationCreate.user2_id data)
    (store w) = Some existing)
   /\ (truthy (ConversationCreate.item_id data) = false
  \/ ConversationCreate.item_id data = Conversation.item_id existing)
   /\ (truthy (Conversation.transaction_id existing) = false))
  /\ (exists resp : ConversationResponse.t,
    run (create_conversation data current_user) w = (inr resp, w)
    /\ ConversationResponse.id resp = Conversation.id existing
    /\ ConversationResponse.item_id resp = Conversation.item_id existing
    /\ ConversationResponse.is_sold resp = Conversation.is_sold existing
    /\ ConversationResponse.is_ended resp = Conversation.is_ended existing
    /\ ConversationResponse.status resp = "active").
Proof.
  intros w data current_user user2 existing.
  assert (H1 : User.id current_user <> ConversationCreate.user2_id data)
    by (discriminate).
  assert (H2 : get_user (ConversationCreate.user2_id data) (store w) = Some user2)
    by (vm_compute; reflexivity).
  assert (H3 : find_conversation_between (User.id current_user) (ConversationCreate.user2_id data)
    (store w) = Some existing)
    by (vm_compute; reflexivity).
  assert (H4 : truthy (ConversationCreate.item_id data) = false
  \/ ConversationCreate.item_id data = Conversation.item_id existing)
    by (left; reflexivity).
  assert (H5 : truthy (Conversation.transaction_id existing) = false)
    by (vm_compute; reflexivity).
  split; [exact (conj H1 (conj H2 (conj H3 (conj H4 H5))))|].
  exact (contact_without_a_new_item_writes_nothing w data current_user user2 existing H1 H2 H3 H4 H5).
Defined.

Lemma create_conversation_checks_the_peer_witness :
  run (create_conversation (ConversationCreate.Build 1 None) Scenario.alice)
      Scenario.registered
  = (inl (HTTPException HTTP_400_BAD_REQUEST "Cannot create conversation with yourself"),
     Scenario.registered)
  /\ run (create_conversation (ConversationCreate.Build 9 None) Scenario.alice)
         Scenario.registered
     = (inl (HTTPException HTTP_404_NOT_FOUND "User not found"), Scenario.registered).
Proof.
  split.
  - apply (proj1 (create_conversation_checks_the_peer Scenario.registered
                    (ConversationCreate.Build 1 None) Scenario.alice)).
    reflexivity.
  - apply (proj2 (create_conversation_checks_the_peer Scenario.registered
                    (ConversationCreate.Build 9 None) Scenario.alice)).
    + discriminate.
    + vm_compute. reflexivity.
Defined.

Lemma has_rated_is_the_update_test_witness :
  (exists listed,
      run (get_transaction_ratings 1 Scenario.bob) Scenario.sold
      = (inr (listed, false), Scenario.sold))
  /\ (exists listed,
        run (get_transaction_ratings 1 Scenario.bob) Scenario.rated
        = (inr (listed, true), Scenario.rated)).
Proof.
  split; eexists.
  - etransitivity.
    + apply (proj2 (proj2 (has_rated_is_the_update_test Scenario.sold 1 Scenario.bob))
               (Cases.sale 1 Scenario.sold)).
      * vm_compute. reflexivity.
      * right. reflexivity.
    + vm_compute. reflexivity.
  - etransitivity.
    + apply (proj2 (proj2 (has_rated_is_the_update_test Scenario.rated 1 Scenario.bob))
               (Cases.sale 1 Scenario.rated)).
      * vm_compute. reflexivity.
      * right. reflexivity.
    + vm_compute. reflexivity.
Defined.
